(** * Voice chatbot API: the request pipeline of [app/main.py]

    A shallow embedding of the FastAPI handler [voice_chat] and of the three
    stage modules it drives ([stt.py], [llm.py], [tts.py]), together with the
    properties of the pipeline stated in the specification.

    Conventions of the model.
    - A Python [str] is a Rocq [string]; its characters are read as the code
      points 0..255.  Where the code depends on a text holding other
      characters (the UTF-8 decoding of a file read as text, the latin-1
      encoding of a response header) the outcome is read from the
      environment.
    - The file system is a finite map from paths to file contents.
    - Everything the code obtains from outside (the clock, random names, the
      external programs, the chat service, I/O failures) is read from an
      environment [Env]; the handler is a function of the environment and of
      the state it starts in.
    - Python exceptions are the [Raise] results of a state-and-exception
      monad; [try/except] and [with] are combinators of that monad.
    - Times are whole thousandths of a second, the precision of the
      ["%.3f"] texts that the handler stores; [float] reads such a text
      back exactly.  The rounding of a finer clock reading by ["%.3f"] is
      outside the model.
    - The state carries a list of events (steps started, calls made) that
      the code never reads; the properties are stated on it. *)

From Stdlib Require Import ZArith Ascii.
From Stdlib Require DecimalString HexadecimalString DecimalN.
From stdpp Require Import base option list strings gmap fin_maps.

Local Open Scope Z_scope.

(** ** Python string operations *)

Module Py.

Definition ord (c : ascii) : Z := Z.of_N (N_of_ascii c).
Definition chr (n : Z) : ascii := ascii_of_N (Z.to_N n).

Definition between (lo hi n : Z) : bool := (lo <=? n) && (n <=? hi).

(** [str.isspace] on one character (code points below 256). *)
Definition isspace (c : ascii) : bool :=
  let n := ord c in
  between 9 13 n || between 28 32 n || (n =? 133) || (n =? 160).

(** [str.lower] on one character: A-Z, and the Latin-1 capitals
    U+00C0..U+00DE except the multiplication sign U+00D7. *)
Definition lower_char (c : ascii) : ascii :=
  let n := ord c in
  if between 65 90 n || (between 192 222 n && negb (n =? 215))
  then chr (n + 32) else c.

Fixpoint lower (s : string) : string :=
  match s with
  | EmptyString => EmptyString
  | String c s' => String (lower_char c) (lower s')
  end.

(** [s.lstrip(chars)], [s.rstrip(chars)] with the character set given as a
    predicate, and [s.strip()]. *)
Fixpoint lstrip_by (p : ascii → bool) (s : string) : string :=
  match s with
  | EmptyString => EmptyString
  | String c s' => if p c then lstrip_by p s' else s
  end.

Fixpoint rstrip_by (p : ascii → bool) (s : string) : string :=
  match s with
  | EmptyString => EmptyString
  | String c s' =>
      match rstrip_by p s' with
      | EmptyString => if p c then EmptyString else String c EmptyString
      | r => String c r
      end
  end.

Definition strip (s : string) : string := rstrip_by isspace (lstrip_by isspace s).

Definition rstrip_chars (chars : string) (s : string) : string :=
  rstrip_by (λ c, bool_decide (c ∈ String.list_ascii_of_string chars)) s.

(** The translation of line ends by a file opened for reading in text
    mode: [\r\n] and [\r] become [\n]. *)
Fixpoint universal_newlines (s : string) : string :=
  match s with
  | EmptyString => EmptyString
  | String c s' =>
      if Ascii.eqb c "013" then
        String "010"
          match s' with
          | String c' s'' =>
              if Ascii.eqb c' "010" then universal_newlines s''
              else universal_newlines s'
          | EmptyString => EmptyString
          end
      else String c (universal_newlines s')
  end.

(** [sep.join(l)] *)
Fixpoint join (sep : string) (l : list string) : string :=
  match l with
  | [] => ""
  | [x] => x
  | x :: rest => x +:+ sep +:+ join sep rest
  end.

(** [s.rfind(c)]: the highest index of [c] in [s], -1 when there is none.
    [i] is the index of the head of [s]. *)
Fixpoint rfind_from (c : ascii) (s : string) (i : Z) : Z :=
  match s with
  | EmptyString => -1
  | String a s' =>
      let r := rfind_from c s' (i + 1) in
      if 0 <=? r then r else if Ascii.eqb a c then i else -1
  end.
Definition rfind (c : ascii) (s : string) : Z := rfind_from c s 0.

(** Slices [p[:n]], [p[n:]] and the one-character slice [p[i:i+1]]. *)
Fixpoint take (n : nat) (s : string) : string :=
  match n, s with
  | S k, String c s' => String c (take k s')
  | _, _ => EmptyString
  end.
Fixpoint drop (n : nat) (s : string) : string :=
  match n, s with
  | S k, String _ s' => drop k s'
  | _, _ => s
  end.
Definition char_slice (s : string) (i : nat) : string := take 1 (drop i s).

Definition startswith (pre s : string) : bool := String.prefix pre s.
Fixpoint endswith_char (c : ascii) (s : string) : bool :=
  match s with
  | EmptyString => false
  | String a EmptyString => Ascii.eqb a c
  | String _ s' => endswith_char c s'
  end.

(** [genericpath._splitext], the loop that skips leading dots: it runs
    [filenameIndex] up to [dotIndex] ([steps] iterations are left). *)
Fixpoint splitext_loop (p : string) (dotIndex filenameIndex : nat) (steps : nat)
  : string * string :=
  match steps with
  | O => (p, "")
  | S k =>
      if negb (String.eqb (char_slice p filenameIndex) ".")
      then (take dotIndex p, drop dotIndex p)
      else splitext_loop p dotIndex (S filenameIndex) k
  end.

(** [os.path.splitext] of [posixpath]: separator "/", no alternative
    separator, extension separator ".". *)
Definition splitext (p : string) : string * string :=
  let sepIndex := rfind "/" p in
  let dotIndex := rfind "." p in
  if sepIndex <? dotIndex then
    let filenameIndex := sepIndex + 1 in
    splitext_loop p (Z.to_nat dotIndex) (Z.to_nat filenameIndex)
                  (Z.to_nat (dotIndex - filenameIndex))
  else (p, "").

(** [os.path.join] of [posixpath] for two components. *)
Definition path_join (a b : string) : string :=
  if startswith "/" b then b
  else if String.eqb a "" || endswith_char "/" a then a +:+ b
  else a +:+ "/" +:+ b.

(** Decimal rendering of a natural number, as [str(n)] prints it. *)
Definition str_of_N (n : N) : string := DecimalString.NilZero.string_of_uint (N.to_uint n).

Definition digit_char (d : Z) : ascii := chr (48 + d).

(** Elapsed times are kept in thousandths of a second, the resolution at
    which the handler records them.  [fmt_3f ms] is the text of
    [f"{x:.3f}"] for the value [x = ms / 1000]. *)
Definition fmt_3f (ms : Z) : string :=
  let a := Z.abs ms in
  (if ms <? 0 then "-" else "") +:+
  str_of_N (Z.to_N (a / 1000)) +:+
  String "." (String (digit_char (a / 100 mod 10))
             (String (digit_char (a / 10 mod 10))
             (String (digit_char (a mod 10)) EmptyString))).

Definition digit_val (c : ascii) : option Z :=
  let n := ord c in if between 48 57 n then Some (n - 48) else None.

(** The text before the first "." and the text after it. *)
Fixpoint partition_dot (s : string) : string * option string :=
  match s with
  | EmptyString => (EmptyString, None)
  | String c s' =>
      if Ascii.eqb c "." then (EmptyString, Some s')
      else let '(a, b) := partition_dot s' in (String c a, b)
  end.

(** [float(s)] on the decimal notation with three fractional digits, which
    is the only notation the handler feeds it; the result is in thousandths.
    [None] stands for the [ValueError] of a text that is not a number. *)
Definition float_unsigned (body : string) : option Z :=
  match partition_dot body with
  | (ip, Some (String a (String b (String c EmptyString)))) =>
      match DecimalString.NilZero.uint_of_string ip,
            digit_val a, digit_val b, digit_val c with
      | Some u, Some x, Some y, Some z =>
          Some (1000 * Z.of_N (N.of_uint u) + 100 * x + 10 * y + z)
      | _, _, _, _ => None
      end
  | _ => None
  end.

Definition float (s : string) : option Z :=
  match s with
  | String c r =>
      if Ascii.eqb c "-" then Z.opp <$> float_unsigned r else float_unsigned s
  | EmptyString => None
  end.

(** Lower-case hexadecimal rendering, used for random names. *)
Definition hex_of_N (n : N) : string :=
  HexadecimalString.NilZero.string_of_uint (N.to_hex_uint n).

End Py.


(** ** Exceptions, state and environment *)

Inductive exn_class :=
  | CalledProcessError | FileNotFoundError | OSError
  | TypeError | ValueError | ServiceError
  | UnicodeDecodeError | UnicodeEncodeError.

Global Instance exn_class_eq_dec : EqDecision exn_class.
Proof. solve_decision. Defined.

(** A raised exception: a Python exception of some class whose [str(e)] is
    [msg], or FastAPI's [HTTPException]. *)
Inductive exn :=
  | PyErr (cls : exn_class) (msg : string)
  | HTTPException (status_code : Z) (detail : string).

Definition str (e : exn) : string :=
  match e with
  | PyErr _ msg => msg
  | HTTPException c d => Py.str_of_N (Z.to_N c) +:+ ": " +:+ d
  end.

Definition isinstance (cls : exn_class) (e : exn) : bool :=
  match e with
  | PyErr c _ => bool_decide (c = cls)
  | HTTPException _ _ => false
  end.

(** [except Exception] *)
Definition Exception (e : exn) : bool := true.

Inductive result (A : Type) :=
  | Ok (a : A)
  | Raise (e : exn).
Arguments Ok {A} a.
Arguments Raise {A} e.

Inductive level := INFO | ERROR | PRINT.

(** What the handler did, in order: the pipeline steps it started (named by
    their key in [process_times]) and the calls it made to the stage
    functions and to the external collaborators.  The record is kept beside
    the program state and is never read by the code. *)
Inductive event :=
  | Stage (name : string)
  | Call (fn : string) (args : list string).

(** Values stored in the [response_data] dictionary. *)
Inductive value :=
  | VStr (s : string)
  | VFloat (thousandths : Z)
  | VDict (d : list (string * string)).

Record World := mkWorld {
  fs : gmap string string;               (* files: path to content *)
  TEMP_FILES : list string;              (* main.TEMP_FILES *)
  chat_history : list (string * string); (* llm.chat.history: role, text *)
  process_times : list (string * string);(* local dict of voice_chat *)
  response_data : list (string * value); (* local dict of voice_chat *)
  log : list (level * string);           (* logger and print output *)
  trace : list event;                    (* calls made, oldest first *)
  names_drawn : nat;                     (* random names used so far *)
  clock_reads : nat                      (* readings of time.time() so far *)
}.

(** What an external program did: it could not be started, or it ran,
    wrote some files and exited with [code]; [diag] is the text of the
    [CalledProcessError] raised for a non-zero code. *)
Inductive proc_outcome :=
  | CannotStart (msg : string)
  | Exited (code : Z) (diag : string) (written : list (string * string)).

(** What [chat.send_message] did. *)
Inductive send_outcome :=
  | SendRaises (msg : string)
  | Reply (text : string)
  | ReplyNoText (msg : string).

(** The environment.  [json_dump] is [json.dump] on the history of the chat
    session: the text it writes, or the text it has written when it fails
    together with the message of the failure.  On the objects that the chat
    library keeps in a history it fails as soon as the history holds a
    turn; the model leaves the outcome to the environment.  [decode_utf8]
    is the UTF-8 decoding of the content of a file: the text, or the message
    of the [UnicodeDecodeError].  [encode_error] is the message of the
    [UnicodeEncodeError] of the latin-1 encoding of the metadata header, if
    the metadata cannot be encoded. *)
Record Env := mkEnv {
  BASE_DIR : string;
  gettempdir : string;
  random : nat → N;
  clock : nat → Z;
  write_error : string → option string;
  remove_error : string → option string;
  run_program : list string → gmap string string → proc_outcome;
  send_message : list (string * string) → string → send_outcome;
  json_dump : list (string * string) → string + string * string;
  decode_utf8 : string → string + string;
  encode_error : list (string * value) → option string
}.

Definition set_fs (f : gmap string string → gmap string string) (w : World) : World :=
  mkWorld (f (fs w)) (TEMP_FILES w) (chat_history w) (process_times w)
          (response_data w) (log w) (trace w) (names_drawn w) (clock_reads w).
Definition set_TEMP_FILES (f : list string → list string) (w : World) : World :=
  mkWorld (fs w) (f (TEMP_FILES w)) (chat_history w) (process_times w)
          (response_data w) (log w) (trace w) (names_drawn w) (clock_reads w).
Definition set_chat_history (f : list (string * string) → list (string * string))
    (w : World) : World :=
  mkWorld (fs w) (TEMP_FILES w) (f (chat_history w)) (process_times w)
          (response_data w) (log w) (trace w) (names_drawn w) (clock_reads w).
Definition set_process_times (f : list (string * string) → list (string * string))
    (w : World) : World :=
  mkWorld (fs w) (TEMP_FILES w) (chat_history w) (f (process_times w))
          (response_data w) (log w) (trace w) (names_drawn w) (clock_reads w).
Definition set_response_data (f : list (string * value) → list (string * value))
    (w : World) : World :=
  mkWorld (fs w) (TEMP_FILES w) (chat_history w) (process_times w)
          (f (response_data w)) (log w) (trace w) (names_drawn w) (clock_reads w).
Definition set_log (f : list (level * string) → list (level * string))
    (w : World) : World :=
  mkWorld (fs w) (TEMP_FILES w) (chat_history w) (process_times w)
          (response_data w) (f (log w)) (trace w) (names_drawn w) (clock_reads w).
Definition set_trace (f : list event → list event) (w : World) : World :=
  mkWorld (fs w) (TEMP_FILES w) (chat_history w) (process_times w)
          (response_data w) (log w) (f (trace w)) (names_drawn w) (clock_reads w).
Definition set_names_drawn (f : nat → nat) (w : World) : World :=
  mkWorld (fs w) (TEMP_FILES w) (chat_history w) (process_times w)
          (response_data w) (log w) (trace w) (f (names_drawn w)) (clock_reads w).
Definition set_clock_reads (f : nat → nat) (w : World) : World :=
  mkWorld (fs w) (TEMP_FILES w) (chat_history w) (process_times w)
          (response_data w) (log w) (trace w) (names_drawn w) (f (clock_reads w)).

(** ** The monad *)

Definition M (A : Type) : Type := Env → World → result A * World.

Global Instance M_ret : MRet M := λ A a _ w, (Ok a, w).
Global Instance M_bind : MBind M := λ A B f m env w,
  match m env w with
  | (Ok a, w') => f a env w'
  | (Raise e, w') => (Raise e, w')
  end.

Definition raise {A} (e : exn) : M A := λ _ w, (Raise e, w).
Definition ask : M Env := λ env w, (Ok env, w).
Definition gets {A} (f : World → A) : M A := λ _ w, (Ok (f w), w).
Definition modify (f : World → World) : M unit := λ _ w, (Ok tt, f w).

(** [try: body except <classes> as e: handler e] *)
Definition try_except {A} (body : M A) (classes : exn → bool) (handler : exn → M A)
  : M A := λ env w,
  match body env w with
  | (Raise e, w') => if classes e then handler e env w' else (Raise e, w')
  | r => r
  end.

(** [d[k] = v] on a dictionary that keeps insertion order. *)
Fixpoint dict_set {V} (k : string) (v : V) (d : list (string * V)) : list (string * V) :=
  match d with
  | [] => [(k, v)]
  | (k', v') :: rest =>
      if String.eqb k' k then (k, v) :: rest else (k', v') :: dict_set k v rest
  end.

Definition record (e : event) : M unit := modify (set_trace (λ t, t ++ [e])).
Definition emit (l : level) (msg : string) : M unit :=
  modify (set_log (λ t, t ++ [(l, msg)])).
Definition logger_info : string → M unit := emit INFO.
Definition logger_error : string → M unit := emit ERROR.
Definition print : string → M unit := emit PRINT.

(** [time.time()], in thousandths of a second. *)
Definition time : M Z := λ env w,
  (Ok (clock env (clock_reads w)), set_clock_reads S w).

(** The next random name. *)
Definition draw : M string := λ env w,
  (Ok (Py.hex_of_N (random env (names_drawn w))), set_names_drawn S w).
(** [str(uuid.uuid4())] *)
Definition uuid4 : M string := draw.

(** [os.path.exists] *)
Definition exists_ (path : string) : M bool :=
  gets (λ w, bool_decide (is_Some (fs w !! path))).

(** [open(path).read()] *)
Definition read_file (path : string) : M string :=
  f ← gets fs;
  match f !! path with
  | Some content => mret content
  | None => raise (PyErr FileNotFoundError
                     ("[Errno 2] No such file or directory: '" +:+ path +:+ "'"))
  end.

(** [open(path, "r", encoding="utf-8").read()] *)
Definition read_text (path : string) : M string :=
  content ← read_file path;
  env ← ask;
  match decode_utf8 env content with
  | inl text => mret (Py.universal_newlines text)
  | inr msg => raise (PyErr UnicodeDecodeError msg)
  end.

(** [open(path, "wb").write(content)] *)
Definition write_file (path content : string) : M unit :=
  env ← ask;
  match write_error env path with
  | Some msg => raise (PyErr OSError msg)
  | None => modify (set_fs <[path := content]>)
  end.

(** [os.remove] *)
Definition os_remove (path : string) : M unit :=
  env ← ask;
  match remove_error env path with
  | Some msg => raise (PyErr OSError msg)
  | None => modify (set_fs (delete path))
  end.

(** [os.path.getsize] *)
Definition getsize (path : string) : M nat :=
  f ← gets fs;
  match f !! path with
  | Some content => mret (String.length content)
  | None => raise (PyErr FileNotFoundError
                     ("[Errno 2] No such file or directory: '" +:+ path +:+ "'"))
  end.

Definition inside (dir path : string) : bool := Py.startswith (dir +:+ "/") path.

(** Every file below [dir] is removed. *)
Definition rmtree (dir : string) (f : gmap string string) : gmap string string :=
  filter (λ kv : string * string, inside dir kv.1 = false) f.

(** [with tempfile.TemporaryDirectory() as tmpdir: body]: the directory is
    removed when the block is left, by a return or by an exception. *)
Definition TemporaryDirectory {A} (body : string → M A) : M A := λ env w,
  match draw env w with
  | (Ok name, w1) =>
      let tmpdir := Py.path_join (gettempdir env) ("tmp" +:+ name) in
      let '(r, w2) := body tmpdir env w1 in
      (r, set_fs (rmtree tmpdir) w2)
  | (Raise e, w1) => (Raise e, w1)
  end.

(** [subprocess.run(cmd, check=True)] *)
Definition subprocess_run (cmd : list string) : M unit :=
  record (Call "subprocess.run" cmd);;
  env ← ask;
  f ← gets fs;
  match run_program env cmd f with
  | CannotStart msg => raise (PyErr OSError msg)
  | Exited code diag written =>
      modify (set_fs (λ f, foldl (λ g kv, <[kv.1 := kv.2]> g) f written));;
      if code =? 0 then mret tt else raise (PyErr CalledProcessError diag)
  end.

(** ** stt.py *)

Module stt.

Definition WHISPER_DIR (env : Env) : string := Py.path_join (BASE_DIR env) "whisper.cpp".
Definition WHISPER_BINARY (env : Env) : string :=
  Py.path_join (Py.path_join (Py.path_join (WHISPER_DIR env) "build") "bin") "whisper-cli".
Definition WHISPER_MODEL_PATH (env : Env) : string :=
  Py.path_join (Py.path_join (WHISPER_DIR env) "models") "ggml-small-q5_1.bin".

Definition transcribe_speech_to_text (file_bytes file_ext : string) : M string :=
  record (Call "transcribe_speech_to_text" [file_bytes; file_ext]);;
  TemporaryDirectory (λ tmpdir,
    u ← uuid4;
    let audio_path := Py.path_join tmpdir (u +:+ file_ext) in
    let output_basename := Py.path_join tmpdir "transcription" in
    let result_path := output_basename +:+ ".txt" in
    write_file audio_path file_bytes;;
    env ← ask;
    let cmd := [WHISPER_BINARY env; "-m"; WHISPER_MODEL_PATH env;
                "-f"; audio_path; "-otxt"; "-of"; output_basename] in
    failed ← try_except (subprocess_run cmd;; mret None)
               (isinstance CalledProcessError)
               (λ e, mret (Some ("[ERROR] Whisper failed: " +:+ str e)));
    match failed with
    | Some sentinel => mret sentinel
    | None =>
        try_except (read_text result_path)
          (isinstance FileNotFoundError)
          (λ _, mret "[ERROR] Transcription file not found")
    end).

End stt.

(** ** llm.py *)

Module llm.

Definition CHAT_HISTORY_FILE (env : Env) : string :=
  Py.path_join (BASE_DIR env) "chat_history.json".

Definition save_chat_history (history : list (string * string)) : M unit :=
  try_except
    (env ← ask;
     write_file (CHAT_HISTORY_FILE env) "";;
     match json_dump env history with
     | inl text => write_file (CHAT_HISTORY_FILE env) text
     | inr (written, msg) =>
         write_file (CHAT_HISTORY_FILE env) written;;
         raise (PyErr TypeError msg)
     end)
    Exception
    (λ e, print ("[ERROR] Gagal menyimpan riwayat chat: " +:+ str e)).

(** The start of the module: the key is read from the environment variable
    [GEMINI_API_KEY], and the module refuses to load without it. *)
Definition GOOGLE_API_KEY (getenv : option string) : M string :=
  match getenv with
  | Some key =>
      if String.eqb key "" then raise (PyErr ValueError "GEMINI_API_KEY not found in .env file")
      else mret key
  | None => raise (PyErr ValueError "GEMINI_API_KEY not found in .env file")
  end.

(** [load_chat_history].  The chat session that the function returns is
    represented by its history.  [json_load] stands for what the [try] block
    does with the text of the file, [json.load] and the start of a session
    on the result: it gives a history or fails with a message. *)
Definition load_chat_history (json_load : string → string + list (string * string))
  : M (list (string * string)) :=
  env ← ask;
  found ← exists_ (CHAT_HISTORY_FILE env);
  nothing ← (if negb found then mret true
             else size ← getsize (CHAT_HISTORY_FILE env); mret (Nat.eqb size 0));
  if nothing : bool then mret []
  else
    try_except
      (text ← read_file (CHAT_HISTORY_FILE env);
       match json_load text with
       | inr history => mret history
       | inl msg => raise (PyErr ValueError msg)
       end)
      Exception
      (λ e, print ("[ERROR] Gagal memuat riwayat chat: " +:+ str e);; mret []).

(** [chat = load_chat_history()] *)
Definition start_chat (json_load : string → string + list (string * string)) : M unit :=
  history ← load_chat_history json_load;
  modify (set_chat_history (λ _, history)).

(** [chat.send_message(prompt)]: on a reply the session appends the turn
    to its history.  The result is what [response.text] will give. *)
Definition chat_send_message (prompt : string) : M (result string) :=
  record (Call "chat.send_message" [prompt]);;
  env ← ask;
  h ← gets chat_history;
  match send_message env h prompt with
  | SendRaises msg => raise (PyErr ServiceError msg)
  | Reply text =>
      modify (set_chat_history (λ h, h ++ [("user", prompt); ("model", text)]));;
      mret (Ok text)
  | ReplyNoText msg =>
      modify (set_chat_history (λ h, h ++ [("user", prompt); ("model", "")]));;
      mret (Raise (PyErr ValueError msg))
  end.

Definition generate_response (prompt : string) : M string :=
  record (Call "generate_response" [prompt]);;
  try_except
    (response ← chat_send_message prompt;
     h ← gets chat_history;
     save_chat_history h;;
     match response with
     | Ok text => mret (if String.eqb text "" then "[ERROR] No response from model" else text)
     | Raise e => raise e
     end)
    Exception
    (λ e, mret ("[ERROR] " +:+ str e)).

End llm.

(** ** tts.py *)

Module tts.

Definition COQUI_DIR (env : Env) : string := Py.path_join (BASE_DIR env) "coqui_utils".
Definition COQUI_MODEL_PATH (env : Env) : string :=
  Py.path_join (COQUI_DIR env) "checkpoint_1260000-inference.pth".
Definition COQUI_CONFIG_PATH (env : Env) : string :=
  Py.path_join (COQUI_DIR env) "config.json".
Definition COQUI_SPEAKERS_PATH (env : Env) : string :=
  Py.path_join (COQUI_DIR env) "speakers.pth".
Definition COQUI_SPEAKER : string := "wibowo".

Definition sample_audio (env : Env) : string := Py.path_join (COQUI_DIR env) "test_output.wav".

(** The fallback block that [_tts_with_coqui] repeats in its three failure
    branches: copy the sample to a new file, or return [no_fallback]. *)
Definition fallback (tmp_dir no_fallback : string) : M string :=
  u ← uuid4;
  let fallback_path := Py.path_join tmp_dir ("fallback_tts_" +:+ u +:+ ".wav") in
  env ← ask;
  found ← exists_ (sample_audio env);
  if found : bool then
    content ← read_file (sample_audio env);
    write_file fallback_path content;;
    mret fallback_path
  else mret no_fallback.

(** The loop over the required files; [continue_] is the code after it. *)
Fixpoint verify_required (tmp_dir : string) (required : list (string * string))
    (continue_ : M string) : M string :=
  match required with
  | [] => continue_
  | (path, desc) :: rest =>
      found ← exists_ path;
      if negb found then
        print ("[ERROR] " +:+ desc +:+ " not found at " +:+ path);;
        fallback tmp_dir ("[ERROR] " +:+ desc +:+ " not found and no fallback available")
      else verify_required tmp_dir rest continue_
  end.

Definition _tts_with_coqui (text : string) : M string :=
  env ← ask;
  let tmp_dir := gettempdir env in
  u ← uuid4;
  let output_path := Py.path_join tmp_dir ("tts_" +:+ u +:+ ".wav") in
  verify_required tmp_dir
    [(COQUI_MODEL_PATH env, "Model file");
     (COQUI_CONFIG_PATH env, "Config file");
     (COQUI_SPEAKERS_PATH env, "Speakers file")]
    (let cmd := ["tts"; "--text"; text;
                 "--model_path"; COQUI_MODEL_PATH env;
                 "--config_path"; COQUI_CONFIG_PATH env;
                 "--speakers_file_path"; COQUI_SPEAKERS_PATH env;
                 "--speaker_idx"; COQUI_SPEAKER;
                 "--out_path"; output_path] in
     try_except
       (print ("Running TTS command: " +:+ Py.join " " cmd);;
        subprocess_run cmd;;
        created ← exists_ output_path;
        if created : bool then mret output_path
        else
          print ("[ERROR] TTS output file not created at " +:+ output_path);;
          fallback tmp_dir "[ERROR] Failed to create audio file")
       (isinstance CalledProcessError)
       (λ e,
          print ("[ERROR] TTS subprocess failed: " +:+ str e);;
          fallback tmp_dir "[ERROR] Failed to synthesize speech")).

Definition transcribe_text_to_speech (text : string) : M string :=
  record (Call "transcribe_text_to_speech" [text]);;
  path ← _tts_with_coqui text;
  mret path.

End tts.

(** ** main.py *)

Record UploadFile := mkUpload { filename : string; file : string }.

Module FileResponse.
Record t := mk {
  path : string;
  media_type : string;
  filename : string;
  headers : list (string * list (string * value))
}.
End FileResponse.

Module main.

Definition ALLOWED_AUDIO_EXTENSIONS : list string := [".wav"; ".mp3"; ".ogg"; ".m4a"].

(** The loop of the shutdown hook over [TEMP_FILES]. *)
Fixpoint cleanup_loop (files : list string) : M unit :=
  match files with
  | [] => mret tt
  | file_path :: rest =>
      found ← exists_ file_path;
      (if found : bool then
         try_except
           (os_remove file_path;;
            logger_info ("Cleaned up temp file: " +:+ file_path))
           Exception
           (λ e, logger_error ("Failed to clean up " +:+ file_path +:+ ": " +:+ str e))
       else mret tt);;
      cleanup_loop rest
  end.

Definition cleanup_temp_files : M unit :=
  files ← gets TEMP_FILES;
  cleanup_loop files.

(** [sum(float(t.rstrip('s')) for t in values)], from the accumulator [acc]. *)
Fixpoint sum_seconds (acc : Z) (values : list string) : M Z :=
  match values with
  | [] => mret acc
  | t :: rest =>
      match Py.float (Py.rstrip_chars "s" t) with
      | Some x => sum_seconds (acc + x) rest
      | None => raise (PyErr ValueError
                         ("could not convert string to float: '" +:+
                          Py.rstrip_chars "s" t +:+ "'"))
      end
  end.

Definition elapsed (start_time : Z) : M string :=
  now ← time;
  mret (Py.fmt_3f (now - start_time) +:+ "s").

(** The four numbered steps of [voice_chat], each with its own timing and
    its own [try/except]. *)

(** 1. Save uploaded audio to temp file *)
Definition save_audio (audio : UploadFile) (tmpdir file_ext : string) : M string :=
  record (Stage "save_audio");;
  start_time ← time;
  u ← uuid4;
  let temp_audio_path := Py.path_join tmpdir (u +:+ file_ext) in
  try_except
    (write_file temp_audio_path (file audio);;
     t ← elapsed start_time;
     modify (set_process_times (dict_set "save_audio" t));;
     logger_info ("Audio saved to " +:+ temp_audio_path))
    Exception
    (λ e,
       logger_error ("Failed to save audio: " +:+ str e);;
       raise (HTTPException 500 ("Failed to process audio: " +:+ str e)));;
  mret temp_audio_path.

(** 2. Speech-to-Text *)
Definition speech_to_text (temp_audio_path file_ext : string) : M string :=
  record (Stage "speech_to_text");;
  start_time ← time;
  try_except
    (audio_bytes ← read_file temp_audio_path;
     user_text ← stt.transcribe_speech_to_text audio_bytes file_ext;
     t ← elapsed start_time;
     modify (set_process_times (dict_set "speech_to_text" t));;
     modify (set_response_data (dict_set "transcribed_text" (VStr user_text)));;
     logger_info ("Transcribed text: " +:+ user_text);;
     mret user_text)
    Exception
    (λ e,
       let error_msg := "Speech-to-text failed: " +:+ str e in
       logger_error error_msg;;
       raise (HTTPException 500 error_msg)).

(** 3. Generate response from LLM *)
Definition llm_response (user_text : string) : M string :=
  record (Stage "llm_response");;
  start_time ← time;
  try_except
    (ai_response ← llm.generate_response (Py.strip user_text);
     t ← elapsed start_time;
     modify (set_process_times (dict_set "llm_response" t));;
     modify (set_response_data (dict_set "ai_response" (VStr ai_response)));;
     logger_info ("AI Response: " +:+ ai_response);;
     mret ai_response)
    Exception
    (λ e,
       let error_msg := "LLM processing failed: " +:+ str e in
       logger_error error_msg;;
       raise (HTTPException 500 error_msg)).

(** 4. Text-to-Speech *)
Definition text_to_speech (ai_response : string) : M string :=
  record (Stage "text_to_speech");;
  start_time ← time;
  try_except
    (audio_output_path ← tts.transcribe_text_to_speech ai_response;
     modify (set_TEMP_FILES (λ l, l ++ [audio_output_path]));;
     t ← elapsed start_time;
     modify (set_process_times (dict_set "text_to_speech" t));;
     logger_info ("TTS output saved to " +:+ audio_output_path);;
     mret audio_output_path)
    Exception
    (λ e,
       let error_msg := "Text-to-speech failed: " +:+ str e in
       logger_error error_msg;;
       raise (HTTPException 500 error_msg)).

(** The body of the [with tempfile.TemporaryDirectory()] block. *)
Definition stages (audio : UploadFile) (file_ext tmpdir : string) : M string :=
  temp_audio_path ← save_audio audio tmpdir file_ext;
  user_text ← speech_to_text temp_audio_path file_ext;
  ai_response ← llm_response user_text;
  text_to_speech ai_response.

(** The code after the block: the metadata and the response. *)
Definition respond (audio_output_path : string) : M FileResponse.t :=
  times ← gets process_times;
  modify (set_response_data (dict_set "process_times" (VDict times)));;
  total ← sum_seconds 0 times.*2;
  modify (set_response_data (dict_set "total_process_time" (VFloat total)));;
  info ← gets response_data;
  (* FileResponse encodes its headers *)
  env ← ask;
  match encode_error env info with
  | Some msg => raise (PyErr UnicodeEncodeError msg)
  | None =>
      mret (FileResponse.mk audio_output_path "audio/wav" "response.wav"
              [("X-Process-Info", info)])
  end.

Definition file_ext_of (audio : UploadFile) : string :=
  Py.lower (Py.splitext (filename audio)).2.

Definition voice_chat (audio : UploadFile) : M FileResponse.t :=
  modify (set_process_times (λ _, []));;
  modify (set_response_data (λ _, []));;
  (* Validate file format *)
  let file_ext := file_ext_of audio in
  if negb (bool_decide (file_ext ∈ ALLOWED_AUDIO_EXTENSIONS)) then
    raise (HTTPException 400
             ("Unsupported audio format. Allowed formats: " +:+
              Py.join ", " ALLOWED_AUDIO_EXTENSIONS))
  else
    audio_output_path ← TemporaryDirectory (stages audio file_ext);
    respond audio_output_path.

(** [str(b)] for a boolean. *)
Definition str_bool (b : bool) : string := if b then "True" else "False".

(** The dictionaries of the health checks: status and message. *)
Record health := mkHealth { health_status : string; health_message : string }.

(** [GET /] *)
Definition root : M (list (string * string)) :=
  mret [("status", "online"); ("message", "Voice Chatbot API is running")].

Definition check_stt_health : M health :=
  try_except
    (env ← ask;
     found ← exists_ (stt.WHISPER_BINARY env);
     mret (mkHealth (if found : bool then "ok" else "error")
                    ("Binary exists: " +:+ str_bool found)))
    Exception
    (λ e, mret (mkHealth "error" (str e))).

(** [GOOGLE_API_KEY] is the value that the module [llm] holds. *)
Definition check_llm_health (GOOGLE_API_KEY : string) : M health :=
  try_except
    (let has_key := negb (String.eqb GOOGLE_API_KEY "") in
     mret (mkHealth (if has_key then "ok" else "error")
                    (if has_key then "API key configured" else "API key missing")))
    Exception
    (λ e, mret (mkHealth "error" (str e))).

Definition check_tts_health : M health :=
  try_except
    (env ← ask;
     found ← exists_ (tts.COQUI_MODEL_PATH env);
     mret (mkHealth (if found : bool then "ok" else "error")
                    ("Model exists: " +:+ str_bool found)))
    Exception
    (λ e, mret (mkHealth "error" (str e))).

(** [GET /status]: the content of the JSON response. *)
Definition get_status (GOOGLE_API_KEY : string)
  : M (string * list (string * health)) :=
  stt_health ← check_stt_health;
  llm_health ← check_llm_health GOOGLE_API_KEY;
  tts_health ← check_tts_health;
  mret ("online", [("stt", stt_health); ("llm", llm_health); ("tts", tts_health)]).

(** The order of the pipeline, by the keys of [process_times]. *)
Definition PIPELINE : list string :=
  ["save_audio"; "speech_to_text"; "llm_response"; "text_to_speech"].

End main.

(** ** What the client receives

    FastAPI turns the outcome of the handler into the HTTP response: an
    [HTTPException] gives its status code and its detail (kept here in
    [detail_of], apart from the body), any other exception gives a bare
    500, and a [FileResponse] sends the file at its path with status 200
    and the metadata header, or a bare 500 when there is no such file. *)

Record http_response := mkResponse {
  status : Z;
  detail_of : option string;
  body : string;
  info : option (list (string * value))
}.

Definition internal_server_error : http_response :=
  mkResponse 500 None "Internal Server Error" None.

Definition deliver (r : result FileResponse.t) (w : World) : http_response :=
  match r with
  | Ok resp =>
      match fs w !! FileResponse.path resp with
      | Some content =>
          mkResponse 200 None content
            (snd <$> head (FileResponse.headers resp))
      | None => internal_server_error
      end
  | Raise (HTTPException code detail) => mkResponse code (Some detail) "" None
  | Raise (PyErr _ _) => internal_server_error
  end.

(** One request served: the handler runs, then the response is sent. *)
Definition post_voice_chat (audio : UploadFile) (env : Env) (w : World)
  : http_response * World :=
  let '(r, w') := main.voice_chat audio env w in (deliver r w', w').

(** * Vocabulary of the properties *)

(** A computation keeps the relation [R] between the state it starts in and
    the state it ends in, whatever its result. *)
Definition preserves (R : World → World → Prop) {A} (m : M A) : Prop :=
  ∀ env w, R w (m env w).2.

(** A relation that does not look at the file system, the log, the random
    names, the clock or the chat history: the parts of the state that the
    stage functions are free to change. *)
Class Ambient (R : World → World → Prop) := {
  ambient_preorder :: PreOrder R;
  ambient_fs f w : R w (set_fs f w);
  ambient_log f w : R w (set_log f w);
  ambient_names f w : R w (set_names_drawn f w);
  ambient_clock f w : R w (set_clock_reads f w);
  ambient_history f w : R w (set_chat_history f w)
}.

(** The pipeline steps started among [evs], by name. *)
Definition stages_of (evs : list event) : list string :=
  omap (λ e, match e with Stage name => Some name | Call _ _ => None end) evs.

(** [e] is a call to one of the functions [fns]. *)
Definition calls_to (fns : list string) (e : event) : Prop :=
  match e with
  | Call fn _ => fn ∈ fns
  | Stage _ => False
  end.

(** What a stage function may do to the state: it leaves the dictionaries
    of the handler and [TEMP_FILES] alone, and the events it adds are calls
    to the functions [fns]. *)
Definition stage_frame (fns : list string) (w w' : World) : Prop :=
  process_times w' = process_times w ∧
  response_data w' = response_data w ∧
  TEMP_FILES w' = TEMP_FILES w ∧
  ∃ evs, trace w' = trace w ++ evs ∧ Forall (calls_to fns) evs.

(** Why writing the chat history fails, if it does: the file cannot be
    written, or the history cannot be serialised. *)
Definition persist_error (env : Env) (history : list (string * string)) : option string :=
  match write_error env (llm.CHAT_HISTORY_FILE env) with
  | Some msg => Some msg
  | None =>
      match json_dump env history with
      | inr (_, msg) => Some msg
      | inl _ => None
      end
  end.

(** What [json.dump] leaves in the file it writes the history to: the
    serialised history, or the part written before it failed. *)
Definition dump_written (env : Env) (history : list (string * string)) : string :=
  match json_dump env history with
  | inl dumped => dumped
  | inr (written, _) => written
  end.

(** The entry of [process_times] for a step that took [ms] thousandths of
    a second. *)
Definition timing (key : string) (ms : Z) : string * string :=
  (key, Py.fmt_3f ms +:+ "s").

(** The state in which a step calls its stage function: the step has been
    recorded and the clock read once. *)
Definition entering (stage : string) (w : World) : World :=
  set_clock_reads S (set_trace (λ t, t ++ [Stage stage]) w).

(** The events a stage function adds: its own call, then at most one run
    of an external program. *)
Definition one_call (fn : string) (evs : list event) : Prop :=
  ∃ args, evs = [Call fn args] ∨ ∃ cmd, evs = [Call fn args; Call "subprocess.run" cmd].

(** The events of the Responder step on the transcript [user_text]. *)
Definition llm_events (user_text : string) : list event :=
  [Stage "llm_response";
   Call "generate_response" [Py.strip user_text];
   Call "chat.send_message" [Py.strip user_text]].

(** The ways the body of the [with] block of [voice_chat] can end, from the
    state [w] in which both dictionaries are empty: the result, and the
    state when the block is left. *)
Inductive pipeline_run (w : World) : result string → World → Prop :=
  | failed_saving w' msg :
      trace w' = trace w ++ [Stage "save_audio"] →
      process_times w' = [] →
      response_data w' = [] →
      TEMP_FILES w' = TEMP_FILES w →
      pipeline_run w
        (Raise (HTTPException 500 ("Failed to process audio: " +:+ msg))) w'
  | failed_transcribing w' msg t1 evs2 :
      trace w' = trace w ++ Stage "save_audio" :: Stage "speech_to_text" :: evs2 →
      one_call "transcribe_speech_to_text" evs2 →
      process_times w' = [timing "save_audio" t1] →
      response_data w' = [] →
      TEMP_FILES w' = TEMP_FILES w →
      pipeline_run w
        (Raise (HTTPException 500 ("Speech-to-text failed: " +:+ msg))) w'
  | failed_synthesizing w' msg t1 t2 t3 evs2 evs4 user_text ai_response :
      trace w' = trace w ++ Stage "save_audio" :: Stage "speech_to_text" :: evs2
                 ++ llm_events user_text ++ Stage "text_to_speech" :: evs4 →
      one_call "transcribe_speech_to_text" evs2 →
      one_call "transcribe_text_to_speech" evs4 →
      process_times w' = [timing "save_audio" t1; timing "speech_to_text" t2;
                          timing "llm_response" t3] →
      response_data w' = [("transcribed_text", VStr user_text);
                          ("ai_response", VStr ai_response)] →
      TEMP_FILES w' = TEMP_FILES w →
      pipeline_run w
        (Raise (HTTPException 500 ("Text-to-speech failed: " +:+ msg))) w'
  | completed w' audio_output_path t1 t2 t3 t4 evs2 evs4 user_text ai_response :
      trace w' = trace w ++ Stage "save_audio" :: Stage "speech_to_text" :: evs2
                 ++ llm_events user_text ++ Stage "text_to_speech" :: evs4 →
      one_call "transcribe_speech_to_text" evs2 →
      one_call "transcribe_text_to_speech" evs4 →
      process_times w' = [timing "save_audio" t1; timing "speech_to_text" t2;
                          timing "llm_response" t3; timing "text_to_speech" t4] →
      response_data w' = [("transcribed_text", VStr user_text);
                          ("ai_response", VStr ai_response)] →
      TEMP_FILES w' = TEMP_FILES w ++ [audio_output_path] →
      pipeline_run w (Ok audio_output_path) w'.

(** The scratch directory that [TemporaryDirectory] creates when entered in
    the state [w]. *)
Definition tmpdir_at (env : Env) (w : World) : string :=
  Py.path_join (gettempdir env) ("tmp" +:+ Py.hex_of_N (random env (names_drawn w))).

(** The Transcriber called in the state [w]: the file it writes, the
    command it runs and the file it reads back. *)
Definition stt_audio_path (env : Env) (w : World) (file_ext : string) : string :=
  Py.path_join (tmpdir_at env w)
    (Py.hex_of_N (random env (S (names_drawn w))) +:+ file_ext).
Definition stt_output_basename (env : Env) (w : World) : string :=
  Py.path_join (tmpdir_at env w) "transcription".
Definition stt_cmd (env : Env) (w : World) (file_ext : string) : list string :=
  [stt.WHISPER_BINARY env; "-m"; stt.WHISPER_MODEL_PATH env;
   "-f"; stt_audio_path env w file_ext; "-otxt"; "-of"; stt_output_basename env w].

(** The files after a program has written [written]. *)
Definition after_writes (written : list (string * string)) (f : gmap string string)
  : gmap string string :=
  foldl (λ g kv, <[kv.1 := kv.2]> g) f written.

(** The voice-model artifacts that the Synthesizer requires, each with the
    description used in its messages. *)
Definition artifacts (env : Env) : list (string * string) :=
  [(tts.COQUI_MODEL_PATH env, "Model file");
   (tts.COQUI_CONFIG_PATH env, "Config file");
   (tts.COQUI_SPEAKERS_PATH env, "Speakers file")].

(** The description of the first artifact that is not among the files. *)
Fixpoint first_missing (f : gmap string string) (required : list (string * string))
  : option string :=
  match required with
  | [] => None
  | (path, desc) :: rest =>
      if bool_decide (is_Some (f !! path)) then first_missing f rest else Some desc
  end.

(** The path of the copy of the sample that the Synthesizer makes when it
    is called in the state [w] and falls back before running the program. *)
Definition fallback_path_at (env : Env) (w : World) : string :=
  Py.path_join (gettempdir env)
    ("fallback_tts_" +:+ Py.hex_of_N (random env (S (names_drawn w))) +:+ ".wav").

(** The state of the handler once it has emptied its two dictionaries, and
    the state in which it enters the [with] block. *)
Definition reset (w : World) : World :=
  set_response_data (λ _, []) (set_process_times (λ _, []) w).
Definition entered (w : World) : World := set_names_drawn S (reset w).

(** The number of seconds, in thousandths, that an entry of
    [process_times] records. *)
Definition seconds_of (entry : string) : option Z :=
  Py.float (Py.rstrip_chars "s" entry).

(** The metadata sent with a successful response. *)
Definition process_info (user_text ai_response : string)
    (times : list (string * string)) (total : Z) : list (string * value) :=
  [("transcribed_text", VStr user_text); ("ai_response", VStr ai_response);
   ("process_times", VDict times); ("total_process_time", VFloat total)].

(** The metadata [data] of a request can be sent in the header, whatever
    the timings recorded with it: the transcript and the reply hold no
    character that latin-1 cannot encode. *)
Definition encodable (env : Env) (data : list (string * value)) : Prop :=
  ∀ times total,
    encode_error env
      (data ++ [("process_times", VDict times); ("total_process_time", VFloat total)])
    = None.

(** [d.get(k)] *)
Fixpoint dict_get {V} (k : string) (d : list (string * V)) : option V :=
  match d with
  | [] => None
  | (k', v) :: rest => if String.eqb k' k then Some v else dict_get k rest
  end.

(** The argument lists of the calls to [fn] among [evs], in order. *)
Definition calls_of (fn : string) (evs : list event) : list (list string) :=
  omap (λ e, match e with
             | Call f args => if String.eqb f fn then Some args else None
             | Stage _ => None
             end) evs.

(** Every character of [s] satisfies [p]. *)
Fixpoint all_chars (p : ascii → bool) (s : string) : bool :=
  match s with
  | EmptyString => true
  | String c s' => p c && all_chars p s'
  end.

(** [s] is [t] without its leading and trailing whitespace: [t] is [s]
    between two runs of whitespace, and [s] neither starts nor ends with a
    whitespace character. *)
Definition trimmed (t s : string) : Prop :=
  (∃ l r, t = l +:+ s +:+ r ∧
          all_chars Py.isspace l = true ∧ all_chars Py.isspace r = true) ∧
  (∀ c rest, s = String c rest → Py.isspace c = false) ∧
  (∀ init c, s = init +:+ String c EmptyString → Py.isspace c = false).

(** Two characters that are the same letter, whatever their case. *)
Inductive same_letter : ascii → ascii → Prop :=
  | same_char c : same_letter c c
  | lower_of c : same_letter c (Py.lower_char c)
  | upper_of c : same_letter (Py.lower_char c) c.

(** Two strings that differ only in letter case. *)
Inductive differ_only_in_case : string → string → Prop :=
  | differ_nil : differ_only_in_case EmptyString EmptyString
  | differ_cons c d s t :
      same_letter c d → differ_only_in_case s t →
      differ_only_in_case (String c s) (String d t).

(** Where the handler saves the upload of a request that starts in [w]. *)
Definition upload_path_at (env : Env) (w : World) (audio : UploadFile) : string :=
  Py.path_join (tmpdir_at env w)
    (Py.hex_of_N (random env (S (names_drawn w))) +:+ main.file_ext_of audio).

(** The characters of a random name. *)
Definition is_hex_digit (c : ascii) : bool :=
  let n := Py.ord c in Py.between 48 57 n || Py.between 97 102 n.

(** The directory part that [path_join] puts in front of a relative name. *)
Definition joined (a : string) : string :=
  if String.eqb a "" || Py.endswith_char "/" a then a else a +:+ "/".


(** The state in which the handler calls the Transcriber, for a request
    that starts in [w] and whose upload is saved. *)
Definition transcriber_called_in (audio : UploadFile) (env : Env) (w : World) : World :=
  entering "speech_to_text"
    (main.save_audio audio (tmpdir_at env w) (main.file_ext_of audio) env (entered w)).2.

(** The handler up to the call of the Synthesizer: the first three steps of
    the [with] block, from the state in which the block is entered. *)
Definition before_synthesis (audio : UploadFile) : M string := λ env w,
  (temp_audio_path ← main.save_audio audio (tmpdir_at env w) (main.file_ext_of audio);
   user_text ← main.speech_to_text temp_audio_path (main.file_ext_of audio);
   main.llm_response user_text) env (entered w).

(** ** Concrete environments and states

    Used to run the model on examples. *)

(** The transcription program as it behaves when all goes well: it writes
    the transcript next to the basename given after [-of]. *)
Definition whisper_writes (transcript : string) (cmd : list string) : proc_outcome :=
  match cmd !! 7%nat with
  | Some output_basename => Exited 0 "" [(output_basename +:+ ".txt", transcript)]
  | None => Exited 2 "usage error" []
  end.

(** UTF-8 decoding of the bytes of a text whose code points are below 256:
    one byte below 128, or the two bytes of a code point from 128 on. *)
Fixpoint utf8_latin1 (bytes : string) : option string :=
  match bytes with
  | EmptyString => Some EmptyString
  | String b rest =>
      if Py.ord b <? 128 then String b <$> utf8_latin1 rest
      else
        match rest with
        | String c rest' =>
            if ((Py.ord b =? 194) || (Py.ord b =? 195)) && Py.between 128 191 (Py.ord c)
            then String (Py.chr ((Py.ord b - 192) * 64 + (Py.ord c - 128)))
                   <$> utf8_latin1 rest'
            else None
        | EmptyString => None
        end
  end.

(** A machine on which every program runs as [program] says, the chat
    service greets, and no file operation fails.  The history of the chat
    session cannot be serialised once it holds a turn, as with the objects
    of the chat library; files read as text are decoded when they hold a
    text of code points below 256, and such a text can always be sent in a
    header. *)
Definition machine (program : list string → proc_outcome) : Env :=
  mkEnv "/srv/app" "/tmp" (λ n, N.of_nat (n + 10)) (λ n, Z.of_nat (7 * n * n))
    (λ _, None) (λ _, None)
    (λ cmd _, program cmd)
    (λ _ prompt, Reply ("Hai, ada yang bisa saya bantu?"))
    (λ history,
       match history with
       | [] => inl "[]"
       | _ => inr ("[
  ", "Object of type Content is not JSON serializable")
       end)
    (λ bytes,
       match utf8_latin1 bytes with
       | Some text => inl text
       | None => inr "'utf-8' codec can't decode the bytes of the file"
       end)
    (λ _, None).

(** The machine [env] when the metadata of every request holds a character
    that latin-1 cannot encode; [msg] is the message of the error. *)
Definition unencodable (msg : string) (env : Env) : Env :=
  mkEnv (BASE_DIR env) (gettempdir env) (random env) (clock env)
    (write_error env) (remove_error env) (run_program env) (send_message env)
    (json_dump env) (decode_utf8 env) (λ _, Some msg).

Definition working_machine : Env := machine (whisper_writes " halo
").
Definition failing_whisper : Env :=
  machine (λ _, Exited 1 "Command returned non-zero exit status 1." []).
Definition missing_whisper : Env :=
  machine (λ _, CannotStart "[Errno 2] No such file or directory").

(** A state with no file at all, and one where only the fallback sample of
    the Synthesizer is installed. *)
Definition bare_world : World := mkWorld ∅ [] [] [] [] [] [] 0 0.
Definition sample_world : World :=
  set_fs <["/srv/app/coqui_utils/test_output.wav" := "RIFF"]> bare_world.

Definition hello_wav : UploadFile := mkUpload "hello.wav" "abc".
Definition clip_txt : UploadFile := mkUpload "clip.txt" "abc".


(** The Synthesizer called in the state [w]: the file it asks the program
    to write and the command it runs. *)
Definition tts_output_path_at (env : Env) (w : World) : string :=
  Py.path_join (gettempdir env)
    ("tts_" +:+ Py.hex_of_N (random env (names_drawn w)) +:+ ".wav").
Definition tts_cmd (env : Env) (w : World) (text : string) : list string :=
  ["tts"; "--text"; text;
   "--model_path"; tts.COQUI_MODEL_PATH env;
   "--config_path"; tts.COQUI_CONFIG_PATH env;
   "--speakers_file_path"; tts.COQUI_SPEAKERS_PATH env;
   "--speaker_idx"; tts.COQUI_SPEAKER;
   "--out_path"; tts_output_path_at env w].

(** What the fallback block of the Synthesizer gives on the files [f]: the
    copy of the sample, or the text [no_fallback]. *)
Definition fallback_outcome (env : Env) (w : World) (no_fallback : string)
    (f : gmap string string) (r : result string) (f' : gmap string string) : Prop :=
  match f !! tts.sample_audio env with
  | Some content =>
      match write_error env (fallback_path_at env w) with
      | Some msg => r = Raise (PyErr OSError msg) ∧ f' = f
      | None =>
          r = Ok (fallback_path_at env w) ∧
          f' = <[fallback_path_at env w := content]> f
      end
  | None => r = Ok no_fallback ∧ f' = f
  end.

(** Programs that behave as when all goes well: the speech program writes
    [audio] to the path given after [--out_path], and every other command
    is taken for the transcription program. *)
Definition programs_write (transcript audio : string) (cmd : list string) : proc_outcome :=
  if bool_decide (cmd !! 0%nat = Some "tts") then
    match cmd !! 12%nat with
    | Some out_path => Exited 0 "" [(out_path, audio)]
    | None => Exited 2 "usage error" []
    end
  else whisper_writes transcript cmd.

Definition equipped_machine : Env := machine (programs_write " halo
" "RIFFdata").

(** A state where the voice model of the Synthesizer is installed. *)
Definition installed_world : World :=
  set_fs (λ f, <["/srv/app/coqui_utils/checkpoint_1260000-inference.pth" := "pth"]>
               (<["/srv/app/coqui_utils/config.json" := "{}"]>
                  (<["/srv/app/coqui_utils/speakers.pth" := "pth"]> f)))
    sample_world.

(** The [k]-th reading of the clock from the state [w] on. *)
Definition reading (env : Env) (w : World) (k : nat) : Z :=
  clock env (clock_reads w + k)%nat.
(** * Properties *)

(** ** The model on examples *)

Example splitext_wav : Py.splitext "hello.wav" = ("hello", ".wav").
Proof. reflexivity. Qed.

Example splitext_dotfile : Py.splitext "dir.d/.bashrc" = ("dir.d/.bashrc", "").
Proof. reflexivity. Qed.

Example splitext_last_dot : Py.splitext "a/b.tar.GZ" = ("a/b.tar", ".GZ").
Proof. reflexivity. Qed.

Example splitext_leading_dots : Py.splitext "...x.mp3" = ("...x", ".mp3").
Proof. reflexivity. Qed.

Example strip_both_ends : Py.strip "  halo dunia
" = "halo dunia".
Proof. reflexivity. Qed.

Example lower_mixed : Py.lower ".Mp3" = ".mp3".
Proof. reflexivity. Qed.

Example path_join_tmp : Py.path_join "/tmp" "x.wav" = "/tmp/x.wav".
Proof. reflexivity. Qed.

Example fmt_negative : Py.fmt_3f (-1234) = "-1.234".
Proof. reflexivity. Qed.

Example float_reads_back : Py.float (Py.rstrip_chars "s" "12.040s") = Some 12040.
Proof. reflexivity. Qed.

(** The scenario of the specification: [hello.wav] is transcribed, answered
    and served with status 200; the metadata carry the transcript, the
    reply, four timings and their sum. *)
Example hello_wav_served :
  let '(response, w') := post_voice_chat hello_wav working_machine sample_world in
  status response = 200 ∧
  info response = Some (process_info " halo
" "Hai, ada yang bisa saya bantu?"
    [("save_audio", "0.007s"); ("speech_to_text", "0.035s");
     ("llm_response", "0.063s"); ("text_to_speech", "0.091s")] 196) ∧
  calls_of "generate_response" (trace w') = [["halo"]].
Proof. vm_compute. done. Qed.

(** [clip.txt] is refused. *)
Example clip_txt_refused :
  (post_voice_chat clip_txt working_machine sample_world).1 =
  mkResponse 400
    (Some "Unsupported audio format. Allowed formats: .wav, .mp3, .ogg, .m4a") "" None.
Proof. reflexivity. Qed.

(** ** Running the monad *)

Section Run.
Context {A B : Type}.

Lemma run_bind (m : M A) (f : A → M B) env w :
  (m ≫= f) env w =
  match m env w with
  | (Ok a, w') => f a env w'
  | (Raise e, w') => (Raise e, w')
  end.
Proof. reflexivity. Qed.

Lemma run_try (body : M A) classes handler env w :
  try_except body classes handler env w =
  match body env w with
  | (Raise e, w') => if classes e then handler e env w' else (Raise e, w')
  | r => r
  end.
Proof. reflexivity. Qed.
End Run.

(** ** Relations that a computation keeps between the state before and after *)

Section Preserves.
Context (R : World → World → Prop) `{!PreOrder R}.

Lemma preserves_ret {A} (a : A) : preserves R (mret a).
Proof. intros env w. reflexivity. Qed.

Lemma preserves_raise {A} e : preserves R (@raise A e).
Proof. intros env w. reflexivity. Qed.

Lemma preserves_ask : preserves R ask.
Proof. intros env w. reflexivity. Qed.

Lemma preserves_gets {A} (f : World → A) : preserves R (gets f).
Proof. intros env w. reflexivity. Qed.

Lemma preserves_modify f : (∀ w, R w (f w)) → preserves R (modify f).
Proof. intros H env w. apply H. Qed.

Lemma preserves_bind {A B} (m : M A) (f : A → M B) :
  preserves R m → (∀ a, preserves R (f a)) → preserves R (m ≫= f).
Proof.
  intros Hm Hf env w. rewrite run_bind.
  specialize (Hm env w). destruct (m env w) as [[a|e] w']; simpl in *.
  - etrans; [exact Hm | apply Hf].
  - exact Hm.
Qed.

Lemma preserves_try {A} (body : M A) classes handler :
  preserves R body → (∀ e, preserves R (handler e)) →
  preserves R (try_except body classes handler).
Proof.
  intros Hb Hh env w. rewrite run_try.
  specialize (Hb env w). destruct (body env w) as [[a|e] w']; simpl in *.
  - exact Hb.
  - destruct (classes e); [|exact Hb].
    etrans; [exact Hb | apply Hh].
Qed.

Lemma preserves_TemporaryDirectory {A} (body : string → M A) :
  (∀ w, R w (set_names_drawn S w)) →
  (∀ d w, R w (set_fs (rmtree d) w)) →
  (∀ d, preserves R (body d)) →
  preserves R (TemporaryDirectory body).
Proof.
  intros Hn Hr Hb env w. unfold TemporaryDirectory, draw.
  match goal with |- context [body ?d env ?w1] =>
    specialize (Hb d env w1); destruct (body d env w1) as [r w2] end.
  simpl in *. etrans; [apply Hn|]. etrans; [exact Hb | apply Hr].
Qed.
End Preserves.

Section AmbientPrimitives.
Context (R : World → World → Prop) `{!Ambient R}.

Lemma preserves_time : preserves R time.
Proof. intros env w. apply ambient_clock. Qed.

Lemma preserves_draw : preserves R draw.
Proof. intros env w. apply ambient_names. Qed.

Lemma preserves_uuid4 : preserves R uuid4.
Proof. apply preserves_draw. Qed.

Lemma preserves_emit l msg : preserves R (emit l msg).
Proof. intros env w. apply ambient_log. Qed.

Lemma preserves_exists path : preserves R (exists_ path).
Proof. apply preserves_gets, _. Qed.

Lemma preserves_read_file path : preserves R (read_file path).
Proof.
  intros env w. unfold read_file. rewrite run_bind. simpl.
  destruct (fs w !! path); reflexivity.
Qed.

Lemma preserves_read_text path : preserves R (read_text path).
Proof.
  intros env w.
  unfold read_text, read_file, mbind, M_bind, mret, M_ret, ask, gets, raise. simpl.
  destruct (fs w !! path); simpl; [|reflexivity].
  destruct (decode_utf8 env _); reflexivity.
Qed.

Lemma preserves_write_file path content : preserves R (write_file path content).
Proof.
  intros env w. unfold write_file. rewrite run_bind. simpl.
  destruct (write_error env path); simpl; [reflexivity | apply ambient_fs].
Qed.

Lemma preserves_os_remove path : preserves R (os_remove path).
Proof.
  intros env w. unfold os_remove. rewrite run_bind. simpl.
  destruct (remove_error env path); simpl; [reflexivity | apply ambient_fs].
Qed.

Lemma preserves_elapsed start_time : preserves R (main.elapsed start_time).
Proof.
  apply preserves_bind; [apply _ | apply preserves_time | intros; apply preserves_ret, _].
Qed.

Lemma preserves_with_tmpdir {A} (body : string → M A) :
  (∀ d, preserves R (body d)) → preserves R (TemporaryDirectory body).
Proof.
  apply preserves_TemporaryDirectory; [apply _ | apply ambient_names |].
  intros d w. apply ambient_fs.
Qed.
End AmbientPrimitives.

Global Instance stage_frame_preorder fns : PreOrder (stage_frame fns).
Proof.
  split.
  - intros w. repeat split. exists []. rewrite app_nil_r. auto.
  - intros w1 w2 w3 (P1 & D1 & T1 & evs1 & E1 & F1) (P2 & D2 & T2 & evs2 & E2 & F2).
    repeat split; try congruence.
    exists (evs1 ++ evs2). rewrite E2, E1, app_assoc. split; [done|].
    apply Forall_app; auto.
Qed.

Global Instance stage_frame_ambient fns : Ambient (stage_frame fns).
Proof.
  split; [apply _ | ..]; intros f w; repeat split; exists [];
    rewrite app_nil_r; auto.
Qed.

Lemma preserves_record_call fns fn args :
  fn ∈ fns → preserves (stage_frame fns) (record (Call fn args)).
Proof.
  intros Hin env w. repeat split. exists [Call fn args]. split; [done|].
  constructor; [exact Hin | constructor].
Qed.

(** One step of a proof that a computation keeps a relation: the rule for
    the construct at the head of the program. *)
Ltac preserves_step :=
  lazymatch goal with
  | |- preserves _ (mret _) => apply preserves_ret; apply _
  | |- preserves _ (raise _) => apply preserves_raise; apply _
  | |- preserves _ ask => apply preserves_ask; apply _
  | |- preserves _ (gets _) => apply preserves_gets; apply _
  | |- preserves _ time => apply preserves_time; apply _
  | |- preserves _ uuid4 => apply preserves_uuid4; apply _
  | |- preserves _ (emit _ _) => apply preserves_emit; apply _
  | |- preserves _ (print _) => apply preserves_emit; apply _
  | |- preserves _ (logger_info _) => apply preserves_emit; apply _
  | |- preserves _ (logger_error _) => apply preserves_emit; apply _
  | |- preserves _ (exists_ _) => apply preserves_exists; apply _
  | |- preserves _ (read_file _) => apply preserves_read_file; apply _
  | |- preserves _ (read_text _) => apply preserves_read_text; apply _
  | |- preserves _ (write_file _ _) => apply preserves_write_file; apply _
  | |- preserves _ (os_remove _) => apply preserves_os_remove; apply _
  | |- preserves _ (main.elapsed _) => apply preserves_elapsed; apply _
  | |- preserves _ (modify (set_fs _)) =>
      apply preserves_modify; intros; apply ambient_fs
  | |- preserves _ (modify (set_chat_history _)) =>
      apply preserves_modify; intros; apply ambient_history
  | |- preserves _ (record (Call _ _)) =>
      apply preserves_record_call; set_solver
  | |- preserves _ (TemporaryDirectory _) =>
      apply preserves_with_tmpdir; [apply _ | intros ?]
  | |- preserves _ (try_except _ _ _) =>
      apply preserves_try; [apply _ | | intros ?]
  | |- preserves _ (mbind _ _) => apply preserves_bind; [apply _ | | intros ?]
  | |- preserves _ (match ?x with _ => _ end) => destruct x
  end.

Lemma preserves_subprocess_run fns cmd :
  "subprocess.run" ∈ fns → preserves (stage_frame fns) (subprocess_run cmd).
Proof.
  intros Hin. unfold subprocess_run.
  apply preserves_bind; [apply _ | apply preserves_record_call, Hin | intros _].
  repeat preserves_step.
Qed.

Lemma stt_frame file_bytes file_ext :
  preserves (stage_frame ["transcribe_speech_to_text"; "subprocess.run"])
    (stt.transcribe_speech_to_text file_bytes file_ext).
Proof.
  unfold stt.transcribe_speech_to_text.
  repeat first [ apply preserves_subprocess_run; set_solver | preserves_step ].
Qed.

(** ** Strings and numbers *)

Lemma app_String c s t : String c s +:+ t = String c (s +:+ t).
Proof. reflexivity. Qed.
Lemma app_empty_l s : "" +:+ s = s.
Proof. reflexivity. Qed.
Lemma app_assoc_s (a b c : string) : (a +:+ b) +:+ c = a +:+ b +:+ c.
Proof. induction a; [done|]. rewrite !app_String. by f_equal. Qed.

Lemma rstrip_by_app p s t :
  Py.rstrip_by p (s +:+ t) =
  match Py.rstrip_by p t with
  | EmptyString => Py.rstrip_by p s
  | r => s +:+ r
  end.
Proof.
  induction s as [|c s IH]; simpl.
  - rewrite ?app_empty_l. by destruct (Py.rstrip_by p t).
  - rewrite ?app_String. simpl. rewrite IH.
    destruct (Py.rstrip_by p t) as [|a s0]; [done|].
    rewrite app_String.
    destruct (s +:+ String a s0) eqn:E; [destruct s; discriminate|]. done.
Qed.

Lemma digit_val_char k : 0 <= k <= 9 → Py.digit_val (Py.digit_char k) = Some k.
Proof.
  intros H.
  assert (k = 0 ∨ k = 1 ∨ k = 2 ∨ k = 3 ∨ k = 4 ∨ k = 5 ∨ k = 6 ∨ k = 7 ∨ k = 8 ∨ k = 9)
    as Hk by lia.
  repeat destruct Hk as [->|Hk]; try subst k; reflexivity.
Qed.

Lemma digit_char_not c k : 0 <= k <= 9 → Py.ord c < 48 ∨ 57 < Py.ord c → Py.digit_char k ≠ c.
Proof.
  intros H Hc.
  assert (k = 0 ∨ k = 1 ∨ k = 2 ∨ k = 3 ∨ k = 4 ∨ k = 5 ∨ k = 6 ∨ k = 7 ∨ k = 8 ∨ k = 9)
    as Hk by lia.
  intros <-. revert Hc.
  repeat destruct Hk as [->|Hk]; try subst k; vm_compute; intros [?|?]; congruence.
Qed.

Lemma partition_dot_digits d t :
  Py.partition_dot (DecimalString.NilEmpty.string_of_uint d +:+ String "." t) =
  (DecimalString.NilEmpty.string_of_uint d, Some t).
Proof.
  induction d; simpl; rewrite ?app_empty_l, ?app_String; simpl; rewrite ?IHd; done.
Qed.

Lemma str_of_N_digits n :
  ∃ d, d ≠ Decimal.Nil ∧ N.of_uint d = n ∧
       Py.str_of_N n = DecimalString.NilEmpty.string_of_uint d.
Proof.
  exists (N.to_uint n). split; [|split].
  - destruct n; simpl; [discriminate | apply DecimalPos.Unsigned.to_uint_nonnil].
  - apply DecimalN.Unsigned.of_to.
  - unfold Py.str_of_N, DecimalString.NilZero.string_of_uint.
    destruct (N.to_uint n) eqn:E; try done.
    destruct n; simpl in E; [discriminate|].
    by destruct (DecimalPos.Unsigned.to_uint_nonnil p).
Qed.

Lemma digits_head d :
  d ≠ Decimal.Nil →
  ∃ c r, DecimalString.NilEmpty.string_of_uint d = String c r ∧ c ≠ "-"%char.
Proof. destruct d; simpl; intros H; try done; eexists _, _; split; done. Qed.

Lemma float_unsigned_digits a :
  0 <= a →
  Py.float_unsigned
    (Py.str_of_N (Z.to_N (a / 1000)) +:+
     String "." (String (Py.digit_char (a / 100 mod 10))
                (String (Py.digit_char (a / 10 mod 10))
                (String (Py.digit_char (a mod 10)) EmptyString)))) = Some a.
Proof.
  intros Ha.
  destruct (str_of_N_digits (Z.to_N (a / 1000))) as (d & Hd & Hn & ->).
  unfold Py.float_unsigned. rewrite partition_dot_digits.
  assert (DecimalString.NilZero.uint_of_string
            (DecimalString.NilEmpty.string_of_uint d) = Some d) as ->.
  { destruct d; try done; apply DecimalString.NilEmpty.usu. }
  rewrite !digit_val_char
    by (match goal with |- _ <= ?x mod 10 <= _ =>
          pose proof (Z.mod_pos_bound x 10); lia end).
  rewrite Hn. f_equal.
  rewrite Z2N.id by (apply Z.div_pos; lia).
  replace (a / 1000) with (a / 100 / 10) by (rewrite Z.div_div; [done | lia..]).
  replace (a / 100) with (a / 10 / 10) by (rewrite Z.div_div; [done | lia..]).
  pose proof (Z_div_mod_eq_full a 10).
  pose proof (Z_div_mod_eq_full (a / 10) 10).
  pose proof (Z_div_mod_eq_full (a / 10 / 10) 10).
  lia.
Qed.

Lemma float_fmt_3f ms : Py.float (Py.fmt_3f ms) = Some ms.
Proof.
  unfold Py.fmt_3f.
  pose proof (float_unsigned_digits (Z.abs ms) (Z.abs_nonneg ms)) as Hu.
  destruct (ms <? 0) eqn:Hs.
  - rewrite app_String, app_empty_l. unfold Py.float. simpl Ascii.eqb. cbv iota.
    rewrite Hu. simpl. f_equal. lia.
  - rewrite app_empty_l.
    destruct (str_of_N_digits (Z.to_N (Z.abs ms / 1000))) as (d & Hd & _ & Hstr).
    destruct (digits_head d Hd) as (c & r & Hcr & Hc).
    rewrite Hstr, Hcr, app_String in *. unfold Py.float.
    apply Ascii.eqb_neq in Hc. rewrite Hc, Hu. f_equal. lia.
Qed.

Lemma rstrip_s_fmt ms : Py.rstrip_chars "s" (Py.fmt_3f ms +:+ "s") = Py.fmt_3f ms.
Proof.
  unfold Py.rstrip_chars. rewrite rstrip_by_app. simpl.
  unfold Py.fmt_3f. rewrite !rstrip_by_app. simpl.
  set (k := Z.abs ms mod 10).
  assert (0 <= k <= 9) by (subst k; pose proof (Z.mod_pos_bound (Z.abs ms) 10); lia).
  rewrite bool_decide_eq_false_2.
  2:{ intros Hin. apply list_elem_of_singleton in Hin.
      by eapply digit_char_not in Hin; [| | right; vm_compute]. }
  match goal with |- match ?x +:+ ?y with _ => _ end = _ =>
    destruct (x +:+ y) eqn:E; [destruct x; discriminate | done] end.
Qed.

(** ** Symbolic execution *)

Arguments Py.path_join : simpl never.
Arguments Py.fmt_3f : simpl never.
Arguments Py.hex_of_N : simpl never.
Arguments Py.strip : simpl never.
Arguments Py.lower : simpl never.
Arguments Py.splitext : simpl never.
Arguments llm.CHAT_HISTORY_FILE : simpl never.
Arguments stt.transcribe_speech_to_text : simpl never.
Arguments llm.generate_response : simpl never.
Arguments tts.transcribe_text_to_speech : simpl never.
Arguments tts.sample_audio : simpl never.
Arguments tts.COQUI_MODEL_PATH : simpl never.
Arguments tts.COQUI_CONFIG_PATH : simpl never.
Arguments tts.COQUI_SPEAKERS_PATH : simpl never.
Arguments main.sum_seconds : simpl never.
Arguments rmtree : simpl never.
Arguments dict_set : simpl never.

Ltac run :=
  unfold mbind, mret, M_bind, M_ret, try_except, raise, ask, gets, modify,
    record, print, logger_info, logger_error, emit, main.elapsed, time,
    uuid4, draw, exists_, Exception;
  simpl.

(** ** The Responder *)

Lemma generate_response_run prompt env w :
  let sent := send_message env (chat_history w) prompt in
  let reply_text :=
    match sent with
    | SendRaises _ => None
    | Reply text => Some text
    | ReplyNoText _ => Some ""
    end in
  let history :=
    match reply_text with
    | Some text => chat_history w ++ [("user", prompt); ("model", text)]
    | None => chat_history w
    end in
  let '(r, w') := llm.generate_response prompt env w in
  r = Ok (match sent with
          | SendRaises msg => "[ERROR] " +:+ msg
          | ReplyNoText msg => "[ERROR] " +:+ msg
          | Reply text =>
              if String.eqb text "" then "[ERROR] No response from model" else text
          end) ∧
  trace w' = trace w ++ [Call "generate_response" [prompt];
                         Call "chat.send_message" [prompt]] ∧
  chat_history w' = history ∧
  log w' = log w ++
    match reply_text, persist_error env history with
    | Some _, Some msg => [(PRINT, "[ERROR] Gagal menyimpan riwayat chat: " +:+ msg)]
    | _, _ => []
    end ∧
  process_times w' = process_times w ∧
  response_data w' = response_data w ∧
  TEMP_FILES w' = TEMP_FILES w.
Proof.
  unfold llm.generate_response, llm.chat_send_message, llm.save_chat_history,
    write_file, persist_error.
  run.
  destruct (send_message env (chat_history w) prompt) as [msg|text|msg]; run.
  - rewrite <- app_assoc, app_nil_r. done.
  - destruct (write_error env (llm.CHAT_HISTORY_FILE env)) eqn:E; run.
    + rewrite <- app_assoc. done.
    + destruct (json_dump env _) as [dumped|[written msg']]; run; rewrite ?E; run;
        rewrite <- app_assoc, ?app_nil_r; done.
  - destruct (write_error env (llm.CHAT_HISTORY_FILE env)) eqn:E; run.
    + rewrite <- app_assoc. done.
    + destruct (json_dump env _) as [dumped|[written msg']]; run; rewrite ?E; run;
        rewrite <- app_assoc, ?app_nil_r; done.
Qed.

(** ** The Transcriber *)

Lemma stt_run file_bytes file_ext env w :
  let call := Call "transcribe_speech_to_text" [file_bytes; file_ext] in
  let run_ := Call "subprocess.run" (stt_cmd env w file_ext) in
  let audio_path := stt_audio_path env w file_ext in
  let f1 := <[audio_path := file_bytes]> (fs w) in
  let '(r, w') := stt.transcribe_speech_to_text file_bytes file_ext env w in
  match write_error env audio_path with
  | Some msg => r = Raise (PyErr OSError msg) ∧ trace w' = trace w ++ [call]
  | None =>
      trace w' = trace w ++ [call; run_] ∧
      match run_program env (stt_cmd env w file_ext) f1 with
      | CannotStart msg => r = Raise (PyErr OSError msg)
      | Exited code diag written =>
          if code =? 0 then
            match after_writes written f1 !! (stt_output_basename env w +:+ ".txt") with
            | Some content =>
                match decode_utf8 env content with
                | inl text => r = Ok (Py.universal_newlines text)
                | inr msg => r = Raise (PyErr UnicodeDecodeError msg)
                end
            | None => r = Ok "[ERROR] Transcription file not found"
            end
          else r = Ok ("[ERROR] Whisper failed: " +:+ diag)
      end
  end.
Proof.
  unfold stt.transcribe_speech_to_text, TemporaryDirectory, write_file, subprocess_run,
    read_text, read_file, stt_cmd, stt_audio_path, stt_output_basename, tmpdir_at,
    after_writes.
  run.
  destruct (write_error env _) as [msg|]; run.
  { rewrite <- ?app_assoc. done. }
  destruct (run_program env _ _) as [msg|code diag written]; run.
  { rewrite <- ?app_assoc. done. }
  destruct (code =? 0); run.
  2:{ rewrite <- ?app_assoc. done. }
  match goal with |- context [?m !! ?k] => destruct (m !! k) end; run;
    [destruct (decode_utf8 env _); run|];
    rewrite <- ?app_assoc; done.
Qed.

Lemma stt_events file_bytes file_ext env w :
  ∃ evs, trace (stt.transcribe_speech_to_text file_bytes file_ext env w).2 = trace w ++ evs ∧
         one_call "transcribe_speech_to_text" evs.
Proof.
  pose proof (stt_run file_bytes file_ext env w) as H. simpl in H.
  destruct (stt.transcribe_speech_to_text file_bytes file_ext env w) as [r w'].
  simpl. unfold one_call.
  destruct (write_error env _); destruct H as [H1 H2]; eauto 10.
Qed.

(** ** The Synthesizer *)

Lemma fallback_frame d m : preserves (stage_frame ["transcribe_text_to_speech"; "subprocess.run"]) (tts.fallback d m).
Proof. unfold tts.fallback. repeat preserves_step. Qed.

Lemma verify_required_frame d req k :
  preserves (stage_frame ["transcribe_text_to_speech"; "subprocess.run"]) k →
  preserves (stage_frame ["transcribe_text_to_speech"; "subprocess.run"]) (tts.verify_required d req k).
Proof.
  intros Hk. induction req as [|[p desc] rest IH]; simpl; [exact Hk|].
  preserves_step; [preserves_step|].
  preserves_step; [|exact IH].
  preserves_step; [preserves_step | apply fallback_frame].
Qed.

Lemma tts_frame text :
  preserves (stage_frame ["transcribe_text_to_speech"; "subprocess.run"]) (tts.transcribe_text_to_speech text).
Proof.
  unfold tts.transcribe_text_to_speech, tts._tts_with_coqui.
  preserves_step; [preserves_step|].
  preserves_step; [|preserves_step].
  preserves_step; [preserves_step|].
  preserves_step; [preserves_step|].
  apply verify_required_frame.
  preserves_step.
  - preserves_step; [preserves_step|].
    preserves_step; [apply preserves_subprocess_run; set_solver|].
    preserves_step; [preserves_step|].
    preserves_step; [preserves_step|].
    preserves_step; [preserves_step | apply fallback_frame].
  - preserves_step; [preserves_step | apply fallback_frame].
Qed.

Ltac tts_unfold :=
  unfold tts.transcribe_text_to_speech, tts._tts_with_coqui;
  cbn [tts.verify_required];
  unfold tts.fallback, read_file, write_file, subprocess_run;
  run.

Ltac case_exists :=
  match goal with
  | |- context [bool_decide (is_Some (?m !! ?k))] =>
      let E := fresh "E" in
      destruct (m !! k) eqn:E;
      [ rewrite (bool_decide_eq_true_2 (is_Some (Some _))) in * by eauto
      | rewrite (bool_decide_eq_false_2 (is_Some None)) in *
          by (intros [? ?]; congruence) ];
      run
  end.

Lemma tts_missing_run text env w desc :
  first_missing (fs w) (artifacts env) = Some desc →
  let '(r, w') := tts.transcribe_text_to_speech text env w in
  trace w' = trace w ++ [Call "transcribe_text_to_speech" [text]] ∧
  match fs w !! tts.sample_audio env with
  | Some content =>
      match write_error env (fallback_path_at env w) with
      | Some msg => r = Raise (PyErr OSError msg) ∧ fs w' = fs w
      | None =>
          r = Ok (fallback_path_at env w) ∧
          fs w' = <[fallback_path_at env w := content]> (fs w)
      end
  | None =>
      r = Ok ("[ERROR] " +:+ desc +:+ " not found and no fallback available") ∧
      fs w' = fs w
  end.
Proof.
  unfold fallback_path_at, artifacts. intros Hm. simpl in Hm. tts_unfold.
  destruct (fs w !! tts.sample_audio env) as [c|] eqn:Es.
  - destruct (write_error env _) as [msg|] eqn:Ew;
      repeat first [ progress (rewrite ?Es, ?Ew; run) | case_exists ];
      try discriminate; simplify_eq; rewrite <- ?app_assoc; done.
  - repeat first [ progress (rewrite ?Es; run) | case_exists ];
      try discriminate; simplify_eq; rewrite <- ?app_assoc; done.
Qed.

Lemma tts_events text env w :
  ∃ evs, trace (tts.transcribe_text_to_speech text env w).2 = trace w ++ evs ∧
         one_call "transcribe_text_to_speech" evs.
Proof.
  unfold one_call. tts_unfold.
  repeat (match goal with
          | |- context [bool_decide ?P] => destruct (bool_decide P)
          | |- context [match fs ?w !! ?k with _ => _ end] => destruct (fs w !! k)
          | |- context [match ?m !! ?k with _ => _ end] => destruct (m !! k)
          | |- context [write_error env ?p] => destruct (write_error env p)
          | |- context [run_program env ?c ?f] => destruct (run_program env c f)
          | |- context [?c =? 0] => destruct (c =? 0)
          end; run).
  all: rewrite <- ?app_assoc; simpl; eexists; split; [reflexivity|]; eauto.
Qed.

(** ** The four steps of the handler *)

Lemma save_audio_run audio tmpdir ext env w :
  let temp_audio_path :=
    Py.path_join tmpdir (Py.hex_of_N (random env (names_drawn w)) +:+ ext) in
  let '(r, w') := main.save_audio audio tmpdir ext env w in
  response_data w' = response_data w ∧
  TEMP_FILES w' = TEMP_FILES w ∧
  trace w' = trace w ++ [Stage "save_audio"] ∧
  names_drawn w' = S (names_drawn w) ∧
  match write_error env temp_audio_path with
  | None =>
      r = Ok temp_audio_path ∧
      fs w' = <[temp_audio_path := file audio]> (fs w) ∧
      ∃ ms, process_times w' =
              dict_set "save_audio" (Py.fmt_3f ms +:+ "s") (process_times w)
  | Some msg =>
      r = Raise (HTTPException 500 ("Failed to process audio: " +:+ msg)) ∧
      fs w' = fs w ∧ process_times w' = process_times w
  end.
Proof.
  unfold main.save_audio, write_file. run.
  destruct (write_error env _) as [msg|]; run; repeat split; eauto.
Qed.

Lemma speech_to_text_run path ext env w :
  let '(r, w') := main.speech_to_text path ext env w in
  TEMP_FILES w' = TEMP_FILES w ∧
  match fs w !! path with
  | None =>
      trace w' = trace w ++ [Stage "speech_to_text"] ∧
      response_data w' = response_data w ∧ process_times w' = process_times w ∧
      ∃ msg, r = Raise (HTTPException 500 ("Speech-to-text failed: " +:+ msg))
  | Some audio_bytes =>
      let '(r0, w0) :=
        stt.transcribe_speech_to_text audio_bytes ext env (entering "speech_to_text" w) in
      trace w' = trace w0 ∧ fs w' = fs w0 ∧ names_drawn w' = names_drawn w0 ∧
      match r0 with
      | Ok user_text =>
          r = Ok user_text ∧
          response_data w' =
            dict_set "transcribed_text" (VStr user_text) (response_data w) ∧
          ∃ ms, process_times w' =
                  dict_set "speech_to_text" (Py.fmt_3f ms +:+ "s") (process_times w)
      | Raise e =>
          r = Raise (HTTPException 500 ("Speech-to-text failed: " +:+ str e)) ∧
          response_data w' = response_data w ∧ process_times w' = process_times w
      end
  end.
Proof.
  unfold main.speech_to_text, read_file, entering. run.
  destruct (fs w !! path) as [bytes|]; run.
  2:{ repeat split; eauto. }
  match goal with |- context [stt.transcribe_speech_to_text ?b ?e env ?w0] =>
    pose proof (stt_frame b e env w0) as (P & D & T & _);
    destruct (stt.transcribe_speech_to_text b e env w0) as [[u|e'] w2] end;
  simpl in *; rewrite T, D, P; repeat split; eauto.
Qed.

Lemma llm_response_run user_text env w :
  let '(r, w') := main.llm_response user_text env w in
  TEMP_FILES w' = TEMP_FILES w ∧
  trace w' = trace w ++ llm_events user_text ∧
  fs w' = fs (llm.generate_response (Py.strip user_text) env
                (entering "llm_response" w)).2 ∧
  names_drawn w' = names_drawn w ∧
  ∃ ms,
    r = Ok (match send_message env (chat_history w) (Py.strip user_text) with
            | SendRaises msg => "[ERROR] " +:+ msg
            | ReplyNoText msg => "[ERROR] " +:+ msg
            | Reply text =>
                if String.eqb text "" then "[ERROR] No response from model" else text
            end) ∧
    (∀ ai_response, r = Ok ai_response →
       response_data w' = dict_set "ai_response" (VStr ai_response) (response_data w)) ∧
    process_times w' =
      dict_set "llm_response" (Py.fmt_3f ms +:+ "s") (process_times w).
Proof.
  unfold main.llm_response, entering. run.
  match goal with |- context [llm.generate_response ?p env ?w0] =>
    pose proof (generate_response_run p env w0) as H;
    assert (Hn : names_drawn (llm.generate_response p env w0).2 = names_drawn w);
    [ clear H | destruct (llm.generate_response p env w0) as [r w2] ] end.
  { unfold llm.generate_response, llm.chat_send_message, llm.save_chat_history, write_file.
    run.
    repeat (match goal with
            | |- context [send_message env ?h ?p] => destruct (send_message env h p)
            | |- context [write_error env ?p] => destruct (write_error env p)
            | |- context [json_dump env ?h] => destruct (json_dump env h) as [?|[? ?]]
            end; run); done. }
  simpl in H, Hn. destruct H as (-> & Etr & _ & _ & P & D & T). simpl.
  rewrite T, Etr, D, P, Hn. simpl. rewrite <- app_assoc.
  repeat split; try done. eexists. split; [done|]. split; [|done].
  by intros ? [= <-].
Qed.

Lemma text_to_speech_run ai_response env w :
  let '(r0, w0) :=
    tts.transcribe_text_to_speech ai_response env (entering "text_to_speech" w) in
  let '(r, w') := main.text_to_speech ai_response env w in
  response_data w' = response_data w ∧
  trace w' = trace w0 ∧ fs w' = fs w0 ∧
  match r0 with
  | Ok audio_output_path =>
      r = Ok audio_output_path ∧
      TEMP_FILES w' = TEMP_FILES w ++ [audio_output_path] ∧
      ∃ ms, process_times w' =
              dict_set "text_to_speech" (Py.fmt_3f ms +:+ "s") (process_times w)
  | Raise e =>
      r = Raise (HTTPException 500 ("Text-to-speech failed: " +:+ str e)) ∧
      TEMP_FILES w' = TEMP_FILES w ∧ process_times w' = process_times w
  end.
Proof.
  unfold main.text_to_speech, entering. run.
  match goal with |- context [tts.transcribe_text_to_speech ?t env ?w0] =>
    pose proof (tts_frame t env w0) as (P & D & T & _);
    destruct (tts.transcribe_text_to_speech t env w0) as [[p|e'] w2] end;
  simpl in *; rewrite T, D, P; repeat split; eauto.
Qed.

(** Every run of the body of the [with] block is one of the four runs of
    [pipeline_run]. *)
Lemma stages_run audio ext tmpdir env w :
  process_times w = [] → response_data w = [] →
  pipeline_run w (main.stages audio ext tmpdir env w).1
                 (main.stages audio ext tmpdir env w).2.
Proof.
  intros P0 D0. unfold main.stages.
  rewrite run_bind.
  pose proof (save_audio_run audio tmpdir ext env w) as H1.
  destruct (main.save_audio audio tmpdir ext env w) as [r1 w1]; simpl in H1.
  destruct H1 as (D1 & T1 & E1 & _ & H1).
  destruct (write_error env _) as [msg|].
  { destruct H1 as (-> & _ & P1). simpl. apply failed_saving; congruence. }
  destruct H1 as (-> & F1 & t1 & P1).
  rewrite P0 in P1. rewrite D0 in D1. unfold dict_set in P1; simpl in P1.
  rewrite run_bind.
  match goal with |- context [main.speech_to_text ?a ?b env w1] =>
    pose proof (speech_to_text_run a b env w1) as H2;
    destruct (main.speech_to_text a b env w1) as [r2 w2] end.
  simpl in H2. destruct H2 as (T2 & H2).
  rewrite F1, lookup_insert_eq in H2.
  match type of H2 with context [stt.transcribe_speech_to_text ?b ?e env ?w0] =>
    pose proof (stt_events b e env w0) as (evs2 & E2 & S2);
    destruct (stt.transcribe_speech_to_text b e env w0) as [[user_text|e2] w0'] end;
    simpl in E2, H2; destruct H2 as (E2' & _ & _ & H2); rewrite E2, E1 in E2'.
  2:{ destruct H2 as (-> & D2 & P2). simpl.
      apply failed_transcribing with (t1 := t1) (evs2 := evs2);
        unfold timing; try congruence; auto.
      rewrite E2', <- ?app_assoc. done. }
  destruct H2 as (-> & D2 & t2 & P2).
  rewrite P1 in P2. rewrite D1 in D2. unfold dict_set in P2, D2; simpl in P2, D2.
  rewrite run_bind.
  pose proof (llm_response_run user_text env w2) as H3.
  destruct (main.llm_response user_text env w2) as [r3 w3]; simpl in H3.
  destruct H3 as (T3 & E3 & _ & _ & t3 & -> & D3 & P3).
  specialize (D3 _ eq_refl).
  rewrite P2 in P3. rewrite D2 in D3. unfold dict_set in P3, D3; simpl in P3, D3.
  match goal with |- context [main.text_to_speech ?a env w3] =>
    pose proof (text_to_speech_run a env w3) as H4;
    pose proof (tts_events a env (entering "text_to_speech" w3)) as (evs4 & E4 & S4);
    destruct (tts.transcribe_text_to_speech a env (entering "text_to_speech" w3))
      as [[path|e4] w0''];
    destruct (main.text_to_speech a env w3) as [r4 w4] end;
    simpl in H4, E4; destruct H4 as (D4 & E4' & _ & H4);
    rewrite E4, E3, E2' in E4'.
  - destruct H4 as (-> & T4 & t4 & P4). simpl.
    rewrite P3 in P4. unfold dict_set in P4; simpl in P4.
    eapply completed with (t1 := t1) (t2 := t2) (t3 := t3) (t4 := t4)
      (evs2 := evs2) (evs4 := evs4) (user_text := user_text);
      unfold timing; try (rewrite D4, D3; reflexivity); try congruence; auto.
    rewrite E4'. unfold llm_events. rewrite <- ?app_assoc. simpl. rewrite <- ?app_assoc. done.
  - destruct H4 as (-> & T4 & P4). simpl.
    eapply failed_synthesizing with (t1 := t1) (t2 := t2) (t3 := t3)
      (evs2 := evs2) (evs4 := evs4) (user_text := user_text);
      unfold timing; try (rewrite D4, D3; reflexivity); try congruence; auto.
    rewrite E4'. unfold llm_events. rewrite <- ?app_assoc. simpl. rewrite <- ?app_assoc. done.
Qed.

(** ** The response *)

Lemma seconds_of_timing key ms : seconds_of (timing key ms).2 = Some ms.
Proof. unfold seconds_of, timing. simpl. by rewrite rstrip_s_fmt, float_fmt_3f. Qed.

Lemma respond_run path env w t1 t2 t3 t4 user_text ai_response :
  process_times w = [timing "save_audio" t1; timing "speech_to_text" t2;
                     timing "llm_response" t3; timing "text_to_speech" t4] →
  response_data w = [("transcribed_text", VStr user_text);
                     ("ai_response", VStr ai_response)] →
  let info := process_info user_text ai_response (process_times w) (t1 + t2 + t3 + t4) in
  main.respond path env w =
    (match encode_error env info with
     | None =>
         Ok (FileResponse.mk path "audio/wav" "response.wav" [("X-Process-Info", info)])
     | Some msg => Raise (PyErr UnicodeEncodeError msg)
     end,
     set_response_data (λ _, info) w).
Proof.
  intros P D info. subst info. unfold main.respond. run. rewrite P.
  unfold main.sum_seconds. simpl.
  pose proof (seconds_of_timing "save_audio" t1) as S1.
  pose proof (seconds_of_timing "speech_to_text" t2) as S2.
  pose proof (seconds_of_timing "llm_response" t3) as S3.
  pose proof (seconds_of_timing "text_to_speech" t4) as S4.
  unfold seconds_of in *. simpl in S1, S2, S3, S4.
  rewrite S1, S2, S3, S4. run.
  unfold process_info, set_response_data. simpl. rewrite P, D.
  unfold dict_set. simpl.
  replace (0 + t1 + t2 + t3 + t4) with (t1 + t2 + t3 + t4) by lia.
  by destruct (encode_error env _).
Qed.

Lemma voice_chat_unfold audio env w :
  main.voice_chat audio env w =
  if bool_decide (main.file_ext_of audio ∈ main.ALLOWED_AUDIO_EXTENSIONS) then
    let tmpdir := tmpdir_at env w in
    let '(r, w2) := main.stages audio (main.file_ext_of audio) tmpdir env (entered w) in
    match r with
    | Ok audio_output_path =>
        main.respond audio_output_path env (set_fs (rmtree tmpdir) w2)
    | Raise e => (Raise e, set_fs (rmtree tmpdir) w2)
    end
  else
    (Raise (HTTPException 400
              "Unsupported audio format. Allowed formats: .wav, .mp3, .ogg, .m4a"),
     reset w).
Proof.
  unfold main.voice_chat, TemporaryDirectory, tmpdir_at, entered, reset. run.
  destruct (bool_decide _); simpl; [|reflexivity].
  destruct (main.stages _ _ _ _ _) as [[p|e] w2]; reflexivity.
Qed.

(** ** The handler as a whole *)

Lemma voice_chat_accepted audio env w :
  main.file_ext_of audio ∈ main.ALLOWED_AUDIO_EXTENSIONS →
  let tmpdir := tmpdir_at env w in
  let '(r, w') := main.voice_chat audio env w in
  ∃ r2 w2,
    main.stages audio (main.file_ext_of audio) tmpdir env (entered w) = (r2, w2) ∧
    pipeline_run (entered w) r2 w2 ∧
    trace w' = trace w2 ∧ TEMP_FILES w' = TEMP_FILES w2 ∧
    process_times w' = process_times w2 ∧
    fs w' = rmtree tmpdir (fs w2) ∧
    match r2 with
    | Raise e => r = Raise e ∧ response_data w' = response_data w2
    | Ok audio_output_path =>
        ∃ user_text ai_response t1 t2 t3 t4,
          process_times w2 = [timing "save_audio" t1; timing "speech_to_text" t2;
                              timing "llm_response" t3; timing "text_to_speech" t4] ∧
          let info := process_info user_text ai_response (process_times w2)
                        (t1 + t2 + t3 + t4) in
          r = match encode_error env info with
              | None =>
                  Ok (FileResponse.mk audio_output_path "audio/wav" "response.wav"
                        [("X-Process-Info", info)])
              | Some msg => Raise (PyErr UnicodeEncodeError msg)
              end ∧
          response_data w2 = [("transcribed_text", VStr user_text);
                              ("ai_response", VStr ai_response)] ∧
          response_data w' = info
    end.
Proof.
  intros Hacc tmpdir. rewrite voice_chat_unfold.
  rewrite bool_decide_eq_true_2 by done. cbv zeta. fold tmpdir.
  pose proof (stages_run audio (main.file_ext_of audio) tmpdir env (entered w)
                eq_refl eq_refl) as Hrun.
  destruct (main.stages _ _ _ _ _) as [r2 w2]. simpl in Hrun.
  destruct r2 as [path|e].
  - inversion Hrun as [| | |? ? t1 t2 t3 t4 evs2 evs4 u a E S2 S4 P D T]; subst.
    rewrite (respond_run path env (set_fs (rmtree tmpdir) w2) t1 t2 t3 t4 u a P D).
    exists (Ok path), w2. repeat split; try done.
    exists u, a, t1, t2, t3, t4. repeat split; done.
  - exists (Raise e), w2. repeat split; done.
Qed.

(** ** Paths *)

Lemma hex_digits_uint d :
  all_chars is_hex_digit (HexadecimalString.NilEmpty.string_of_uint d) = true.
Proof. induction d; simpl; done. Qed.

Lemma hex_of_N_digits n :
  all_chars is_hex_digit (Py.hex_of_N n) = true ∧ Py.hex_of_N n ≠ "".
Proof.
  unfold Py.hex_of_N, HexadecimalString.NilZero.string_of_uint.
  destruct (N.to_hex_uint n) eqn:E; try done;
    (split; [rewrite <- E at 1; destruct (N.to_hex_uint n); try done;
             apply hex_digits_uint | done]).
Qed.

Lemma prefix_String a s b t :
  String.prefix (String a s) (String b t) =
  if ascii_dec a b then String.prefix s t else false.
Proof. reflexivity. Qed.

Lemma startswith_slash_hex s x :
  all_chars is_hex_digit s = true → s ≠ "" → Py.startswith "/" (s +:+ x) = false.
Proof.
  destruct s as [|c s]; [done|]. intros H _. rewrite app_String.
  apply andb_true_iff in H as [Hc _].
  unfold Py.startswith. rewrite prefix_String.
  destruct (ascii_dec "/" c) as [<-|]; [by vm_compute in Hc | done].
Qed.

Lemma endswith_char_app c a b :
  b ≠ "" → Py.endswith_char c (a +:+ b) = Py.endswith_char c b.
Proof.
  intros Hb. induction a as [|x a IH]; [done|].
  rewrite app_String. simpl. rewrite IH.
  destruct (a +:+ b) eqn:E; [|done]. destruct a; [|done]. by destruct b.
Qed.

Lemma endswith_slash_hex s :
  all_chars is_hex_digit s = true → Py.endswith_char "/" s = false.
Proof.
  induction s as [|c s IH]; [done|]. simpl. intros [Hc Hs]%andb_true_iff.
  destruct s; [|by apply IH].
  destruct (Ascii.eqb_spec c "/") as [->|]; [by vm_compute in Hc | done].
Qed.

Lemma prefix_app_same a b c : String.prefix (a +:+ b) (a +:+ c) = String.prefix b c.
Proof.
  induction a as [|x a IH]; [done|]. rewrite !app_String, prefix_String.
  destruct (ascii_dec x x); [exact IH | done].
Qed.

Lemma prefix_app_self a b : String.prefix a (a +:+ b) = true.
Proof.
  induction a as [|x a IH]; [by destruct b|].
  rewrite app_String, prefix_String. destruct (ascii_dec x x); [exact IH | done].
Qed.

Lemma path_join_relative a b :
  Py.startswith "/" b = false → Py.path_join a b = joined a +:+ b.
Proof.
  intros Hb. unfold Py.path_join, joined. rewrite Hb.
  destruct (_ || _); [done|]. by rewrite app_assoc_s.
Qed.

Lemma tmpdir_at_shape env w :
  tmpdir_at env w =
    joined (gettempdir env) +:+ "tmp" +:+ Py.hex_of_N (random env (names_drawn w)) ∧
  joined (tmpdir_at env w) = tmpdir_at env w +:+ "/".
Proof.
  assert (E : tmpdir_at env w =
    joined (gettempdir env) +:+ "tmp" +:+ Py.hex_of_N (random env (names_drawn w)))
    by (unfold tmpdir_at; by rewrite path_join_relative).
  split; [exact E|].
  destruct (hex_of_N_digits (random env (names_drawn w))) as [Hd Hne].
  unfold joined at 1.
  assert (tmpdir_at env w ≠ "") as Hn.
  { rewrite E. destruct (joined (gettempdir env)); done. }
  destruct (String.eqb_spec (tmpdir_at env w) ""); [done|]. simpl.
  rewrite E at 1.
  rewrite !endswith_char_app; [by rewrite endswith_slash_hex | done | done].
Qed.

Lemma upload_inside_tmpdir env w audio :
  inside (tmpdir_at env w) (upload_path_at env w audio) = true.
Proof.
  unfold upload_path_at, inside.
  destruct (hex_of_N_digits (random env (S (names_drawn w)))) as [Hd Hne].
  rewrite path_join_relative by (by apply startswith_slash_hex).
  rewrite (proj2 (tmpdir_at_shape env w)). apply prefix_app_self.
Qed.

Lemma rmtree_inside d f p : inside d p = true → rmtree d f !! p = None.
Proof.
  intros H. unfold rmtree. apply map_lookup_filter_None. right.
  intros x _. simpl. congruence.
Qed.

Lemma rmtree_outside d f p : inside d p = false → rmtree d f !! p = f !! p.
Proof.
  intros H. unfold rmtree. destruct (f !! p) as [x|] eqn:E.
  - apply map_lookup_filter_Some. done.
  - apply map_lookup_filter_None. by left.
Qed.
(** * The claims of the specification *)

(** ** Validation of the upload *)

(** C5.  An upload whose extension, compared the way the handler compares it
    (lower-cased), is not one of [.wav], [.mp3], [.ogg], [.m4a] is answered
    with HTTP 400 and a detail that lists the four allowed extensions; the
    rejection happens before any step: the files, the recorded events, the
    clock readings and the random names are those of the state before the
    request, and [process_times] is empty. *)
Theorem unsupported_extension_rejected audio env w :
  main.file_ext_of audio ∉ main.ALLOWED_AUDIO_EXTENSIONS →
  let '(response, w') := post_voice_chat audio env w in
  response = mkResponse 400
    (Some "Unsupported audio format. Allowed formats: .wav, .mp3, .ogg, .m4a") "" None ∧
  fs w' = fs w ∧ trace w' = trace w ∧ process_times w' = [] ∧
  TEMP_FILES w' = TEMP_FILES w ∧
  clock_reads w' = clock_reads w ∧ names_drawn w' = names_drawn w.
Proof.
  intros Hext. unfold post_voice_chat. rewrite voice_chat_unfold.
  rewrite bool_decide_eq_false_2 by done. simpl. done.
Qed.

(** ** The order of the timings *)

Lemma stages_of_app evs1 evs2 : stages_of (evs1 ++ evs2) = stages_of evs1 ++ stages_of evs2.
Proof. unfold stages_of. apply omap_app. Qed.

Lemma stages_of_one_call fn evs : one_call fn evs → stages_of evs = [].
Proof. intros (args & [-> | (cmd & ->)]); done. Qed.

(** C6.  After every request the keys of [process_times] are an initial part
    of the list of the steps the handler started, which is itself an initial
    part of the pipeline order [save_audio], [speech_to_text],
    [llm_response], [text_to_speech]; at most the last started step has no
    entry.  When validation rejects the upload no step is started and
    [process_times] is empty. *)
Theorem process_times_follow_pipeline audio env w :
  let w' := (main.voice_chat audio env w).2 in
  ∃ evs, trace w' = trace w ++ evs ∧
    (process_times w').*1 `prefix_of` stages_of evs ∧
    stages_of evs `prefix_of` main.PIPELINE ∧
    (length (stages_of evs) ≤ S (length (process_times w')))%nat ∧
    (main.file_ext_of audio ∉ main.ALLOWED_AUDIO_EXTENSIONS →
     evs = [] ∧ process_times w' = []).
Proof.
  destruct (decide (main.file_ext_of audio ∈ main.ALLOWED_AUDIO_EXTENSIONS)) as [Hacc|Hrej].
  - pose proof (voice_chat_accepted audio env w Hacc) as H.
    destruct (main.voice_chat audio env w) as [r w']. simpl in *.
    destruct H as (r2 & w2 & _ & Hrun & -> & _ & -> & _ & _).
    inversion Hrun as
      [ ? msg E P
      | ? msg t1 evs2 E S2 P
      | ? msg t1 t2 t3 evs2 evs4 u a E S2 S4 P
      | ? path t1 t2 t3 t4 evs2 evs4 u a E S2 S4 P ]; subst;
      rewrite E, P; simpl; eexists; (split; [reflexivity|]);
      rewrite ?stages_of_app; simpl; rewrite ?stages_of_app; simpl;
      rewrite ?(stages_of_one_call _ _ S2), ?(stages_of_one_call _ _ S4); simpl.
    all: repeat split; try done; simpl; try lia; unfold prefix; eexists; reflexivity.
  - rewrite voice_chat_unfold, bool_decide_eq_false_2 by done. simpl.
    exists []. rewrite app_nil_r. repeat split; try done; simpl; try lia; unfold prefix; eexists; reflexivity.
Qed.

Lemma process_times_follow_pipeline_witness :
  (main.file_ext_of clip_txt ∉ main.ALLOWED_AUDIO_EXTENSIONS) ∧
  process_times (main.voice_chat clip_txt working_machine bare_world).2 = [].
Proof.
  assert (Hrej : main.file_ext_of clip_txt ∉ main.ALLOWED_AUDIO_EXTENSIONS)
    by (apply (bool_decide_eq_false_1 (_ ∈ _)); vm_compute; reflexivity).
  split; [exact Hrej|].
  destruct (process_times_follow_pipeline clip_txt working_machine bare_world)
    as (evs & _ & _ & _ & _ & H).
  exact (proj2 (H Hrej)).
Defined.

Lemma unsupported_extension_rejected_witness :
  (main.file_ext_of clip_txt ∉ main.ALLOWED_AUDIO_EXTENSIONS) ∧
  status (post_voice_chat clip_txt working_machine bare_world).1 = 400.
Proof.
  assert (Hrej : main.file_ext_of clip_txt ∉ main.ALLOWED_AUDIO_EXTENSIONS)
    by (apply (bool_decide_eq_false_1 (_ ∈ _)); vm_compute; reflexivity).
  split; [exact Hrej|].
  pose proof (unsupported_extension_rejected clip_txt working_machine bare_world Hrej) as H.
  destruct (post_voice_chat clip_txt working_machine bare_world) as [response w'].
  destruct H as [-> _]. reflexivity.
Defined.

(** ** The total of the timings *)

(** C7.  On every successful request the metadata sent to the client holds
    the four entries of [process_times], in pipeline order, and a
    [total_process_time] that is the sum of the four numbers of seconds
    these entries record.  Seconds are counted in thousandths, exactly, in
    place of the floating-point numbers of the code. *)
Theorem total_is_sum_of_timings audio env w :
  match (main.voice_chat audio env w).1 with
  | Ok response =>
      ∃ audio_output_path user_text ai_response times t1 t2 t3 t4,
        response = FileResponse.mk audio_output_path "audio/wav" "response.wav"
          [("X-Process-Info",
            process_info user_text ai_response times (t1 + t2 + t3 + t4))] ∧
        times.*1 = main.PIPELINE ∧
        seconds_of <$> times.*2 = [Some t1; Some t2; Some t3; Some t4]
  | Raise _ => True
  end.
Proof.
  destruct (decide (main.file_ext_of audio ∈ main.ALLOWED_AUDIO_EXTENSIONS)) as [Hacc|Hrej].
  - pose proof (voice_chat_accepted audio env w Hacc) as H.
    destruct (main.voice_chat audio env w) as [r w']. simpl in *.
    destruct H as (r2 & w2 & _ & _ & _ & _ & _ & _ & H).
    destruct r2 as [path|e]; [|by destruct H as [-> _]].
    destruct H as (u & a & t1 & t2 & t3 & t4 & P & Hr & _).
    cbv zeta in Hr. subst r. destruct (encode_error env _); [done|].
    exists path, u, a, (process_times w2), t1, t2, t3, t4.
    rewrite P. split; [done|]. split; [done|].
    simpl. repeat f_equal; apply (seconds_of_timing "").
  - rewrite voice_chat_unfold, bool_decide_eq_false_2 by done. done.
Qed.

(** ** The Responder never raises *)

(** C8.  [generate_response] always returns a string.  When the chat
    service raises, or its reply has no text, the string is ["[ERROR] "]
    followed by the text of the error; otherwise it is the reply (or the
    fixed error text for an empty reply).  When the history cannot be
    written after a reply, the failure is printed and the result is the same
    as when it can. *)
Theorem responder_never_raises prompt env w :
  let sent := send_message env (chat_history w) prompt in
  let '(r, w') := llm.generate_response prompt env w in
  r = Ok (match sent with
          | SendRaises msg => "[ERROR] " +:+ msg
          | ReplyNoText msg => "[ERROR] " +:+ msg
          | Reply text =>
              if String.eqb text "" then "[ERROR] No response from model" else text
          end) ∧
  log w' = log w ++
    match sent, persist_error env (chat_history w') with
    | SendRaises _, _ => []
    | _, Some msg => [(PRINT, "[ERROR] Gagal menyimpan riwayat chat: " +:+ msg)]
    | _, None => []
    end.
Proof.
  pose proof (generate_response_run prompt env w) as H. cbv zeta in *.
  destruct (llm.generate_response prompt env w) as [r w'].
  destruct H as (-> & _ & -> & -> & _). split; [done|].
  by destruct (send_message env (chat_history w) prompt).
Qed.

(** ** Trimming the transcript *)

Lemma lstrip_by_split p s :
  ∃ l, s = l +:+ Py.lstrip_by p s ∧ all_chars p l = true.
Proof.
  induction s as [|c s (l & Hs & Hl)]; simpl.
  - by exists "".
  - destruct (p c) eqn:Hc.
    + exists (String c l). rewrite app_String, <- Hs. simpl. by rewrite Hc, Hl.
    + by exists "".
Qed.

Lemma lstrip_by_head p s c rest : Py.lstrip_by p s = String c rest → p c = false.
Proof.
  induction s as [|a s IH]; simpl; [done|].
  destruct (p a) eqn:Ha; [exact IH|]. by intros [= <- _].
Qed.

Lemma rstrip_by_split p s :
  ∃ r, s = Py.rstrip_by p s +:+ r ∧ all_chars p r = true.
Proof.
  induction s as [|c s (r & Hs & Hr)]; simpl.
  - by exists "".
  - destruct (Py.rstrip_by p s) as [|a t] eqn:E.
    + destruct (p c) eqn:Hc.
      * exists (String c r). simpl in *. rewrite Hc, Hr. by rewrite Hs at 1.
      * exists r. rewrite app_String. simpl in Hs. by rewrite <- Hs.
    + exists r. rewrite app_String. by rewrite <- Hs.
Qed.

Lemma rstrip_by_head_inv p s c rest :
  Py.rstrip_by p s = String c rest → ∃ rest', s = String c rest'.
Proof.
  destruct s as [|a s]; simpl; [done|].
  destruct (Py.rstrip_by p s); [destruct (p a)|]; intros [= <- _]; eauto.
Qed.

Lemma rstrip_by_last p s init c :
  Py.rstrip_by p s = init +:+ String c EmptyString → p c = false.
Proof.
  revert init. induction s as [|a s IH]; intros init; simpl.
  - by destruct init.
  - destruct (Py.rstrip_by p s) as [|b t] eqn:E.
    + destruct (p a) eqn:Ha; [by destruct init|].
      destruct init as [|i init].
      * by intros [= <-].
      * rewrite app_String. intros [= _ H]. exact (IH _ H).
    + destruct init as [|i init].
      * rewrite app_empty_l. intros [= _ H].
      * rewrite app_String. intros [= _ H]. by eapply IH.

Qed.

Lemma strip_trimmed t : trimmed t (Py.strip t).
Proof.
  unfold Py.strip.
  destruct (lstrip_by_split Py.isspace t) as (l & Hl & Hls).
  destruct (rstrip_by_split Py.isspace (Py.lstrip_by Py.isspace t)) as (r & Hr & Hrs).
  split; [|split].
  - exists l, r. by rewrite <- Hr.
  - intros c rest Hs.
    destruct (rstrip_by_head_inv _ _ _ _ Hs) as (rest' & Hs').
    by eapply lstrip_by_head.
  - intros init c Hs. by eapply rstrip_by_last.
Qed.

Lemma calls_of_app fn evs1 evs2 :
  calls_of fn (evs1 ++ evs2) = calls_of fn evs1 ++ calls_of fn evs2.
Proof. unfold calls_of. apply omap_app. Qed.

Lemma calls_of_Call fn f args evs :
  f ≠ fn → calls_of fn (Call f args :: evs) = calls_of fn evs.
Proof.
  intros H. unfold calls_of. cbn [omap list_omap].
  destruct (String.eqb_spec f fn); done.
Qed.

Lemma calls_of_one_call fn fn' evs :
  one_call fn' evs → fn' ≠ fn → "subprocess.run" ≠ fn → calls_of fn evs = [].
Proof.
  intros (args & [-> | (cmd & ->)]) H1 H2; rewrite !calls_of_Call by done; done.
Qed.

(** C9.  The Responder is called exactly when the Transcriber has returned
    a transcript, once, and its argument is that transcript with the
    leading and trailing whitespace removed. *)
Theorem responder_receives_trimmed_transcript audio env w :
  let w' := (main.voice_chat audio env w).2 in
  ∃ evs, trace w' = trace w ++ evs ∧
    match dict_get "transcribed_text" (response_data w') with
    | Some (VStr user_text) =>
        calls_of "generate_response" evs = [[Py.strip user_text]] ∧
        trimmed user_text (Py.strip user_text)
    | _ => calls_of "generate_response" evs = []
    end.
Proof.
  destruct (decide (main.file_ext_of audio ∈ main.ALLOWED_AUDIO_EXTENSIONS)) as [Hacc|Hrej].
  - pose proof (voice_chat_accepted audio env w Hacc) as H.
    destruct (main.voice_chat audio env w) as [r w']. simpl in *.
    destruct H as (r2 & w2 & _ & Hrun & -> & _ & _ & _ & H).
    assert (Hcalls : ∀ evs2 evs4 u,
      one_call "transcribe_speech_to_text" evs2 →
      one_call "transcribe_text_to_speech" evs4 →
      calls_of "generate_response"
        (Stage "save_audio" :: Stage "speech_to_text" :: evs2
         ++ llm_events u ++ Stage "text_to_speech" :: evs4) = [[Py.strip u]]).
    { intros evs2 evs4 u S2 S4.
      change (calls_of "generate_response"
                (evs2 ++ llm_events u ++ Stage "text_to_speech" :: evs4)
              = [[Py.strip u]]).
      rewrite !calls_of_app, (calls_of_one_call _ _ _ S2) by done. simpl.
      change (calls_of "generate_response" (Stage "text_to_speech" :: evs4))
        with (calls_of "generate_response" evs4).
      by rewrite (calls_of_one_call _ _ _ S4). }
    inversion Hrun as
      [ ? msg E P D
      | ? msg t1 evs2 E S2 P D
      | ? msg t1 t2 t3 evs2 evs4 u a E S2 S4 P D
      | ? path t1 t2 t3 t4 evs2 evs4 u a E S2 S4 P D ]; subst;
      rewrite E; eexists; (split; [reflexivity|]).
    + destruct H as [_ ->]. rewrite D. done.
    + destruct H as [_ ->]. rewrite D. simpl.
      change (calls_of "generate_response" evs2 = []).
      by eapply calls_of_one_call.
    + destruct H as [_ ->]. rewrite D. simpl.
      split; [by apply Hcalls | apply strip_trimmed].
    + destruct H as (u' & a' & ? & ? & ? & ? & _ & _ & D' & ->).
      rewrite D in D'. injection D' as <- <-. simpl.
      split; [by apply Hcalls | apply strip_trimmed].
  - rewrite voice_chat_unfold, bool_decide_eq_false_2 by done. simpl.
    exists []. by rewrite app_nil_r.
Qed.

(** ** Letter case of the extension *)

Lemma lower_char_idem c : Py.lower_char (Py.lower_char c) = Py.lower_char c.
Proof. destruct c as [[] [] [] [] [] [] [] []]; vm_compute; reflexivity. Qed.

Lemma same_letter_lower c d : same_letter c d → Py.lower_char c = Py.lower_char d.
Proof. intros []; by rewrite ?lower_char_idem. Qed.

Lemma differ_only_in_case_lower s t : differ_only_in_case s t → Py.lower s = Py.lower t.
Proof.
  induction 1 as [|c d s t Hcd _ IH]; [done|].
  change (String (Py.lower_char c) (Py.lower s) = String (Py.lower_char d) (Py.lower t)).
  by rewrite (same_letter_lower _ _ Hcd), IH.
Qed.

Lemma allowed_is_lower e : e ∈ main.ALLOWED_AUDIO_EXTENSIONS → Py.lower e = e.
Proof.
  unfold main.ALLOWED_AUDIO_EXTENSIONS. rewrite !elem_of_cons, elem_of_nil.
  intros [->|[->|[->|[->|[]]]]]; reflexivity.
Qed.

(** The handler looks at the upload only through its lower-cased extension
    and its content. *)
Lemma voice_chat_depends_on_extension audio audio' env w :
  file audio' = file audio →
  main.file_ext_of audio' = main.file_ext_of audio →
  main.voice_chat audio' env w = main.voice_chat audio env w.
Proof.
  intros Hf He. unfold main.voice_chat, main.stages, main.save_audio.
  rewrite He, Hf. reflexivity.
Qed.

(** C10.  An upload whose extension differs only in letter case from the
    extension of another upload with the same content, the latter being one
    of the allowed extensions, is accepted (the answer is not the 400 of
    validation and the first step is started) and is processed exactly as
    the other: same response, same final state. *)
Theorem extension_case_is_ignored audio audio' env w :
  file audio' = file audio →
  (Py.splitext (filename audio')).2 ∈ main.ALLOWED_AUDIO_EXTENSIONS →
  differ_only_in_case (Py.splitext (filename audio)).2 (Py.splitext (filename audio')).2 →
  post_voice_chat audio env w = post_voice_chat audio' env w ∧
  status (post_voice_chat audio env w).1 ≠ 400 ∧
  ∃ evs, trace (post_voice_chat audio env w).2 = trace w ++ Stage "save_audio" :: evs.
Proof.
  intros Hf Hall Hcase.
  assert (He' : main.file_ext_of audio' = (Py.splitext (filename audio')).2)
    by (apply allowed_is_lower, Hall).
  assert (He : main.file_ext_of audio = main.file_ext_of audio')
    by (apply differ_only_in_case_lower, Hcase).
  assert (Hacc : main.file_ext_of audio ∈ main.ALLOWED_AUDIO_EXTENSIONS)
    by (rewrite He, He'; exact Hall).
  split.
  { unfold post_voice_chat.
    by rewrite (voice_chat_depends_on_extension audio audio' env w Hf (eq_sym He)). }
  unfold post_voice_chat.
  pose proof (voice_chat_accepted audio env w Hacc) as H.
  destruct (main.voice_chat audio env w) as [r w']. simpl in *.
  destruct H as (r2 & w2 & _ & Hrun & Etr & _ & _ & _ & H).
  split.
  - destruct r2 as [path|e].
    + destruct H as (? & ? & ? & ? & ? & ? & _ & -> & _). simpl.
      destruct (encode_error env _); simpl; [done|].
      by destruct (fs w' !! path).
    + destruct H as [-> _]. inversion Hrun; subst; simpl; done.
  - rewrite Etr. inversion Hrun as
      [ ? ? E | ? ? ? ? E | ? ? ? ? ? ? ? ? ? E | ? ? ? ? ? ? ? ? ? ? E ]; subst;
      rewrite E; simpl; eauto.
Qed.

Lemma extension_case_is_ignored_witness :
  let audio := mkUpload "HELLO.Wav" "abc" in
  post_voice_chat audio working_machine sample_world =
    post_voice_chat hello_wav working_machine sample_world ∧
  status (post_voice_chat audio working_machine sample_world).1 ≠ 400.
Proof.
  intros audio.
  assert (H1 : file hello_wav = file audio) by reflexivity.
  assert (H2 : (Py.splitext (filename hello_wav)).2 ∈ main.ALLOWED_AUDIO_EXTENSIONS)
    by (apply (bool_decide_eq_true_1 (_ ∈ _)); vm_compute; reflexivity).
  assert (H3 : differ_only_in_case (Py.splitext (filename audio)).2
                 (Py.splitext (filename hello_wav)).2).
  { change (differ_only_in_case ".Wav" ".wav").
    apply differ_cons; [apply same_char|].
    apply differ_cons; [apply (lower_of "W")|].
    apply differ_cons; [apply same_char|].
    apply differ_cons; [apply same_char|].
    apply differ_nil. }
  destruct (extension_case_is_ignored audio hello_wav working_machine sample_world
              H1 H2 H3) as (Heq & Hst & _).
  exact (conj Heq Hst).
Defined.

(** ** Temporary files *)

Lemma cleanup_loop_removes files env w :
  let w'' := (main.cleanup_loop files env w).2 in
  (∀ p, fs w !! p = None → fs w'' !! p = None) ∧
  (∀ p, p ∈ files → fs w'' !! p = None ∨ is_Some (remove_error env p)).
Proof.
  revert w. induction files as [|file_path rest IH]; intros w; cbv zeta.
  { split; [done|]. intros p Hp. by apply elem_of_nil in Hp. }
  assert (Hhead : ∃ w1,
    (main.cleanup_loop (file_path :: rest) env w).2 = (main.cleanup_loop rest env w1).2 ∧
    (∀ p, fs w !! p = None → fs w1 !! p = None) ∧
    (fs w1 !! file_path = None ∨ is_Some (remove_error env file_path))).
  { cbn [main.cleanup_loop]. unfold os_remove. run.
    destruct (fs w !! file_path) as [content|] eqn:E.
    - rewrite bool_decide_eq_true_2 by eauto. run.
      destruct (remove_error env file_path) as [msg|] eqn:Er; run.
      + eexists. split; [reflexivity|]. simpl. split; [done | eauto].
      + eexists. split; [reflexivity|]. simpl. split.
        * intros p Hp. destruct (decide (file_path = p)) as [->|];
            [apply lookup_delete_eq | by rewrite lookup_delete_ne].
        * left. apply lookup_delete_eq.
    - rewrite bool_decide_eq_false_2 by (intros [? ?]; congruence). run.
      eexists. split; [reflexivity|]. simpl. split; [done | by left]. }
  destruct Hhead as (w1 & -> & Hmono & Hfile).
  destruct (IH w1) as [IHmono IHrest]. split.
  - intros p Hp. by apply IHmono, Hmono.
  - intros p [->|Hp]%elem_of_cons.
    + destruct Hfile as [Hnone|Herr]; [left; by apply IHmono | by right].
    + by apply IHrest.
Qed.

(** C1, as the code has it.  For every accepted request the scratch
    directory of the request is empty of files when the response is sent,
    on success and on failure, and the saved upload is gone with it.  The
    synthesized audio file is not deleted then: after a 200 response it is
    still on disk, holding the body that was sent, and its path is the last
    entry of [TEMP_FILES].  It is deleted when [cleanup_temp_files] runs at
    server shutdown: after that hook every path listed in [TEMP_FILES] is
    absent, except those whose removal fails. *)
Theorem scratch_removed_audio_kept_until_shutdown audio env w :
  main.file_ext_of audio ∈ main.ALLOWED_AUDIO_EXTENSIONS →
  let '(response, w') := post_voice_chat audio env w in
  (∀ p, inside (tmpdir_at env w) p = true → fs w' !! p = None) ∧
  fs w' !! upload_path_at env w audio = None ∧
  (status response = 200 →
     ∃ path, TEMP_FILES w' = TEMP_FILES w ++ [path] ∧
             fs w' !! path = Some (body response)) ∧
  let w'' := (main.cleanup_temp_files env w').2 in
  ∀ p, p ∈ TEMP_FILES w' → fs w'' !! p = None ∨ is_Some (remove_error env p).
Proof.
  intros Hacc. unfold post_voice_chat.
  pose proof (voice_chat_accepted audio env w Hacc) as H.
  destruct (main.voice_chat audio env w) as [r w']. simpl in H.
  destruct H as (r2 & w2 & _ & Hrun & _ & Htf & _ & Hfs & H).
  assert (Hgone : ∀ p, inside (tmpdir_at env w) p = true → fs w' !! p = None).
  { intros p Hp. rewrite Hfs. by apply rmtree_inside. }
  split; [exact Hgone|]. split; [apply Hgone, upload_inside_tmpdir|]. split.
  - destruct r2 as [path|e].
    + destruct H as (? & ? & ? & ? & ? & ? & _ & -> & _). simpl.
      inversion Hrun as [| | |? ? ? ? ? ? ? ? ? ? _ _ _ _ _ T]; subst.
      destruct (encode_error env _); simpl; [done|].
      destruct (fs w' !! path) as [content|] eqn:E; simpl; [|done].
      intros _. exists path. split; [by rewrite Htf, T | done].
    + destruct H as [-> _]. inversion Hrun; subst; simpl; done.
  - intros p Hp. unfold main.cleanup_temp_files. run.
    by apply cleanup_loop_removes.
Qed.

Lemma scratch_removed_audio_kept_until_shutdown_witness :
  (main.file_ext_of hello_wav ∈ main.ALLOWED_AUDIO_EXTENSIONS) ∧
  fs (post_voice_chat hello_wav working_machine sample_world).2
    !! upload_path_at working_machine sample_world hello_wav = None.
Proof.
  assert (Hacc : main.file_ext_of hello_wav ∈ main.ALLOWED_AUDIO_EXTENSIONS)
    by (apply (bool_decide_eq_true_1 (_ ∈ _)); vm_compute; reflexivity).
  split; [exact Hacc|].
  pose proof (scratch_removed_audio_kept_until_shutdown
                hello_wav working_machine sample_world Hacc) as H.
  destruct (post_voice_chat hello_wav working_machine sample_world) as [response w'].
  exact (proj1 (proj2 H)).
Defined.

(** C1, as stated, fails: a request answered with 200 leaves the
    synthesized audio file on disk after the response has been sent. *)
Lemma synthesized_audio_survives_delivery :
  ¬ (∀ audio env w,
       match main.voice_chat audio env w with
       | (Ok response, w') => fs w' !! FileResponse.path response = None
       | (Raise _, _) => True
       end).
Proof.
  intros H. specialize (H hello_wav working_machine sample_world).
  vm_compute in H. discriminate H.
Qed.

(** ** Failures of the Transcriber *)

(** C2, as the code has it.  When the transcription program, run for an
    accepted request whose upload was saved, exits with a non-zero code, or
    exits with code zero and the expected text file is absent, the
    Transcriber raises nothing: it returns the sentinel text
    ["[ERROR] Whisper failed: ..."] or ["[ERROR] Transcription file not
    found"] as the transcript.  The program is run once.  The handler
    records the transcript and the [speech_to_text] timing, calls the
    Responder on the (trimmed) sentinel and starts the Synthesizer; its
    answer is never the 500 of a failed speech-to-text step. *)
Theorem transcriber_failure_becomes_transcript audio env w code diag written :
  let file_ext := main.file_ext_of audio in
  let ws := transcriber_called_in audio env w in
  let files := <[stt_audio_path env ws file_ext := file audio]> (fs ws) in
  let transcript :=
    if code =? 0 then "[ERROR] Transcription file not found"
    else "[ERROR] Whisper failed: " +:+ diag in
  file_ext ∈ main.ALLOWED_AUDIO_EXTENSIONS →
  write_error env (upload_path_at env w audio) = None →
  write_error env (stt_audio_path env ws file_ext) = None →
  run_program env (stt_cmd env ws file_ext) files = Exited code diag written →
  code ≠ 0 ∨
    after_writes written files !! (stt_output_basename env ws +:+ ".txt") = None →
  let '(r, w') := main.voice_chat audio env w in
  (∃ evs4,
     trace w' = trace w ++
       [Stage "save_audio"; Stage "speech_to_text";
        Call "transcribe_speech_to_text" [file audio; file_ext];
        Call "subprocess.run" (stt_cmd env ws file_ext)]
       ++ llm_events transcript ++ Stage "text_to_speech" :: evs4 ∧
     one_call "transcribe_text_to_speech" evs4) ∧
  dict_get "transcribed_text" (response_data w') = Some (VStr transcript) ∧
  take 3 (process_times w').*1 = ["save_audio"; "speech_to_text"; "llm_response"] ∧
  ∀ msg, r ≠ Raise (HTTPException 500 ("Speech-to-text failed: " +:+ msg)).
Proof.
  intros file_ext ws files transcript Hacc Hsave Hwrite Hrun Hfail.
  rewrite voice_chat_unfold, bool_decide_eq_true_2 by done. cbv zeta.
  fold file_ext. unfold main.stages. rewrite run_bind.
  subst files ws. unfold transcriber_called_in in *. fold file_ext in Hwrite, Hrun, Hfail |- *.
  pose proof (save_audio_run audio (tmpdir_at env w) file_ext env (entered w)) as H1.
  destruct (main.save_audio audio (tmpdir_at env w) file_ext env (entered w)) as [r1 w1].
  simpl in H1. cbn [snd] in Hwrite, Hrun, Hfail. destruct H1 as (D1 & T1 & E1 & _ & H1).
  change (Py.path_join _ _) with (upload_path_at env w audio) in H1.
  rewrite Hsave in H1. destruct H1 as (-> & F1 & t1 & P1).
  unfold dict_set in P1; simpl in P1.
  (* the Transcriber *)
  rewrite run_bind.
  pose proof (speech_to_text_run (upload_path_at env w audio) file_ext env w1) as H2.
  destruct (main.speech_to_text _ file_ext env w1) as [r2 w2].
  destruct H2 as (T2 & H2). rewrite F1, lookup_insert_eq in H2.
  pose proof (stt_run (file audio) file_ext env (entering "speech_to_text" w1)) as H0.
  destruct (stt.transcribe_speech_to_text (file audio) file_ext env
              (entering "speech_to_text" w1)) as [r0 w0].
  cbv zeta in H0. rewrite Hwrite, Hrun in H0. destruct H0 as (E0 & H0).
  assert (r0 = Ok transcript) as ->.
  { subst transcript. destruct (code =? 0) eqn:Hc; [|exact H0].
    destruct Hfail as [Hne|Habs]; [lia|]. rewrite Habs in H0. exact H0. }
  destruct H2 as (E2 & _ & _ & -> & D2 & t2 & P2).
  rewrite P1 in P2. rewrite D1 in D2. unfold dict_set in P2, D2; simpl in P2, D2.
  (* the Responder *)
  rewrite run_bind.
  pose proof (llm_response_run transcript env w2) as H3.
  destruct (main.llm_response transcript env w2) as [r3 w3].
  destruct H3 as (T3 & E3 & _ & _ & t3 & -> & D3 & P3).
  specialize (D3 _ eq_refl).
  rewrite P2 in P3. rewrite D2 in D3. unfold dict_set in P3, D3; simpl in P3, D3.
  (* the Synthesizer *)
  match goal with |- context [main.text_to_speech ?a env w3] =>
    pose proof (text_to_speech_run a env w3) as H4;
    pose proof (tts_events a env (entering "text_to_speech" w3)) as (evs4 & E4 & S4);
    destruct (tts.transcribe_text_to_speech a env (entering "text_to_speech" w3))
      as [r4' w4'];
    destruct (main.text_to_speech a env w3) as [r4 w4] end.
  simpl in E4. destruct H4 as (D4 & E4' & _ & H4).
  assert (Etr : trace w4 = trace w ++
       [Stage "save_audio"; Stage "speech_to_text";
        Call "transcribe_speech_to_text" [file audio; file_ext];
        Call "subprocess.run" (stt_cmd env (entering "speech_to_text" w1) file_ext)]
       ++ llm_events transcript ++ Stage "text_to_speech" :: evs4).
  { rewrite E4', E4, E3, E2, E0. simpl. rewrite E1. simpl.
    rewrite <- !app_assoc. done. }
  destruct r4' as [path|e4].
  - destruct H4 as (-> & T4 & t4 & P4).
    rewrite P3 in P4. unfold dict_set in P4; simpl in P4.
    erewrite respond_run; [| exact P4 | simpl; rewrite D4; exact D3].
    destruct (encode_error env _); simpl; rewrite P4;
      (split; [exists evs4; split; [exact Etr | exact S4]|]);
      (split; [done|]); (split; [done|]); done.
  - destruct H4 as (-> & T4 & P4). simpl. rewrite D4, D3, P4, P3.
    split; [exists evs4; split; [exact Etr | exact S4]|].
    split; [done|]. split; [done|].
    intros msg [= H].
Qed.

Lemma transcriber_failure_becomes_transcript_witness :
  (main.file_ext_of hello_wav ∈ main.ALLOWED_AUDIO_EXTENSIONS) ∧
  dict_get "transcribed_text"
    (response_data (main.voice_chat hello_wav failing_whisper sample_world).2) =
  Some (VStr "[ERROR] Whisper failed: Command returned non-zero exit status 1.").
Proof.
  assert (Hacc : main.file_ext_of hello_wav ∈ main.ALLOWED_AUDIO_EXTENSIONS)
    by (apply (bool_decide_eq_true_1 (_ ∈ _)); vm_compute; reflexivity).
  split; [exact Hacc|].
  pose proof (transcriber_failure_becomes_transcript hello_wav failing_whisper
                sample_world 1 "Command returned non-zero exit status 1." []
                Hacc eq_refl eq_refl eq_refl
                (or_introl (λ H : 1 = 0, Z.neq_succ_diag_l 0 H))) as H.
  destruct (main.voice_chat hello_wav failing_whisper sample_world) as [r w'].
  exact (proj1 (proj2 H)).
Defined.

(** The other failure of the program: it exits with code zero and writes
    nothing.  The transcript is the second sentinel and the request is
    served. *)
Example silent_whisper_is_served :
  let '(response, w') :=
    post_voice_chat hello_wav (machine (λ _, Exited 0 "" [])) sample_world in
  status response = 200 ∧
  dict_get "transcribed_text" (response_data w') =
    Some (VStr "[ERROR] Transcription file not found") ∧
  calls_of "generate_response" (trace w') = [["[ERROR] Transcription file not found"]].
Proof. vm_compute. done. Qed.

(** C2, as stated, fails: with a transcription program that exits with
    code 1 the request is answered with 200, not 500. *)
Lemma nonzero_exit_is_not_a_500 :
  ¬ (∀ audio env w code diag written,
       main.file_ext_of audio ∈ main.ALLOWED_AUDIO_EXTENSIONS →
       (∀ cmd files, run_program env cmd files = Exited code diag written) →
       code ≠ 0 →
       status (post_voice_chat audio env w).1 = 500).
Proof.
  intros H.
  specialize (H hello_wav failing_whisper sample_world 1
                "Command returned non-zero exit status 1." []).
  assert (Hacc : main.file_ext_of hello_wav ∈ main.ALLOWED_AUDIO_EXTENSIONS)
    by (apply (bool_decide_eq_true_1 (_ ∈ _)); vm_compute; reflexivity).
  specialize (H Hacc (λ _ _, eq_refl)). 
  assert (1 ≠ 0) as Hne by lia. specialize (H Hne).
  vm_compute in H. discriminate H.
Qed.

(** ** Failures of the Synthesizer *)

(** C3 at the input where the code departs from it: no voice-model
    artifact and no fallback sample.  The Synthesizer raises nothing and
    returns its error text as if it were a path; the handler lists that
    text in [TEMP_FILES], records the [text_to_speech] timing and returns a
    [FileResponse] for it.  No [HTTPException] naming the text-to-speech
    step is raised: the client gets a bare 500 without detail. *)
Theorem missing_sample_returns_error_text_as_path :
  let '(r, w') := main.voice_chat hello_wav working_machine bare_world in
  FileResponse.path <$> (match r with Ok response => Some response | Raise _ => None end)
    = Some "[ERROR] Model file not found and no fallback available" ∧
  TEMP_FILES w' = ["[ERROR] Model file not found and no fallback available"] ∧
  (process_times w').*1 = main.PIPELINE ∧
  deliver r w' = internal_server_error ∧
  detail_of (deliver r w') = None.
Proof. vm_compute. done. Qed.

Lemma fallback_outside_tmpdir env w w3 :
  inside (tmpdir_at env w) (fallback_path_at env w3) = false.
Proof.
  unfold inside, fallback_path_at.
  rewrite path_join_relative by done.
  rewrite (proj1 (tmpdir_at_shape env w)), !app_assoc_s.
  rewrite prefix_app_same. reflexivity.
Qed.

Lemma stages_after_llm audio env w ai_response w3 :
  before_synthesis audio env w = (Ok ai_response, w3) →
  main.stages audio (main.file_ext_of audio) (tmpdir_at env w) env (entered w) =
  main.text_to_speech ai_response env w3.
Proof.
  unfold before_synthesis, main.stages. rewrite !run_bind.
  change (tmpdir_at env (entered w)) with (tmpdir_at env w).
  destruct (main.save_audio _ _ _ _ _) as [[p|e] w1]; [|done].
  rewrite !run_bind.
  destruct (main.speech_to_text _ _ _ _) as [[u|e] w2]; [|done].
  rewrite run_bind.
  destruct (main.llm_response _ _ _) as [[a|e] w3']; [|done].
  by intros [= -> ->].
Qed.

(** C4, as the code has it.  For an accepted request whose first three
    steps raise nothing, if a voice-model artifact is absent when the
    Synthesizer is called while the fallback sample exists and its copy can
    be written, then the Synthesizer runs no program and returns the path of
    a new file holding the content of the sample, and the pipeline
    completes.  If moreover the transcript and the reply can be encoded in
    the metadata header, the client receives HTTP 200 whose body is the
    content of the sample: a non-empty body when the sample is not empty. *)
Theorem fallback_sample_is_served audio env w ai_response w3 content :
  main.file_ext_of audio ∈ main.ALLOWED_AUDIO_EXTENSIONS →
  before_synthesis audio env w = (Ok ai_response, w3) →
  first_missing (fs w3) (artifacts env) ≠ None →
  fs w3 !! tts.sample_audio env = Some content →
  write_error env (fallback_path_at env w3) = None →
  let '(response, w') := post_voice_chat audio env w in
  TEMP_FILES w' = TEMP_FILES w ++ [fallback_path_at env w3] ∧
  fs w' !! fallback_path_at env w3 = Some content ∧
  trace w' = trace w3 ++ [Stage "text_to_speech";
                          Call "transcribe_text_to_speech" [ai_response]] ∧
  (process_times w').*1 = main.PIPELINE ∧
  (encodable env (response_data w3) →
   status response = 200 ∧ body response = content ∧
   (content ≠ "" → body response ≠ "")).
Proof.
  intros Hacc Hbefore Hmiss Hsample Hwrite. unfold post_voice_chat.
  pose proof (voice_chat_accepted audio env w Hacc) as H.
  destruct (main.voice_chat audio env w) as [r w']. cbv zeta in H.
  destruct H as (r2 & w2 & Hst & Hrun & Etr & Htf & Hpt & Hfs & H).
  rewrite (stages_after_llm _ _ _ _ _ Hbefore) in Hst.
  pose proof (text_to_speech_run ai_response env w3) as H4.
  destruct (first_missing (fs w3) (artifacts env)) as [desc|] eqn:Hdesc; [|done].
  pose proof (tts_missing_run ai_response env (entering "text_to_speech" w3) desc Hdesc)
    as H0.
  destruct (tts.transcribe_text_to_speech ai_response env
              (entering "text_to_speech" w3)) as [r0 w0].
  destruct H0 as (E0 & H0).
  change (fs (entering "text_to_speech" w3)) with (fs w3) in H0.
  change (fallback_path_at env (entering "text_to_speech" w3))
    with (fallback_path_at env w3) in H0.
  rewrite Hsample, Hwrite in H0. destruct H0 as (-> & F0).
  rewrite Hst in H4. destruct H4 as (D4 & E4 & F4 & -> & T4 & _).
  destruct H as (u & a & t1 & t2 & t3 & t4 & P & Hr & D & _).
  assert (Hfile : fs w' !! fallback_path_at env w3 = Some content).
  { rewrite Hfs, rmtree_outside by apply fallback_outside_tmpdir.
    rewrite F4, F0. apply lookup_insert_eq. }
  split.
  { inversion Hrun as [| | |? ? ? ? ? ? ? ? ? ? _ _ _ _ _ T]; subst.
    by rewrite Htf, T. }
  split; [exact Hfile|]. split.
  { rewrite Etr, E4, E0. simpl. by rewrite <- app_assoc. }
  split; [by rewrite Hpt, P|].
  intros Henc.
  assert (Hinfo : encode_error env
            (process_info u a (process_times w2) (t1 + t2 + t3 + t4)) = None).
  { specialize (Henc (process_times w2) (t1 + t2 + t3 + t4)).
    by rewrite <- D4, D in Henc. }
  rewrite Hinfo in Hr. subst r. simpl. rewrite Hfile. simpl. done.
Qed.

Lemma fallback_sample_is_served_witness :
  (main.file_ext_of hello_wav ∈ main.ALLOWED_AUDIO_EXTENSIONS) ∧
  status (post_voice_chat hello_wav working_machine sample_world).1 = 200 ∧
  body (post_voice_chat hello_wav working_machine sample_world).1 = "RIFF".
Proof.
  assert (Hacc : main.file_ext_of hello_wav ∈ main.ALLOWED_AUDIO_EXTENSIONS)
    by (apply (bool_decide_eq_true_1 (_ ∈ _)); vm_compute; reflexivity).
  split; [exact Hacc|].
  set (w3 := (before_synthesis hello_wav working_machine sample_world).2).
  assert (Hbefore : before_synthesis hello_wav working_machine sample_world =
                    (Ok "Hai, ada yang bisa saya bantu?", w3))
    by (vm_compute; reflexivity).
  assert (Hmiss : first_missing (fs w3) (artifacts working_machine) ≠ None)
    by (vm_compute; discriminate).
  assert (Hsample : fs w3 !! tts.sample_audio working_machine = Some "RIFF")
    by (vm_compute; reflexivity).
  assert (Henc : encodable working_machine (response_data w3))
    by (intros times total; reflexivity).
  pose proof (fallback_sample_is_served hello_wav working_machine sample_world
                _ w3 "RIFF" Hacc Hbefore Hmiss Hsample eq_refl) as H.
  destruct (post_voice_chat hello_wav working_machine sample_world) as [response w'].
  destruct H as (_ & _ & _ & _ & H). destruct (H Henc) as (H1 & H2 & _).
  exact (conj H1 H2).
Defined.

(** The hypothesis on the header is needed: when the metadata cannot be
    encoded, the response is not built, the handler raises the
    [UnicodeEncodeError] and the client receives a bare 500, although the
    copy of the sample is made and listed. *)
Example unencodable_metadata_is_a_bare_500 :
  let env := unencodable "'latin-1' codec can't encode characters" working_machine in
  let '(response, w') := post_voice_chat hello_wav env sample_world in
  response = internal_server_error ∧
  TEMP_FILES w' = [fallback_path_at env (before_synthesis hello_wav env sample_world).2] ∧
  fs w' !! fallback_path_at env (before_synthesis hello_wav env sample_world).2
    = Some "RIFF".
Proof. vm_compute. done. Qed.

(** An empty sample is copied and served as it is: status 200 with an empty
    body. *)
Example empty_sample_is_served_empty :
  let w := set_fs <["/srv/app/coqui_utils/test_output.wav" := ""]> bare_world in
  let '(response, w') := post_voice_chat hello_wav working_machine w in
  status response = 200 ∧ body response = "".
Proof. vm_compute. done. Qed.

(** C4, as stated, fails: the upload passes validation, the voice-model
    artifacts are absent and the sample exists, but the transcription
    program cannot be started, and the client receives 500. *)
Lemma fallback_does_not_cover_earlier_failures :
  ¬ (∀ audio env w,
       main.file_ext_of audio ∈ main.ALLOWED_AUDIO_EXTENSIONS →
       first_missing (fs w) (artifacts env) ≠ None →
       is_Some (fs w !! tts.sample_audio env) →
       status (post_voice_chat audio env w).1 = 200).
Proof.
  intros H. specialize (H hello_wav missing_whisper sample_world).
  assert (Hacc : main.file_ext_of hello_wav ∈ main.ALLOWED_AUDIO_EXTENSIONS)
    by (apply (bool_decide_eq_true_1 (_ ∈ _)); vm_compute; reflexivity).
  assert (Hmiss : first_missing (fs sample_world) (artifacts missing_whisper) ≠ None)
    by (vm_compute; discriminate).
  assert (Hsample : is_Some (fs sample_world !! tts.sample_audio missing_whisper))
    by (exists "RIFF"; vm_compute; reflexivity).
  specialize (H Hacc Hmiss Hsample). vm_compute in H. discriminate H.
Qed.

(** * Further properties of the code *)

(** ** What the handler answers *)

(** X1.  Every [HTTPException] that the handler raises is the 400 of
    validation or a 500 whose detail starts with the name of the failed
    step, and the step of the Responder is never the failed one: the 500 of
    [LLM processing failed] is raised in no run. *)
Theorem handler_http_exceptions audio env w :
  match (main.voice_chat audio env w).1 with
  | Raise (HTTPException code detail) =>
      (code = 400 ∧
       detail = "Unsupported audio format. Allowed formats: .wav, .mp3, .ogg, .m4a") ∨
      (code = 500 ∧
       ∃ msg, detail = "Failed to process audio: " +:+ msg ∨
              detail = "Speech-to-text failed: " +:+ msg ∨
              detail = "Text-to-speech failed: " +:+ msg)
  | _ => True
  end.
Proof.
  destruct (decide (main.file_ext_of audio ∈ main.ALLOWED_AUDIO_EXTENSIONS)) as [Hacc|Hrej].
  - pose proof (voice_chat_accepted audio env w Hacc) as H.
    destruct (main.voice_chat audio env w) as [r w']. cbv zeta in H. cbn [fst].
    destruct H as (r2 & w2 & _ & Hrun & _ & _ & _ & _ & H).
    destruct r2 as [path|e].
    + destruct H as (? & ? & ? & ? & ? & ? & _ & -> & _).
      by destruct (encode_error env _).
    + destruct H as [-> _]. inversion Hrun; subst; right; eauto.
  - rewrite voice_chat_unfold, bool_decide_eq_false_2 by done. simpl. by left.
Qed.

(** X2.  [TEMP_FILES] only grows, and by the path that the Synthesizer
    returned: the handler appends it before it builds the response, so that
    the path of a returned response is listed, an [HTTPException] leaves
    the list as it was, and a response that cannot be built because of its
    header leaves the path listed although the handler raises. *)
Theorem temp_files_gain_the_synthesized_path audio env w :
  let '(r, w') := main.voice_chat audio env w in
  match r with
  | Ok response => TEMP_FILES w' = TEMP_FILES w ++ [FileResponse.path response]
  | Raise (HTTPException _ _) => TEMP_FILES w' = TEMP_FILES w
  | Raise (PyErr cls _) =>
      cls = UnicodeEncodeError → ∃ path, TEMP_FILES w' = TEMP_FILES w ++ [path]
  end.
Proof.
  destruct (decide (main.file_ext_of audio ∈ main.ALLOWED_AUDIO_EXTENSIONS)) as [Hacc|Hrej].
  - pose proof (voice_chat_accepted audio env w Hacc) as H.
    destruct (main.voice_chat audio env w) as [r w']. cbv zeta in H.
    destruct H as (r2 & w2 & _ & Hrun & _ & -> & _ & _ & H).
    destruct r2 as [path|e].
    + destruct H as (? & ? & ? & ? & ? & ? & _ & -> & _).
      inversion Hrun as [| | |? ? ? ? ? ? ? ? ? ? _ _ _ _ _ T]; subst.
      destruct (encode_error env _); simpl; eauto.
    + destruct H as [-> _]. by inversion Hrun.
  - by rewrite voice_chat_unfold, bool_decide_eq_false_2 by done.
Qed.

(** ** The shutdown hook *)

Lemma cleanup_loop_files files env w :
  let '(r, w'') := main.cleanup_loop files env w in
  r = Ok tt ∧ TEMP_FILES w'' = TEMP_FILES w ∧ trace w'' = trace w ∧
  ∀ p, fs w'' !! p =
       if bool_decide (p ∈ files ∧ remove_error env p = None) then None
       else fs w !! p.
Proof.
  revert w. induction files as [|file_path rest IH]; intros w.
  { simpl. repeat split. }
  assert (Hhead : ∃ w1,
    main.cleanup_loop (file_path :: rest) env w = main.cleanup_loop rest env w1 ∧
    TEMP_FILES w1 = TEMP_FILES w ∧ trace w1 = trace w ∧
    ∀ p, fs w1 !! p =
         if bool_decide (p = file_path ∧ remove_error env p = None) then None
         else fs w !! p).
  { cbn [main.cleanup_loop]. unfold os_remove. run.
    destruct (fs w !! file_path) as [content|] eqn:E.
    - rewrite bool_decide_eq_true_2 by eauto. run.
      destruct (remove_error env file_path) as [msg|] eqn:Er; run.
      + eexists. split; [reflexivity|]. simpl. repeat split. intros p.
        rewrite bool_decide_eq_false_2; [done|]. intros [-> ?]. congruence.
      + eexists. split; [reflexivity|]. simpl. repeat split. intros p.
        destruct (decide (p = file_path)) as [->|Hne].
        * rewrite bool_decide_eq_true_2 by done. apply lookup_delete_eq.
        * rewrite bool_decide_eq_false_2 by (by intros [? _]).
          by rewrite lookup_delete_ne.
    - rewrite bool_decide_eq_false_2 by (intros [? ?]; congruence). run.
      eexists. split; [reflexivity|]. simpl. repeat split. intros p.
      case_bool_decide as H; [|done]. destruct H as [-> _]. done. }
  destruct Hhead as (w1 & -> & T1 & E1 & F1).
  specialize (IH w1). destruct (main.cleanup_loop rest env w1) as [r w''].
  destruct IH as (-> & T & E & F). rewrite T, T1, E, E1. repeat split.
  intros p. rewrite F, F1.
  destruct (decide (p = file_path ∧ remove_error env p = None)) as [[-> Hr]|Hn].
  - rewrite (bool_decide_eq_true_2 (file_path = file_path ∧ _)) by done.
    rewrite (bool_decide_eq_true_2 (_ ∈ _ :: _ ∧ _)) by (split; [left|done]).
    by destruct (bool_decide _).
  - rewrite (bool_decide_eq_false_2 (p = file_path ∧ _)) by done.
    rewrite (bool_decide_ext (p ∈ file_path :: rest ∧ remove_error env p = None)
               (p ∈ rest ∧ remove_error env p = None)); [done|].
    rewrite elem_of_cons. split; [intros [[->|?] ?]; [by destruct Hn | done] | intros [? ?]; auto].
Qed.

Lemma cleanup_temp_files_files env w :
  let '(r, w'') := main.cleanup_temp_files env w in
  r = Ok tt ∧ TEMP_FILES w'' = TEMP_FILES w ∧
  ∀ p, fs w'' !! p =
       if bool_decide (p ∈ TEMP_FILES w ∧ remove_error env p = None) then None
       else fs w !! p.
Proof.
  unfold main.cleanup_temp_files. run.
  pose proof (cleanup_loop_files (TEMP_FILES w) env w) as H.
  destruct (main.cleanup_loop (TEMP_FILES w) env w) as [r w''].
  by destruct H as (-> & T & _ & F).
Qed.

(** X3.  The shutdown hook never raises and never empties [TEMP_FILES].
    Of the files it touches only those listed in [TEMP_FILES]: a listed
    path whose removal does not fail is absent afterwards, and every other
    path holds what it held before. *)
Theorem cleanup_removes_exactly_the_listed_files env w :
  let '(r, w'') := main.cleanup_temp_files env w in
  r = Ok tt ∧ TEMP_FILES w'' = TEMP_FILES w ∧
  ∀ p, fs w'' !! p =
       if bool_decide (p ∈ TEMP_FILES w ∧ remove_error env p = None) then None
       else fs w !! p.
Proof. exact (cleanup_temp_files_files env w). Qed.

(** X4.  Running the shutdown hook a second time changes no file. *)
Theorem cleanup_twice_changes_no_file env w :
  let w1 := (main.cleanup_temp_files env w).2 in
  fs (main.cleanup_temp_files env w1).2 = fs w1.
Proof.
  intros w1. subst w1.
  pose proof (cleanup_temp_files_files env w) as H1.
  destruct (main.cleanup_temp_files env w) as [r1 w1].
  destruct H1 as (_ & T1 & F1). simpl.
  pose proof (cleanup_temp_files_files env w1) as H2.
  destruct (main.cleanup_temp_files env w1) as [r2 w2].
  destruct H2 as (_ & _ & F2). simpl.
  apply map_eq. intros p. rewrite F2, T1, F1.
  by case_bool_decide.
Qed.

(** ** More on the Transcriber *)

Lemma app_empty_r s : s +:+ "" = s.
Proof. induction s as [|c s IH]; [done|]. by rewrite app_String, IH. Qed.

Lemma inside_tmpdir_join env w x :
  Py.startswith "/" x = false →
  Py.path_join (tmpdir_at env w) x = tmpdir_at env w +:+ "/" +:+ x ∧
  ∀ y, inside (tmpdir_at env w) (Py.path_join (tmpdir_at env w) x +:+ y) = true.
Proof.
  intros Hx. rewrite path_join_relative by done.
  rewrite (proj2 (tmpdir_at_shape env w)), app_assoc_s. split; [done|].
  intros y. unfold inside. rewrite <- !app_assoc_s. rewrite !app_assoc_s.
  rewrite <- (app_assoc_s (tmpdir_at env w) "/"). apply prefix_app_self.
Qed.

Lemma stt_scratch_removed file_bytes file_ext env w :
  ∃ w2, (stt.transcribe_speech_to_text file_bytes file_ext env w).2 =
        set_fs (rmtree (tmpdir_at env w)) w2.
Proof.
  unfold stt.transcribe_speech_to_text, TemporaryDirectory, tmpdir_at. run.
  match goal with |- context [let '(r, w2) := ?b in _] => destruct b as [r w2] end.
  destruct r; simpl; eauto.
Qed.

(** X5.  Whatever happens in it, an exception included, the Transcriber
    leaves nothing in its scratch directory: neither its copy of the audio
    nor the text file of the program is left. *)
Theorem transcriber_leaves_no_scratch file_bytes file_ext env w :
  let w' := (stt.transcribe_speech_to_text file_bytes file_ext env w).2 in
  (∀ p, inside (tmpdir_at env w) p = true → fs w' !! p = None) ∧
  fs w' !! stt_audio_path env w file_ext = None ∧
  fs w' !! (stt_output_basename env w +:+ ".txt") = None.
Proof.
  intros w'. subst w'.
  destruct (stt_scratch_removed file_bytes file_ext env w) as (w2 & ->). simpl.
  assert (H : ∀ p, inside (tmpdir_at env w) p = true →
                   rmtree (tmpdir_at env w) (fs w2) !! p = None)
    by (intros p Hp; by apply rmtree_inside).
  split; [exact H|]. split; apply H.
  - unfold stt_audio_path.
    destruct (hex_of_N_digits (random env (S (names_drawn w)))) as [Hd Hne].
    destruct (inside_tmpdir_join env w
                (Py.hex_of_N (random env (S (names_drawn w))) +:+ file_ext)) as [_ Hin];
      [by apply startswith_slash_hex|].
    specialize (Hin ""). by rewrite app_empty_r in Hin.
  - unfold stt_output_basename.
    by destruct (inside_tmpdir_join env w "transcription") as [_ Hin].
Qed.

Lemma stt_files file_bytes file_ext env w :
  let audio_path := stt_audio_path env w file_ext in
  let f1 := <[audio_path := file_bytes]> (fs w) in
  fs (stt.transcribe_speech_to_text file_bytes file_ext env w).2 =
  rmtree (tmpdir_at env w)
    match write_error env audio_path with
    | Some _ => fs w
    | None =>
        match run_program env (stt_cmd env w file_ext) f1 with
        | CannotStart _ => f1
        | Exited _ _ written => after_writes written f1
        end
    end.
Proof.
  unfold stt.transcribe_speech_to_text, TemporaryDirectory, write_file, subprocess_run,
    read_text, read_file, stt_cmd, stt_audio_path, stt_output_basename, tmpdir_at,
    after_writes.
  run.
  destruct (write_error env _) as [msg|]; run; [done|].
  destruct (run_program env _ _) as [msg|code diag written]; run; [done|].
  destruct (code =? 0); run; [|done].
  match goal with |- context [?m !! ?k] => destruct (m !! k) end; run; [|done].
  destruct (decode_utf8 env _); run; done.
Qed.

Lemma after_writes_outside written f p :
  Forall (λ kv : string * string, kv.1 ≠ p) written →
  after_writes written f !! p = f !! p.
Proof.
  unfold after_writes. revert f.
  induction written as [|[q c] rest IH]; intros f Hw; [done|].
  apply Forall_cons in Hw as [Hq Hrest]. simpl in *.
  rewrite IH by done. by rewrite lookup_insert_ne.
Qed.

(** X6.  When the audio could be written and the program exits with code
    0 and leaves the text file, the Transcriber returns the text of that
    file, untrimmed: its content decoded as UTF-8, with every line end
    translated to a line feed. *)
Theorem transcriber_returns_the_text_file
    file_bytes file_ext env w diag written content text :
  let f1 := <[stt_audio_path env w file_ext := file_bytes]> (fs w) in
  write_error env (stt_audio_path env w file_ext) = None →
  run_program env (stt_cmd env w file_ext) f1 = Exited 0 diag written →
  after_writes written f1 !! (stt_output_basename env w +:+ ".txt") = Some content →
  decode_utf8 env content = inl text →
  (stt.transcribe_speech_to_text file_bytes file_ext env w).1 =
    Ok (Py.universal_newlines text).
Proof.
  intros f1 Hw Hp Ht Hd. subst f1.
  pose proof (stt_run file_bytes file_ext env w) as H. cbv zeta in H.
  destruct (stt.transcribe_speech_to_text file_bytes file_ext env w) as [r w'].
  rewrite Hw, Hp in H. destruct H as [_ H].
  change (0 =? 0) with true in H. cbv iota in H.
  rewrite Ht, Hd in H. exact H.
Qed.

(** X7.  A text file that is not UTF-8 fails the request: the Transcriber
    catches only the absence of the file, so the [UnicodeDecodeError] of the
    read leaves it, and the handler answers 500 with the detail
    [Speech-to-text failed: ] followed by the message of the error. *)
Theorem undecodable_transcript_fails_the_request audio env w diag written content msg :
  let file_ext := main.file_ext_of audio in
  let ws := transcriber_called_in audio env w in
  let files := <[stt_audio_path env ws file_ext := file audio]> (fs ws) in
  file_ext ∈ main.ALLOWED_AUDIO_EXTENSIONS →
  write_error env (upload_path_at env w audio) = None →
  write_error env (stt_audio_path env ws file_ext) = None →
  run_program env (stt_cmd env ws file_ext) files = Exited 0 diag written →
  after_writes written files !! (stt_output_basename env ws +:+ ".txt") = Some content →
  decode_utf8 env content = inr msg →
  (stt.transcribe_speech_to_text (file audio) file_ext env ws).1 =
    Raise (PyErr UnicodeDecodeError msg) ∧
  (post_voice_chat audio env w).1 =
    mkResponse 500 (Some ("Speech-to-text failed: " +:+ msg)) "" None.
Proof.
  intros file_ext ws files Hacc Hsave Hwrite Hrun Hfile Hdec.
  assert (Hstt : (stt.transcribe_speech_to_text (file audio) file_ext env ws).1 =
                 Raise (PyErr UnicodeDecodeError msg)).
  { pose proof (stt_run (file audio) file_ext env ws) as H0. cbv zeta in H0.
    destruct (stt.transcribe_speech_to_text (file audio) file_ext env ws) as [r0 w0].
    subst files. rewrite Hwrite, Hrun in H0. destruct H0 as [_ H0].
    change (0 =? 0) with true in H0. cbv iota in H0.
    rewrite Hfile, Hdec in H0. exact H0. }
  split; [exact Hstt|].
  unfold post_voice_chat.
  rewrite voice_chat_unfold, bool_decide_eq_true_2 by done. cbv zeta.
  fold file_ext. unfold main.stages. rewrite run_bind.
  subst files ws. unfold transcriber_called_in in *. fold file_ext in Hstt.
  pose proof (save_audio_run audio (tmpdir_at env w) file_ext env (entered w)) as H1.
  destruct (main.save_audio audio (tmpdir_at env w) file_ext env (entered w)) as [r1 w1].
  simpl in H1. cbn [snd] in Hstt. destruct H1 as (_ & _ & _ & _ & H1).
  change (Py.path_join _ _) with (upload_path_at env w audio) in H1.
  rewrite Hsave in H1. destruct H1 as (-> & F1 & _).
  rewrite run_bind.
  pose proof (speech_to_text_run (upload_path_at env w audio) file_ext env w1) as H2.
  destruct (main.speech_to_text _ file_ext env w1) as [r2 w2].
  destruct H2 as (_ & H2). rewrite F1, lookup_insert_eq in H2.
  destruct (stt.transcribe_speech_to_text (file audio) file_ext env
              (entering "speech_to_text" w1)) as [r0 w0].
  cbn [fst] in Hstt. subst r0.
  by destruct H2 as (_ & _ & _ & -> & _).
Qed.

Lemma transcriber_returns_the_text_file_witness :
  let transcript := "a" +:+ String "013" (String "010" "b") in
  (stt.transcribe_speech_to_text "abc" ".wav"
     (machine (whisper_writes transcript)) bare_world).1 = Ok "a
b".
Proof.
  intros transcript.
  set (env := machine (whisper_writes transcript)).
  exact (transcriber_returns_the_text_file "abc" ".wav" env bare_world ""
           [(stt_output_basename env bare_world +:+ ".txt", transcript)]
           transcript transcript eq_refl eq_refl (lookup_insert_eq _ _ _) eq_refl).
Defined.

Lemma undecodable_transcript_fails_the_request_witness :
  let env := machine (whisper_writes (String "233" "")) in
  (post_voice_chat hello_wav env sample_world).1 =
    mkResponse 500
      (Some "Speech-to-text failed: 'utf-8' codec can't decode the bytes of the file")
      "" None.
Proof.
  intros env.
  assert (Hacc : main.file_ext_of hello_wav ∈ main.ALLOWED_AUDIO_EXTENSIONS)
    by (apply (bool_decide_eq_true_1 (_ ∈ _)); vm_compute; reflexivity).
  set (ws := transcriber_called_in hello_wav env sample_world).
  refine (proj2 (undecodable_transcript_fails_the_request hello_wav env sample_world ""
                   [(stt_output_basename env ws +:+ ".txt", String "233" "")]
                   (String "233" "") "'utf-8' codec can't decode the bytes of the file"
                   Hacc eq_refl eq_refl _ (lookup_insert_eq _ _ _) eq_refl)).
  vm_compute. reflexivity.
Defined.

(** X8.  Outside its scratch directory the Transcriber changes no file
    itself: a path that is not below the scratch directory and that the
    program does not write holds afterwards what it held before. *)
Theorem transcriber_changes_no_other_file file_bytes file_ext env w p :
  inside (tmpdir_at env w) p = false →
  (∀ code diag written,
     run_program env (stt_cmd env w file_ext)
       (<[stt_audio_path env w file_ext := file_bytes]> (fs w)) = Exited code diag written →
     Forall (λ kv : string * string, kv.1 ≠ p) written) →
  fs (stt.transcribe_speech_to_text file_bytes file_ext env w).2 !! p = fs w !! p.
Proof.
  intros Hout Hprog. rewrite stt_files. simpl. rewrite rmtree_outside by done.
  assert (Hne : stt_audio_path env w file_ext ≠ p).
  { intros <-.
    destruct (hex_of_N_digits (random env (S (names_drawn w)))) as [Hd Hne].
    destruct (inside_tmpdir_join env w
                (Py.hex_of_N (random env (S (names_drawn w))) +:+ file_ext)) as [_ Hin];
      [by apply startswith_slash_hex|].
    specialize (Hin ""). rewrite app_empty_r in Hin.
    unfold stt_audio_path in Hout. congruence. }
  destruct (write_error env _); [done|].
  destruct (run_program env _ _) as [msg|code diag written] eqn:E.
  - by rewrite lookup_insert_ne.
  - rewrite after_writes_outside by eauto. by rewrite lookup_insert_ne.
Qed.

Lemma transcriber_changes_no_other_file_witness :
  fs (stt.transcribe_speech_to_text "abc" ".wav" working_machine sample_world).2
    !! "/srv/app/coqui_utils/test_output.wav" = Some "RIFF".
Proof.
  rewrite (transcriber_changes_no_other_file "abc" ".wav" working_machine sample_world
             "/srv/app/coqui_utils/test_output.wav").
  - apply lookup_insert_eq.
  - vm_compute. reflexivity.
  - intros code diag written H. vm_compute in H. injection H as <- <- <-.
    constructor; [simpl; discriminate | constructor].
Defined.

(** X9.  The Transcriber runs the transcription program exactly when its
    copy of the audio could be written, once, on the binary, the model, that
    copy and the output name in its scratch directory; it calls nothing
    else. *)
Theorem transcription_program_runs_iff_audio_is_written file_bytes file_ext env w :
  trace (stt.transcribe_speech_to_text file_bytes file_ext env w).2 =
  trace w ++ Call "transcribe_speech_to_text" [file_bytes; file_ext] ::
    match write_error env (stt_audio_path env w file_ext) with
    | None => [Call "subprocess.run" (stt_cmd env w file_ext)]
    | Some _ => []
    end.
Proof.
  pose proof (stt_run file_bytes file_ext env w) as H. cbv zeta in H.
  destruct (stt.transcribe_speech_to_text file_bytes file_ext env w) as [r w'].
  cbn [snd]. by destruct (write_error env _); destruct H as [? ?].
Qed.

(** ** More on the Synthesizer *)

Lemma tts_present_run text env w :
  first_missing (fs w) (artifacts env) = None →
  let call := Call "transcribe_text_to_speech" [text] in
  let run_ := Call "subprocess.run" (tts_cmd env w text) in
  let '(r, w') := tts.transcribe_text_to_speech text env w in
  trace w' = trace w ++ [call; run_] ∧
  match run_program env (tts_cmd env w text) (fs w) with
  | CannotStart msg => r = Raise (PyErr OSError msg) ∧ fs w' = fs w
  | Exited code diag written =>
      let f1 := after_writes written (fs w) in
      if code =? 0 then
        match f1 !! tts_output_path_at env w with
        | Some _ => r = Ok (tts_output_path_at env w) ∧ fs w' = f1
        | None => fallback_outcome env w "[ERROR] Failed to create audio file" f1 r (fs w')
        end
      else fallback_outcome env w "[ERROR] Failed to synthesize speech" f1 r (fs w')
  end.
Proof.
  unfold fallback_outcome, fallback_path_at, tts_cmd, tts_output_path_at, artifacts,
    after_writes.
  intros Hm. simpl in Hm. tts_unfold.
  repeat (case_exists; try discriminate).
  destruct (run_program env _ _) as [msg|code diag written]; run.
  { rewrite <- ?app_assoc. done. }
  destruct (code =? 0); run; repeat case_exists;
    repeat match goal with
    | H : ?m !! ?k = _ |- context [match ?m !! ?k with _ => _ end] => rewrite H; run
    end;
    try (destruct (write_error env _) as [msg|] eqn:Ew; run; rewrite ?Ew; run);
    rewrite <- ?app_assoc; done.
Qed.

Lemma tts_output_outside_tmpdir env w w3 :
  inside (tmpdir_at env w) (tts_output_path_at env w3) = false.
Proof.
  unfold inside, tts_output_path_at.
  rewrite path_join_relative by done.
  rewrite (proj1 (tmpdir_at_shape env w)), !app_assoc_s.
  rewrite prefix_app_same. reflexivity.
Qed.



Lemma tts_trace text env w :
  trace (tts.transcribe_text_to_speech text env w).2 =
  trace w ++ Call "transcribe_text_to_speech" [text] ::
    match first_missing (fs w) (artifacts env) with
    | None => [Call "subprocess.run" (tts_cmd env w text)]
    | Some _ => []
    end.
Proof.
  destruct (first_missing (fs w) (artifacts env)) as [desc|] eqn:Hm.
  - pose proof (tts_missing_run text env w desc Hm) as H.
    destruct (tts.transcribe_text_to_speech text env w) as [r w']. by destruct H.
  - pose proof (tts_present_run text env w Hm) as H. simpl in H.
    destruct (tts.transcribe_text_to_speech text env w) as [r w']. by destruct H.
Qed.

(** X11.  The Synthesizer runs the speech program when the three
    voice-model artifacts exist and only then, once, with the text after
    [--text] and a new file name below the temporary directory of the
    system after [--out_path]; it calls nothing else. *)
Theorem speech_program_runs_iff_artifacts_exist text env w :
  trace (tts.transcribe_text_to_speech text env w).2 =
  trace w ++ Call "transcribe_text_to_speech" [text] ::
    match first_missing (fs w) (artifacts env) with
    | None => [Call "subprocess.run" (tts_cmd env w text)]
    | Some _ => []
    end.
Proof. exact (tts_trace text env w). Qed.

(** X12.  When the speech program fails, by an exit code other than 0 or
    by leaving no output file, the Synthesizer answers as it does for a
    missing artifact: it returns the path of a new copy of the fallback
    sample, if the sample exists and the copy can be written. *)
Theorem failed_synthesis_falls_back text env w code diag written content :
  let f1 := after_writes written (fs w) in
  first_missing (fs w) (artifacts env) = None →
  run_program env (tts_cmd env w text) (fs w) = Exited code diag written →
  code ≠ 0 ∨ f1 !! tts_output_path_at env w = None →
  f1 !! tts.sample_audio env = Some content →
  write_error env (fallback_path_at env w) = None →
  let '(r, w') := tts.transcribe_text_to_speech text env w in
  r = Ok (fallback_path_at env w) ∧
  fs w' = <[fallback_path_at env w := content]> f1.
Proof.
  intros f1 Hm Hp Hfail Hs Hw. subst f1.
  pose proof (tts_present_run text env w Hm) as H. simpl in H.
  destruct (tts.transcribe_text_to_speech text env w) as [r w'].
  destruct H as [_ H]. rewrite Hp in H. unfold fallback_outcome in H.
  rewrite Hs, Hw in H.
  destruct (Z.eqb_spec code 0) as [->|Hc]; [|done].
  destruct Hfail as [?|Hout]; [done|]. by rewrite Hout in H.
Qed.

(** X13.  The run in which nothing fails: for an accepted request whose
    first three steps raise nothing, if the voice-model artifacts exist when
    the Synthesizer is called, the speech program exits with code 0 and
    leaves its output file, and the transcript and the reply can be encoded
    in the metadata header, then the client receives HTTP 200 whose body is
    that file, and the file stays listed in [TEMP_FILES] and on disk. *)
Theorem synthesized_speech_is_served audio env w ai_response w3 diag written speech :
  main.file_ext_of audio ∈ main.ALLOWED_AUDIO_EXTENSIONS →
  before_synthesis audio env w = (Ok ai_response, w3) →
  first_missing (fs w3) (artifacts env) = None →
  run_program env (tts_cmd env w3 ai_response) (fs w3) = Exited 0 diag written →
  after_writes written (fs w3) !! tts_output_path_at env w3 = Some speech →
  encodable env (response_data w3) →
  let '(response, w') := post_voice_chat audio env w in
  status response = 200 ∧ body response = speech ∧
  TEMP_FILES w' = TEMP_FILES w ++ [tts_output_path_at env w3] ∧
  fs w' !! tts_output_path_at env w3 = Some speech ∧
  trace w' = trace w3 ++ [Stage "text_to_speech";
                          Call "transcribe_text_to_speech" [ai_response];
                          Call "subprocess.run" (tts_cmd env w3 ai_response)].
Proof.
  intros Hacc Hbefore Hm Hp Hout Henc. unfold post_voice_chat.
  pose proof (voice_chat_accepted audio env w Hacc) as H.
  destruct (main.voice_chat audio env w) as [r w']. cbv zeta in H.
  destruct H as (r2 & w2 & Hst & Hrun & Etr & Htf & _ & Hfs & H).
  rewrite (stages_after_llm _ _ _ _ _ Hbefore) in Hst.
  pose proof (text_to_speech_run ai_response env w3) as H4.
  pose proof (tts_present_run ai_response env (entering "text_to_speech" w3) Hm) as H0.
  destruct (tts.transcribe_text_to_speech ai_response env
              (entering "text_to_speech" w3)) as [r0 w0].
  cbv zeta in H0. destruct H0 as (E0 & H0).
  change (fs (entering "text_to_speech" w3)) with (fs w3) in H0.
  change (tts_cmd env (entering "text_to_speech" w3)) with (tts_cmd env w3) in *.
  change (tts_output_path_at env (entering "text_to_speech" w3))
    with (tts_output_path_at env w3) in H0.
  rewrite Hp in H0. cbv zeta in H0. simpl in H0. rewrite Hout in H0.
  destruct H0 as (-> & F0).
  rewrite Hst in H4. destruct H4 as (D4 & E4 & F4 & -> & T4 & _).
  destruct H as (u & a & t1 & t2 & t3 & t4 & _ & Hr & D & _).
  assert (Hinfo : encode_error env
            (process_info u a (process_times w2) (t1 + t2 + t3 + t4)) = None).
  { specialize (Henc (process_times w2) (t1 + t2 + t3 + t4)).
    by rewrite <- D4, D in Henc. }
  rewrite Hinfo in Hr. subst r.
  assert (Hfile : fs w' !! tts_output_path_at env w3 = Some speech).
  { rewrite Hfs, rmtree_outside by apply tts_output_outside_tmpdir.
    by rewrite F4, F0. }
  simpl. rewrite Hfile. simpl.
  repeat split; try done.
  - inversion Hrun as [| | |? ? ? ? ? ? ? ? ? ? _ _ _ _ _ T]; subst.
    by rewrite Htf, T.
  - rewrite Etr, E4, E0. simpl. by rewrite <- app_assoc.
Qed.

Lemma synthesized_speech_is_served_witness :
  (main.file_ext_of hello_wav ∈ main.ALLOWED_AUDIO_EXTENSIONS) ∧
  status (post_voice_chat hello_wav equipped_machine installed_world).1 = 200 ∧
  body (post_voice_chat hello_wav equipped_machine installed_world).1 = "RIFFdata".
Proof.
  assert (Hacc : main.file_ext_of hello_wav ∈ main.ALLOWED_AUDIO_EXTENSIONS)
    by (apply (bool_decide_eq_true_1 (_ ∈ _)); vm_compute; reflexivity).
  split; [exact Hacc|].
  set (w3 := (before_synthesis hello_wav equipped_machine installed_world).2).
  assert (Hbefore : before_synthesis hello_wav equipped_machine installed_world =
                    (Ok "Hai, ada yang bisa saya bantu?", w3))
    by (vm_compute; reflexivity).
  assert (Hm : first_missing (fs w3) (artifacts equipped_machine) = None)
    by (vm_compute; reflexivity).
  set (out := tts_output_path_at equipped_machine w3).
  assert (Hp : run_program equipped_machine
                 (tts_cmd equipped_machine w3 "Hai, ada yang bisa saya bantu?") (fs w3) =
               Exited 0 "" [(out, "RIFFdata")])
    by (vm_compute; reflexivity).
  assert (Hout : after_writes [(out, "RIFFdata")] (fs w3) !! out = Some "RIFFdata")
    by apply lookup_insert_eq.
  assert (Henc : encodable equipped_machine (response_data w3))
    by (intros times total; reflexivity).
  pose proof (synthesized_speech_is_served hello_wav equipped_machine installed_world
                _ w3 "" _ "RIFFdata" Hacc Hbefore Hm Hp Hout Henc) as H.
  destruct (post_voice_chat hello_wav equipped_machine installed_world) as [response w'].
  exact (conj (proj1 H) (proj1 (proj2 H))).
Defined.

Lemma failed_synthesis_falls_back_witness :
  let env := machine (λ _, Exited 1 "exit status 1" []) in
  let '(r, w') := tts.transcribe_text_to_speech "halo" env installed_world in
  r = Ok (fallback_path_at env installed_world) ∧
  fs w' !! fallback_path_at env installed_world = Some "RIFF".
Proof.
  intros env.
  pose proof (failed_synthesis_falls_back "halo" env installed_world 1 "exit status 1" []
                "RIFF" eq_refl eq_refl (or_introl (λ H : 1 = 0, Z.neq_succ_diag_l 0 H))
                eq_refl eq_refl) as H.
  destruct (tts.transcribe_text_to_speech "halo" env installed_world) as [r w'].
  destruct H as [-> ->]. split; [reflexivity | apply lookup_insert_eq].
Defined.

(** ** More on the Responder *)

Lemma generate_response_files prompt env w :
  let file := llm.CHAT_HISTORY_FILE env in
  let saved history :=
    match write_error env file with
    | Some _ => fs w
    | None => <[file := dump_written env history]> (fs w)
    end in
  fs (llm.generate_response prompt env w).2 =
  match send_message env (chat_history w) prompt with
  | SendRaises _ => fs w
  | Reply text => saved (chat_history w ++ [("user", prompt); ("model", text)])
  | ReplyNoText _ => saved (chat_history w ++ [("user", prompt); ("model", "")])
  end.
Proof.
  unfold llm.generate_response, llm.chat_send_message, llm.save_chat_history, write_file,
    dump_written.
  run.
  destruct (send_message env (chat_history w) prompt) as [msg|text|msg]; run; [done| |].
  - destruct (write_error env (llm.CHAT_HISTORY_FILE env)) eqn:E; run; [done|].
    destruct (json_dump env _) as [dumped|[written msg']]; run; rewrite ?E; run;
      by rewrite insert_insert_eq.
  - destruct (write_error env (llm.CHAT_HISTORY_FILE env)) eqn:E; run; [done|].
    destruct (json_dump env _) as [dumped|[written msg']]; run; rewrite ?E; run;
      by rewrite insert_insert_eq.
Qed.

(** X14.  When the chat service raises, the Responder leaves the
    conversation as it was: the history in memory and every file, the
    history file included, are unchanged, and the error text is returned. *)
Theorem failed_send_leaves_the_conversation prompt env w msg :
  send_message env (chat_history w) prompt = SendRaises msg →
  let '(r, w') := llm.generate_response prompt env w in
  r = Ok ("[ERROR] " +:+ msg) ∧ chat_history w' = chat_history w ∧ fs w' = fs w.
Proof.
  intros Hs.
  pose proof (generate_response_run prompt env w) as H.
  pose proof (generate_response_files prompt env w) as F.
  destruct (llm.generate_response prompt env w) as [r w'].
  cbv zeta in H, F. rewrite Hs in H, F. simpl in F.
  by destruct H as (-> & _ & -> & _).
Qed.

(** X15.  When the chat service replies, the Responder appends the prompt
    and the reply to the history, in this order.  If the history file can
    be opened for writing it then holds what [json.dump] wrote, the
    serialised new history or the part written before the failure, and no
    other file changes. *)
Theorem reply_is_recorded_and_persisted prompt env w text :
  let history := chat_history w ++ [("user", prompt); ("model", text)] in
  send_message env (chat_history w) prompt = Reply text →
  write_error env (llm.CHAT_HISTORY_FILE env) = None →
  let w' := (llm.generate_response prompt env w).2 in
  chat_history w' = history ∧
  fs w' = <[llm.CHAT_HISTORY_FILE env := dump_written env history]> (fs w).
Proof.
  intros history Hs Hw w'. subst history w'.
  pose proof (generate_response_run prompt env w) as H.
  pose proof (generate_response_files prompt env w) as F.
  destruct (llm.generate_response prompt env w) as [r w'].
  cbv zeta in H, F. rewrite Hs in H, F. rewrite Hw in F. simpl.
  by destruct H as (_ & _ & -> & _).
Qed.

(** X16.  Two prompts in a row: the chat service is given, with the second
    prompt, the history that holds the first exchange, and after the second
    reply the history holds both exchanges in the order they took place. *)
Theorem exchanges_accumulate_in_order p1 p2 t1 t2 env w :
  let h1 := chat_history w ++ [("user", p1); ("model", t1)] in
  send_message env (chat_history w) p1 = Reply t1 →
  send_message env h1 p2 = Reply t2 →
  let w1 := (llm.generate_response p1 env w).2 in
  let w2 := (llm.generate_response p2 env w1).2 in
  chat_history w2 =
    chat_history w ++ [("user", p1); ("model", t1); ("user", p2); ("model", t2)] ∧
  trace w2 = trace w ++ [Call "generate_response" [p1]; Call "chat.send_message" [p1];
                         Call "generate_response" [p2]; Call "chat.send_message" [p2]].
Proof.
  intros h1 H1 H2 w1 w2. subst h1 w1 w2.
  pose proof (generate_response_run p1 env w) as R1.
  destruct (llm.generate_response p1 env w) as [r1 w1].
  cbv zeta in R1. rewrite H1 in R1. destruct R1 as (_ & T1 & C1 & _). simpl.
  pose proof (generate_response_run p2 env w1) as R2.
  destruct (llm.generate_response p2 env w1) as [r2 w2].
  cbv zeta in R2. rewrite C1, H2 in R2. destruct R2 as (_ & T2 & C2 & _). simpl.
  rewrite C2, T2, T1, <- !app_assoc. done.
Qed.

Lemma load_chat_history_run json_load env w :
  let '(r, w') := llm.load_chat_history json_load env w in
  fs w' = fs w ∧ chat_history w' = chat_history w ∧ trace w' = trace w ∧
  TEMP_FILES w' = TEMP_FILES w ∧
  r = Ok match fs w !! llm.CHAT_HISTORY_FILE env with
         | Some text =>
             if String.eqb text "" then []
             else match json_load text with inr history => history | inl _ => [] end
         | None => []
         end.
Proof.
  unfold llm.load_chat_history, getsize, read_file. run.
  destruct (fs w !! llm.CHAT_HISTORY_FILE env) as [text|] eqn:E.
  - rewrite (bool_decide_eq_true_2 (is_Some (Some _))) by eauto. run. rewrite E. run.
    destruct text as [|c text]; run; [done|]. rewrite E. run.
    destruct (json_load _); run; done.
  - rewrite (bool_decide_eq_false_2 (is_Some None)) by (intros [? ?]; congruence).
    run. done.
Qed.

(** X17.  Loading the chat history never raises and changes no file: it
    gives the history read from the history file, and the empty history when
    the file is absent, is empty or cannot be parsed. *)
Theorem load_chat_history_never_raises json_load env w :
  let '(r, w') := llm.load_chat_history json_load env w in
  fs w' = fs w ∧
  r = Ok match fs w !! llm.CHAT_HISTORY_FILE env with
         | Some text =>
             if String.eqb text "" then []
             else match json_load text with inr history => history | inl _ => [] end
         | None => []
         end.
Proof.
  pose proof (load_chat_history_run json_load env w) as H.
  destruct (llm.load_chat_history json_load env w) as [r w'].
  by destruct H as (? & _ & _ & _ & ?).
Qed.

(** X18.  A failed dump loses the conversation at the next start: if
    [json.dump] fails after a reply and the loader cannot parse the part
    that was written, then a module that starts with that file, its memory
    lost, starts with an empty history, although the Responder had recorded
    the exchange. *)
Theorem failed_dump_loses_the_conversation json_load prompt env w text written msg m :
  let history := chat_history w ++ [("user", prompt); ("model", text)] in
  send_message env (chat_history w) prompt = Reply text →
  write_error env (llm.CHAT_HISTORY_FILE env) = None →
  json_dump env history = inr (written, msg) →
  json_load written = inl m →
  let w1 := (llm.generate_response prompt env w).2 in
  let restarted := set_chat_history (λ _, []) w1 in
  chat_history w1 = history ∧
  chat_history (llm.start_chat json_load env restarted).2 = [].
Proof.
  intros history Hs Hw Hd Hl w1 restarted. subst history w1 restarted.
  pose proof (generate_response_run prompt env w) as H.
  pose proof (generate_response_files prompt env w) as F.
  destruct (llm.generate_response prompt env w) as [r w1].
  cbv zeta in H, F. rewrite Hs in H, F. rewrite Hw in F. unfold dump_written in F.
  rewrite Hd in F. destruct H as (_ & _ & C & _). simpl in *.
  split; [exact C|].
  unfold llm.start_chat. run.
  pose proof (load_chat_history_run json_load env (set_chat_history (λ _, []) w1)) as L.
  destruct (llm.load_chat_history json_load env _) as [r' w'].
  destruct L as (_ & _ & _ & _ & ->). simpl.
  rewrite F, lookup_insert_eq, Hl.
  by destruct (String.eqb written "").
Qed.

Lemma failed_send_leaves_the_conversation_witness :
  let env := mkEnv "/srv/app" "/tmp" (λ n, N.of_nat n) (λ n, Z.of_nat n)
               (λ _, None) (λ _, None) (λ _ _, CannotStart "")
               (λ _ _, SendRaises "503 Service Unavailable") (λ _, inl "[]")
               (λ bytes, inl bytes) (λ _, None) in
  (llm.generate_response "halo" env sample_world).1 =
    Ok "[ERROR] 503 Service Unavailable" ∧
  fs (llm.generate_response "halo" env sample_world).2 = fs sample_world.
Proof.
  intros env.
  pose proof (failed_send_leaves_the_conversation "halo" env sample_world
                "503 Service Unavailable" eq_refl) as H.
  destruct (llm.generate_response "halo" env sample_world) as [r w'].
  exact (conj (proj1 H) (proj2 (proj2 H))).
Defined.

Lemma reply_is_recorded_and_persisted_witness :
  let w' := (llm.generate_response "halo" working_machine bare_world).2 in
  chat_history w' = [("user", "halo"); ("model", "Hai, ada yang bisa saya bantu?")] ∧
  fs w' !! "/srv/app/chat_history.json" = Some "[
  ".
Proof.
  intros w'. subst w'.
  destruct (reply_is_recorded_and_persisted "halo" working_machine bare_world
              "Hai, ada yang bisa saya bantu?" eq_refl eq_refl) as [C F].
  split; [exact C|]. rewrite F. apply lookup_insert_eq.
Defined.

Lemma exchanges_accumulate_in_order_witness :
  let w1 := (llm.generate_response "halo" working_machine bare_world).2 in
  let w2 := (llm.generate_response "apa kabar" working_machine w1).2 in
  chat_history w2 =
    [("user", "halo"); ("model", "Hai, ada yang bisa saya bantu?");
     ("user", "apa kabar"); ("model", "Hai, ada yang bisa saya bantu?")].
Proof.
  exact (proj1 (exchanges_accumulate_in_order "halo" "apa kabar"
                  "Hai, ada yang bisa saya bantu?" "Hai, ada yang bisa saya bantu?"
                  working_machine bare_world eq_refl eq_refl)).
Defined.

Lemma failed_dump_loses_the_conversation_witness :
  let json_load text :=
    if String.eqb text "[]" then inr []
    else inl "Expecting value: line 2 column 3 (char 4)" in
  let w1 := (llm.generate_response "halo" working_machine bare_world).2 in
  chat_history w1 = [("user", "halo"); ("model", "Hai, ada yang bisa saya bantu?")] ∧
  chat_history
    (llm.start_chat json_load working_machine (set_chat_history (λ _, []) w1)).2 = [].
Proof.
  intros json_load.
  exact (failed_dump_loses_the_conversation json_load "halo" working_machine bare_world
           "Hai, ada yang bisa saya bantu?" _ _ _ eq_refl eq_refl eq_refl eq_refl).
Defined.

(** ** What the stage functions are given *)

Lemma calls_of_Stage fn name evs : calls_of fn (Stage name :: evs) = calls_of fn evs.
Proof. reflexivity. Qed.

Lemma calls_of_Call_same fn args evs :
  calls_of fn (Call fn args :: evs) = args :: calls_of fn evs.
Proof. unfold calls_of. cbn [omap list_omap]. by rewrite String.eqb_refl. Qed.

Ltac calls_of_events :=
  repeat first
    [ rewrite calls_of_app | rewrite calls_of_Stage | rewrite calls_of_Call_same
    | rewrite calls_of_Call by done ].

Lemma stages_calls audio ext tmpdir env w :
  response_data w = [] →
  let temp_audio_path :=
    Py.path_join tmpdir (Py.hex_of_N (random env (names_drawn w)) +:+ ext) in
  let '(r, w') := main.stages audio ext tmpdir env w in
  ∃ evs, trace w' = trace w ++ evs ∧
    calls_of "transcribe_speech_to_text" evs =
      match write_error env temp_audio_path with
      | None => [[file audio; ext]]
      | Some _ => []
      end ∧
    calls_of "transcribe_text_to_speech" evs =
      match dict_get "ai_response" (response_data w') with
      | Some (VStr ai_response) => [[ai_response]]
      | _ => []
      end.
Proof.
  intros D0 temp_audio_path. subst temp_audio_path. unfold main.stages.
  rewrite run_bind.
  pose proof (save_audio_run audio tmpdir ext env w) as H1.
  destruct (main.save_audio audio tmpdir ext env w) as [r1 w1]; simpl in H1.
  destruct H1 as (D1 & T1 & E1 & _ & H1).
  destruct (write_error env _) as [msg|].
  { destruct H1 as (-> & _ & P1). exists [Stage "save_audio"].
    rewrite D1, D0. done. }
  destruct H1 as (-> & F1 & t1 & P1). rewrite D0 in D1.
  rewrite run_bind.
  match goal with |- context [main.speech_to_text ?a ?b env w1] =>
    pose proof (speech_to_text_run a b env w1) as H2;
    destruct (main.speech_to_text a b env w1) as [r2 w2] end.
  simpl in H2. destruct H2 as (T2 & H2).
  rewrite F1, lookup_insert_eq in H2.
  pose proof (stt_run (file audio) ext env (entering "speech_to_text" w1)) as Hs.
  cbv zeta in Hs.
  destruct (stt.transcribe_speech_to_text (file audio) ext env
              (entering "speech_to_text" w1)) as [r0 w0].
  destruct H2 as (E2 & _ & _ & H2).
  assert (∃ evs2, trace w2 = trace w ++ Stage "save_audio" :: Stage "speech_to_text" ::
                     Call "transcribe_speech_to_text" [file audio; ext] :: evs2 ∧
                  (evs2 = [] ∨ ∃ cmd, evs2 = [Call "subprocess.run" cmd]))
    as (evs2 & E2' & Hevs2).
  { rewrite E2. destruct (write_error env _).
    - destruct Hs as [_ ->]. exists []. simpl. rewrite E1, <- !app_assoc. auto.
    - destruct Hs as [-> _]. eexists [_]. simpl. rewrite E1, <- !app_assoc. eauto. }
  clear Hs E2.
  assert (Hc2 : ∀ fn, fn ≠ "subprocess.run" → calls_of fn evs2 = []).
  { intros fn Hfn. destruct Hevs2 as [->|[cmd ->]]; [done|].
    by rewrite calls_of_Call. }
  destruct r0 as [user_text|e2].
  2:{ destruct H2 as (-> & D2 & P2). eexists. split; [exact E2'|].
      rewrite D2, D1. calls_of_events. by rewrite !Hc2. }
  destruct H2 as (-> & D2 & t2 & P2). rewrite D1 in D2.
  unfold dict_set in D2; simpl in D2.
  rewrite run_bind.
  pose proof (llm_response_run user_text env w2) as H3.
  destruct (main.llm_response user_text env w2) as [r3 w3]; simpl in H3.
  destruct H3 as (T3 & E3 & _ & _ & t3 & Hr & D3 & P3).
  destruct r3 as [ai_response|e3]; [clear Hr|done].
  specialize (D3 _ eq_refl). rewrite D2 in D3. unfold dict_set in D3; simpl in D3.
  pose proof (text_to_speech_run ai_response env w3) as H4.
  pose proof (tts_trace ai_response env (entering "text_to_speech" w3)) as E4.
  destruct (tts.transcribe_text_to_speech ai_response env (entering "text_to_speech" w3))
    as [r0 w0'].
  destruct (main.text_to_speech ai_response env w3) as [r4 w4].
  change (trace (entering "text_to_speech" w3))
    with (trace w3 ++ [Stage "text_to_speech"]) in E4.
  cbn [snd] in E4. destruct H4 as (D4 & E4' & _ & _).
  assert (∃ evs4, trace w0' = (trace w3 ++ [Stage "text_to_speech"]) ++
                     Call "transcribe_text_to_speech" [ai_response] :: evs4 ∧
                  ∀ fn, fn ≠ "subprocess.run" → calls_of fn evs4 = [])
    as (evs4 & E4'' & Hc4).
  { rewrite E4. destruct (first_missing _ _); eexists; (split; [reflexivity|]);
      intros fn Hfn; [done|]. by rewrite calls_of_Call. }
  clear E4. eexists. split.
  { rewrite E4', E4'', E3, E2'. unfold llm_events. rewrite <- !app_assoc. simpl.
    reflexivity. }
  rewrite D4, D3.
  change (dict_get "ai_response" _) with (Some (VStr ai_response)). cbv iota beta.
  calls_of_events. rewrite !Hc2, !Hc4 by done. done.
Qed.

Lemma voice_chat_calls audio env w :
  let w' := (main.voice_chat audio env w).2 in
  ∃ evs, trace w' = trace w ++ evs ∧
    calls_of "transcribe_speech_to_text" evs =
      (if bool_decide (main.file_ext_of audio ∈ main.ALLOWED_AUDIO_EXTENSIONS ∧
                       write_error env (upload_path_at env w audio) = None)
       then [[file audio; main.file_ext_of audio]] else []) ∧
    calls_of "transcribe_text_to_speech" evs =
      match dict_get "ai_response" (response_data w') with
      | Some (VStr ai_response) => [[ai_response]]
      | _ => []
      end.
Proof.
  destruct (decide (main.file_ext_of audio ∈ main.ALLOWED_AUDIO_EXTENSIONS)) as [Hacc|Hrej].
  - pose proof (voice_chat_accepted audio env w Hacc) as H.
    destruct (main.voice_chat audio env w) as [r w']. cbv zeta in H |- *. cbn [snd].
    destruct H as (r2 & w2 & Hst & Hrun & -> & _ & _ & _ & H).
    pose proof (stages_calls audio (main.file_ext_of audio) (tmpdir_at env w) env
                  (entered w) eq_refl) as Hc.
    cbv zeta in Hc. rewrite Hst in Hc. destruct Hc as (evs & E & C2 & C4).
    exists evs. split; [exact E|]. split.
    + rewrite C2. unfold upload_path_at.
      change (names_drawn (entered w)) with (S (names_drawn w)).
      destruct (write_error env _) eqn:Ew.
      * rewrite bool_decide_eq_false_2; [done|]. intros [_ ?]. congruence.
      * by rewrite bool_decide_eq_true_2.
    + rewrite C4. destruct r2 as [path|e].
      * destruct H as (u & a & t1 & t2 & t3 & t4 & _ & _ & -> & ->). done.
      * destruct H as [_ ->]. done.
  - rewrite voice_chat_unfold, (bool_decide_eq_false_2 (_ ∈ _)) by done. cbn [snd].
    exists []. rewrite app_nil_r. split; [done|].
    rewrite bool_decide_eq_false_2 by (by intros [? _]). done.
Qed.

(** X19.  The Transcriber is called exactly when the upload is accepted
    and saved, once, with the bytes of the upload as they were received and
    with the lower-cased extension of its filename. *)
Theorem transcriber_receives_the_upload audio env w :
  let w' := (main.voice_chat audio env w).2 in
  ∃ evs, trace w' = trace w ++ evs ∧
    calls_of "transcribe_speech_to_text" evs =
      if bool_decide (main.file_ext_of audio ∈ main.ALLOWED_AUDIO_EXTENSIONS ∧
                      write_error env (upload_path_at env w audio) = None)
      then [[file audio; main.file_ext_of audio]] else [].
Proof.
  destruct (voice_chat_calls audio env w) as (evs & E & C & _). by exists evs.
Qed.

(** X20.  The Synthesizer is called exactly when the Responder has
    returned, once, and its argument is the reply as recorded in the
    metadata: an error text of the Responder is synthesized like a reply. *)
Theorem synthesizer_receives_the_recorded_reply audio env w :
  let w' := (main.voice_chat audio env w).2 in
  ∃ evs, trace w' = trace w ++ evs ∧
    calls_of "transcribe_text_to_speech" evs =
      match dict_get "ai_response" (response_data w') with
      | Some (VStr ai_response) => [[ai_response]]
      | _ => []
      end.
Proof.
  destruct (voice_chat_calls audio env w) as (evs & E & _ & C). by exists evs.
Qed.

(** ** The status endpoints *)

(** X21.  [GET /status] never raises and changes nothing.  It always
    reports the API as online, with the three components in the order stt,
    llm, tts; a component is reported ok exactly when the transcription
    binary exists, the API key is not empty, and the voice-model file
    exists. *)
Theorem status_reports_and_changes_nothing key env w :
  ∃ stt_health llm_health tts_health,
    main.get_status key env w =
      (Ok ("online", [("stt", stt_health); ("llm", llm_health); ("tts", tts_health)]), w) ∧
    (main.health_status stt_health = "ok" ↔ is_Some (fs w !! stt.WHISPER_BINARY env)) ∧
    (main.health_status llm_health = "ok" ↔ key ≠ "") ∧
    (main.health_status tts_health = "ok" ↔ is_Some (fs w !! tts.COQUI_MODEL_PATH env)) ∧
    Forall (λ h, main.health_status h = "ok" ∨ main.health_status h = "error")
      [stt_health; llm_health; tts_health].
Proof.
  unfold main.get_status, main.check_stt_health, main.check_llm_health,
    main.check_tts_health. run.
  eexists _, _, _. split; [reflexivity|]. simpl. split_and!.
  - case_bool_decide; simpl; split; done.
  - destruct (String.eqb_spec key ""); simpl; split; done.
  - case_bool_decide; simpl; split; done.
  - rewrite !Forall_cons. split_and!; [| | |by apply Forall_nil].
    + case_bool_decide; simpl; auto.
    + destruct (String.eqb_spec key ""); simpl; auto.
    + case_bool_decide; simpl; auto.
Qed.

(** X22.  Once the module [llm] has loaded, its health check reports ok:
    the module refuses to load without a key, so that the answer
    [API key missing] is given in no state. *)
Theorem loaded_llm_is_reported_healthy getenv env w key w1 w2 :
  llm.GOOGLE_API_KEY getenv env w = (Ok key, w1) →
  main.check_llm_health key env w2 = (Ok (main.mkHealth "ok" "API key configured"), w2).
Proof.
  unfold llm.GOOGLE_API_KEY, main.check_llm_health. run.
  destruct getenv as [k|]; [|done].
  destruct (String.eqb_spec k ""); [done|]. intros [= <- _].
  by destruct (String.eqb_spec k "").
Qed.

Lemma loaded_llm_is_reported_healthy_witness :
  main.check_llm_health "AIza" working_machine bare_world =
    (Ok (main.mkHealth "ok" "API key configured"), bare_world).
Proof.
  exact (loaded_llm_is_reported_healthy (Some "AIza") working_machine bare_world
           "AIza" bare_world bare_world eq_refl).
Defined.

(** X23.  The health check of the Synthesizer looks at the model file
    only: it reports an error exactly when the Synthesizer would find the
    model file to be the first missing artifact, and it reports ok also when
    the configuration or the speakers file is missing. *)
Theorem tts_health_checks_the_model_file_only env w :
  let '(r, w') := main.check_tts_health env w in
  w' = w ∧
  ∃ h, r = Ok h ∧
    (main.health_status h = "error" ↔
     first_missing (fs w) (artifacts env) = Some "Model file").
Proof.
  unfold main.check_tts_health, artifacts. run.
  split; [done|]. eexists. split; [reflexivity|]. simpl.
  destruct (fs w !! tts.COQUI_MODEL_PATH env) as [c|] eqn:E.
  - rewrite (bool_decide_eq_true_2 (is_Some (Some _))) by eauto. simpl.
    split; [done|].
    destruct (fs w !! tts.COQUI_CONFIG_PATH env); [|done].
    by destruct (fs w !! tts.COQUI_SPEAKERS_PATH env).
  - rewrite (bool_decide_eq_false_2 (is_Some None)) by (intros [? ?]; congruence).
    done.
Qed.

(** ** More on the validation of the upload *)

Lemma take_drop_s n s : Py.take n s +:+ Py.drop n s = s.
Proof.
  revert s. induction n as [|n IH]; intros [|c s]; simpl; try done.
  by rewrite app_String, IH.
Qed.

Lemma splitext_loop_parts p d f k :
  Py.splitext_loop p d f k = (p, "") ∨
  Py.splitext_loop p d f k = (Py.take d p, Py.drop d p).
Proof.
  revert f. induction k as [|k IH]; intros f; simpl; [by left|].
  destruct (negb _); [by right | apply IH].
Qed.

Lemma rfind_from_lower_bound c s i : -1 ≤ i → -1 ≤ Py.rfind_from c s i.
Proof.
  intros Hi. destruct s as [|a s]; simpl; [done|].
  destruct (Z.leb_spec 0 (Py.rfind_from c s (i + 1))); [lia|].
  destruct (Ascii.eqb a c); lia.
Qed.

Lemma splitext_parts p :
  Py.splitext p = (p, "") ∨
  ∃ d, Py.splitext p = (Py.take (S d) p, Py.drop (S d) p).
Proof.
  unfold Py.splitext. destruct (_ <? _) eqn:E; [|by left].
  apply Z.ltb_lt in E.
  destruct (Z.to_nat (Py.rfind "." p - (Py.rfind "/" p + 1))) as [|k] eqn:Ek; [by left|].
  destruct (Z.to_nat (Py.rfind "." p)) as [|d] eqn:Ed.
  - pose proof (rfind_from_lower_bound "/" p 0 ltac:(lia)) as Hsep.
    unfold Py.rfind in *. lia.
  - destruct (splitext_loop_parts p (S d) (Z.to_nat (Py.rfind "/" p + 1)) (S k)) as [->| ->];
      eauto.
Qed.

(** X24.  An accepted filename is a stem followed by an extension: the stem
    is not empty and the extension, lower-cased, is one of the four allowed
    ones.  A name that is only an extension, like [.wav], is rejected. *)
Theorem accepted_filename_is_stem_and_extension audio :
  main.file_ext_of audio ∈ main.ALLOWED_AUDIO_EXTENSIONS →
  ∃ stem ext, filename audio = stem +:+ ext ∧ stem ≠ "" ∧
              Py.lower ext ∈ main.ALLOWED_AUDIO_EXTENSIONS.
Proof.
  unfold main.file_ext_of. intros Hacc.
  destruct (splitext_parts (filename audio)) as [E|[d E]]; rewrite E in Hacc; simpl in Hacc.
  { apply (bool_decide_eq_true_2 (_ ∈ _)) in Hacc. by vm_compute in Hacc. }
  exists (Py.take (S d) (filename audio)), (Py.drop (S d) (filename audio)).
  split; [by rewrite take_drop_s|]. split; [|done].
  destruct (filename audio) as [|c s]; [|done].
  apply (bool_decide_eq_true_2 (_ ∈ _)) in Hacc. by vm_compute in Hacc.
Qed.

Lemma accepted_filename_is_stem_and_extension_witness :
  ∃ stem ext, filename hello_wav = stem +:+ ext ∧ stem ≠ "" ∧
              Py.lower ext ∈ main.ALLOWED_AUDIO_EXTENSIONS.
Proof.
  apply accepted_filename_is_stem_and_extension.
  apply (bool_decide_eq_true_1 (_ ∈ _)). vm_compute. reflexivity.
Defined.

Lemma rfind_from_absent c s i :
  all_chars (λ a, negb (Ascii.eqb a c)) s = true → Py.rfind_from c s i = -1.
Proof.
  revert i. induction s as [|a s IH]; intros i; simpl; [done|].
  intros [Ha Hs]%andb_true_iff. rewrite IH by done. simpl.
  by destruct (Ascii.eqb a c).
Qed.

(** X25.  A filename that contains no period has no extension and is
    rejected with HTTP 400. *)
Theorem filename_without_period_is_rejected audio env w :
  all_chars (λ a, negb (Ascii.eqb a ".")) (filename audio) = true →
  status (post_voice_chat audio env w).1 = 400.
Proof.
  intros Hdot.
  assert (Hext : main.file_ext_of audio = "").
  { unfold main.file_ext_of, Py.splitext, Py.rfind.
    rewrite (rfind_from_absent "." _ 0 Hdot).
    pose proof (rfind_from_lower_bound "/" (filename audio) 0 ltac:(lia)) as Hsep.
    destruct (Z.ltb_spec (Py.rfind_from "/" (filename audio) 0) (-1)); [lia|done]. }
  unfold post_voice_chat. rewrite voice_chat_unfold, Hext.
  rewrite bool_decide_eq_false_2; [done|]. 
  intros H. apply (bool_decide_eq_true_2 (_ ∈ _)) in H. by vm_compute in H.
Qed.

Lemma filename_without_period_is_rejected_witness :
  status (post_voice_chat (mkUpload "rekaman" "abc") working_machine sample_world).1 = 400.
Proof.
  apply filename_without_period_is_rejected. reflexivity.
Defined.

Lemma rfind_from_app c a b i :
  0 ≤ i →
  Py.rfind_from c (a +:+ b) i =
  let r := Py.rfind_from c b (i + Z.of_nat (String.length a)) in
  if 0 <=? r then r else Py.rfind_from c a i.
Proof.
  revert i. induction a as [|x a IH]; intros i Hi.
  { rewrite app_empty_l. simpl. rewrite Z.add_0_r.
    pose proof (rfind_from_lower_bound c b i ltac:(lia)).
    destruct (Z.leb_spec 0 (Py.rfind_from c b i)); [done | lia]. }
  rewrite app_String. cbn [Py.rfind_from String.length]. rewrite IH by lia. cbv zeta.
  replace (i + 1 + Z.of_nat (String.length a)) with (i + Z.of_nat (S (String.length a)))
    by lia.
  destruct (0 <=? Py.rfind_from c b (i + Z.of_nat (S (String.length a)))) eqn:E;
    [by rewrite E | done].
Qed.

Lemma all_chars_app p a b : all_chars p (a +:+ b) = all_chars p a && all_chars p b.
Proof.
  induction a as [|x a IH]; [done|]. rewrite app_String. simpl.
  by rewrite IH, andb_assoc.
Qed.

Lemma take_app_length a b : Py.take (String.length a) (a +:+ b) = a.
Proof.
  induction a as [|x a IH]; [by destruct b|]. rewrite app_String. simpl. by rewrite IH.
Qed.

Lemma drop_app_length a b : Py.drop (String.length a) (a +:+ b) = b.
Proof.
  induction a as [|x a IH]; [by destruct b|]. rewrite app_String. simpl. by rewrite IH.
Qed.

Lemma lower_char_period c : Py.lower_char c = "."%char → c = "."%char.
Proof.
  destruct c as [[] [] [] [] [] [] [] []]; vm_compute; intros H; try done;
    discriminate H.
Qed.

Lemma allowed_extension_shape ext :
  Py.lower ext ∈ main.ALLOWED_AUDIO_EXTENSIONS →
  ∃ rest, ext = String "." rest ∧
          all_chars (λ a, negb (Ascii.eqb a ".")) rest = true ∧
          all_chars (λ a, negb (Ascii.eqb a "/")) ext = true.
Proof.
  intros H.
  assert (Hnot : ∀ c x : ascii, Py.lower_char c = x →
            Py.lower_char "." ≠ x → Py.lower_char "/" ≠ x →
            negb (Ascii.eqb c ".") = true ∧ negb (Ascii.eqb c "/") = true).
  { intros c x Hc H1 H2.
    split; apply negb_true_iff; apply Ascii.eqb_neq; intros ->; done. }
  destruct ext as [|c0 [|c1 [|c2 [|c3 [|c4 ext]]]]];
    unfold main.ALLOWED_AUDIO_EXTENSIONS in H; simpl in H;
    rewrite !elem_of_cons, elem_of_nil in H;
    try (destruct H as [H|[H|[H|[H|[]]]]]; discriminate H).
  assert (c0 = "."%char) as ->
    by (apply lower_char_period; destruct H as [H|[H|[H|[H|[]]]]]; by injection H).
  exists (String c1 (String c2 (String c3 ""))). split; [done|]. simpl.
  destruct H as [H|[H|[H|[H|[]]]]]; injection H as H1 H2 H3;
    destruct (Hnot c1 _ H1) as [-> ->]; try done;
    destruct (Hnot c2 _ H2) as [-> ->]; try done;
    destruct (Hnot c3 _ H3) as [-> ->]; done.
Qed.

(** X26.  A plain name with an allowed extension passes validation,
    whatever the case of the extension: a filename made of a stem that
    contains no slash and does not start with a period, followed by an
    extension that is allowed once lower-cased, is not answered with 400. *)
Theorem plain_name_with_allowed_extension_is_accepted audio c stem ext :
  filename audio = String c stem +:+ ext →
  c ≠ "."%char →
  all_chars (λ a, negb (Ascii.eqb a "/")) (String c stem) = true →
  Py.lower ext ∈ main.ALLOWED_AUDIO_EXTENSIONS →
  Py.splitext (filename audio) = (String c stem, ext) ∧
  main.file_ext_of audio ∈ main.ALLOWED_AUDIO_EXTENSIONS ∧
  ∀ env w, status (post_voice_chat audio env w).1 ≠ 400.
Proof.
  intros Hname Hc Hslash Hext.
  destruct (allowed_extension_shape ext Hext) as (rest & -> & Hrest & Hext_slash).
  assert (Hsplit : Py.splitext (filename audio) = (String c stem, String "." rest)).
  { rewrite Hname. unfold Py.splitext, Py.rfind.
    rewrite (rfind_from_absent "/") by (by rewrite all_chars_app, Hslash, Hext_slash).
    rewrite rfind_from_app by done. cbv zeta.
    assert (Hdot : ∀ j, Py.rfind_from "." (String "." rest) j = j).
    { intros j. cbn [Py.rfind_from]. by rewrite (rfind_from_absent "." rest) by done. }
    rewrite Hdot, Z.add_0_l.
    destruct (Z.leb_spec 0 (Z.of_nat (String.length (String c stem)))); [|lia].
    destruct (Z.ltb_spec (-1) (Z.of_nat (String.length (String c stem)))); [|lia].
    replace (Z.to_nat (Z.of_nat (String.length (String c stem)) - (-1 + 1)))
      with (S (String.length stem)) by (simpl; lia).
    rewrite Nat2Z.id. cbn [Py.splitext_loop].
    replace (Py.char_slice (String c stem +:+ String "." rest) (Z.to_nat (-1 + 1)))
      with (String c "") by (rewrite app_String; by destruct (stem +:+ String "." rest)).
    replace (String.eqb (String c "") ".") with false
      by (symmetry; simpl; by destruct (Ascii.eqb_spec c ".")).
    simpl negb. cbv iota.
    by rewrite take_app_length, drop_app_length. }
  assert (Hacc : main.file_ext_of audio ∈ main.ALLOWED_AUDIO_EXTENSIONS)
    by (unfold main.file_ext_of; by rewrite Hsplit).
  split; [done|]. split; [done|]. intros env w.
  unfold post_voice_chat.
  pose proof (voice_chat_accepted audio env w Hacc) as H.
  destruct (main.voice_chat audio env w) as [r w']. cbv zeta in H.
  destruct H as (r2 & w2 & _ & Hrun & _ & _ & _ & _ & H).
  destruct r2 as [path|e].
  - destruct H as (? & ? & ? & ? & ? & ? & _ & -> & _). simpl.
    destruct (encode_error env _); simpl; [done|].
    by destruct (fs w' !! path).
  - destruct H as [-> _]. by inversion Hrun.
Qed.

Lemma plain_name_with_allowed_extension_is_accepted_witness :
  status (post_voice_chat (mkUpload "Rekaman 1.MP3" "abc") working_machine sample_world).1
    ≠ 400.
Proof.
  refine (proj2 (proj2 (plain_name_with_allowed_extension_is_accepted
                          (mkUpload "Rekaman 1.MP3" "abc") "R" "ekaman 1" ".MP3"
                          eq_refl _ eq_refl _)) working_machine sample_world).
  - discriminate.
  - apply (bool_decide_eq_true_1 (_ ∈ _)). vm_compute. reflexivity.
Defined.


(** ** The clock *)

Ltac case_environment env :=
  repeat (match goal with
          | H : ?m !! ?k = _ |- context [match ?m !! ?k with _ => _ end] => rewrite H
          | |- context [bool_decide (is_Some (?m !! ?k))] => case_exists
          | |- context [match ?m !! ?k with _ => _ end] => destruct (m !! k) eqn:?
          | |- context [send_message env ?h ?p] => destruct (send_message env h p)
          | |- context [write_error env ?p] => destruct (write_error env p)
          | |- context [json_dump env ?h] => destruct (json_dump env h) as [?|[? ?]]
          | |- context [decode_utf8 env ?b] => destruct (decode_utf8 env b)
          | |- context [run_program env ?c ?f] => destruct (run_program env c f)
          | |- context [?c =? 0] => destruct (c =? 0)
          end; run).

Lemma stt_clock file_bytes file_ext env w :
  clock_reads (stt.transcribe_speech_to_text file_bytes file_ext env w).2 = clock_reads w.
Proof.
  unfold stt.transcribe_speech_to_text, TemporaryDirectory, write_file, subprocess_run,
    read_text, read_file.
  run. case_environment env; done.
Qed.

Lemma llm_clock prompt env w :
  clock_reads (llm.generate_response prompt env w).2 = clock_reads w.
Proof.
  unfold llm.generate_response, llm.chat_send_message, llm.save_chat_history, write_file.
  run. case_environment env; done.
Qed.

Lemma tts_clock text env w :
  clock_reads (tts.transcribe_text_to_speech text env w).2 = clock_reads w.
Proof.
  tts_unfold. case_environment env; done.
Qed.

Lemma save_audio_clock audio tmpdir ext env w path :
  let '(r, w') := main.save_audio audio tmpdir ext env w in
  r = Ok path →
  clock_reads w' = S (S (clock_reads w)) ∧
  process_times w' =
    dict_set "save_audio"
      (timing "save_audio" (clock env (S (clock_reads w)) - clock env (clock_reads w))).2
      (process_times w).
Proof.
  unfold main.save_audio, write_file, timing. run.
  destruct (write_error env _) as [msg|]; run; done.
Qed.

Lemma speech_to_text_clock path ext env w user_text :
  let '(r, w') := main.speech_to_text path ext env w in
  r = Ok user_text →
  clock_reads w' = S (S (clock_reads w)) ∧
  process_times w' =
    dict_set "speech_to_text"
      (timing "speech_to_text" (clock env (S (clock_reads w)) - clock env (clock_reads w))).2
      (process_times w).
Proof.
  unfold main.speech_to_text, read_file, timing. run.
  destruct (fs w !! path) as [bytes|]; run; [|done].
  match goal with |- context [stt.transcribe_speech_to_text ?b ?e env ?w0] =>
    pose proof (stt_clock b e env w0) as C;
    pose proof (stt_frame b e env w0) as (P & _);
    destruct (stt.transcribe_speech_to_text b e env w0) as [[u|e'] w2] end;
  simpl in *; [|done]. rewrite C, P. done.
Qed.

Lemma llm_response_clock user_text env w ai_response :
  let '(r, w') := main.llm_response user_text env w in
  r = Ok ai_response →
  clock_reads w' = S (S (clock_reads w)) ∧
  process_times w' =
    dict_set "llm_response"
      (timing "llm_response" (clock env (S (clock_reads w)) - clock env (clock_reads w))).2
      (process_times w).
Proof.
  unfold main.llm_response, timing. run.
  match goal with |- context [llm.generate_response ?p env ?w0] =>
    pose proof (llm_clock p env w0) as C;
    pose proof (generate_response_run p env w0) as H;
    destruct (llm.generate_response p env w0) as [[u|e'] w2] end;
  cbv zeta in H; destruct H as (_ & _ & _ & _ & P & _);
  simpl in *; [|done]. rewrite C, P. done.
Qed.

Lemma text_to_speech_clock ai_response env w path :
  let '(r, w') := main.text_to_speech ai_response env w in
  r = Ok path →
  clock_reads w' = S (S (clock_reads w)) ∧
  process_times w' =
    dict_set "text_to_speech"
      (timing "text_to_speech" (clock env (S (clock_reads w)) - clock env (clock_reads w))).2
      (process_times w).
Proof.
  unfold main.text_to_speech, timing. run.
  match goal with |- context [tts.transcribe_text_to_speech ?t env ?w0] =>
    pose proof (tts_clock t env w0) as C;
    pose proof (tts_frame t env w0) as (P & _);
    destruct (tts.transcribe_text_to_speech t env w0) as [[u|e'] w2] end;
  simpl in *; [|done]. rewrite C, P. done.
Qed.

Lemma stages_clock audio ext tmpdir env w path :
  let '(r, w') := main.stages audio ext tmpdir env w in
  process_times w = [] → r = Ok path →
  clock_reads w' = (clock_reads w + 8)%nat ∧
  process_times w' =
    [timing "save_audio" (reading env w 1 - reading env w 0);
     timing "speech_to_text" (reading env w 3 - reading env w 2);
     timing "llm_response" (reading env w 5 - reading env w 4);
     timing "text_to_speech" (reading env w 7 - reading env w 6)].
Proof.
  unfold main.stages, reading. rewrite run_bind.
  pose proof (save_audio_clock audio tmpdir ext env w) as H1.
  destruct (main.save_audio audio tmpdir ext env w) as [[p1|e1] w1]; [|done].
  destruct (H1 p1 eq_refl) as [C1 P1]. clear H1. rewrite run_bind.
  pose proof (speech_to_text_clock p1 ext env w1) as H2.
  destruct (main.speech_to_text p1 ext env w1) as [[u|e2] w2]; [|done].
  destruct (H2 u eq_refl) as [C2 P2]. clear H2. rewrite run_bind.
  pose proof (llm_response_clock u env w2) as H3.
  destruct (main.llm_response u env w2) as [[a|e3] w3]; [|done].
  destruct (H3 a eq_refl) as [C3 P3]. clear H3.
  pose proof (text_to_speech_clock a env w3) as H4.
  destruct (main.text_to_speech a env w3) as [[p4|e4] w4]; [|done].
  destruct (H4 p4 eq_refl) as [C4 P4]. clear H4.
  intros P0 _. rewrite P0 in P1.
  rewrite P4, P3, P2, P1, C4, C3, C2, C1.
  split; [lia|]. unfold dict_set, timing. simpl.
  rewrite ?C3, ?C2, ?C1.
  replace (clock_reads w + 0)%nat with (clock_reads w) by lia.
  replace (clock_reads w + 1)%nat with (S (clock_reads w)) by lia.
  replace (clock_reads w + 2)%nat with (S (S (clock_reads w))) by lia.
  replace (clock_reads w + 3)%nat with (S (S (S (clock_reads w)))) by lia.
  replace (clock_reads w + 4)%nat with (S (S (S (S (clock_reads w))))) by lia.
  replace (clock_reads w + 5)%nat with (S (S (S (S (S (clock_reads w)))))) by lia.
  replace (clock_reads w + 6)%nat with (S (S (S (S (S (S (clock_reads w))))))) by lia.
  replace (clock_reads w + 7)%nat with (S (S (S (S (S (S (S (clock_reads w)))))))) by lia.
  done.
Qed.

(** X27.  A request that is answered reads the clock eight times, twice
    per step, and the entry of a step in [process_times] is the difference
    of its two readings: the time between two steps is in no entry. *)
Theorem timings_are_differences_of_clock_readings audio env w :
  match main.voice_chat audio env w with
  | (Ok response, w') =>
      clock_reads w' = (clock_reads w + 8)%nat ∧
      process_times w' =
        [timing "save_audio" (reading env w 1 - reading env w 0);
         timing "speech_to_text" (reading env w 3 - reading env w 2);
         timing "llm_response" (reading env w 5 - reading env w 4);
         timing "text_to_speech" (reading env w 7 - reading env w 6)]
  | (Raise _, _) => True
  end.
Proof.
  rewrite voice_chat_unfold. case_bool_decide as Hacc; [|done]. cbv zeta.
  pose proof (stages_run audio (main.file_ext_of audio) (tmpdir_at env w) env (entered w)
                eq_refl eq_refl) as Hrun.
  pose proof (stages_clock audio (main.file_ext_of audio) (tmpdir_at env w) env (entered w))
    as Hclock.
  destruct (main.stages _ _ _ _ _) as [[path|e] w2]; [|done]. simpl in Hrun.
  destruct (Hclock path eq_refl eq_refl) as [C P]. clear Hclock.
  inversion Hrun as [| | |? ? t1 t2 t3 t4 evs2 evs4 u a E S2 S4 P' D T]; subst.
  clear P'.
  change (clock_reads (entered w)) with (clock_reads w) in C.
  change (reading env (entered w)) with (reading env w) in P.
  rewrite (respond_run path env (set_fs (rmtree (tmpdir_at env w)) w2) _ _ _ _ u a P D).
  by destruct (encode_error env _).
Qed.
